(** * Midnight Explorer data layer: a shallow embedding and its properties

    The development follows [src/lib/data.ts] in its two builds: the
    indexer-backed build (MockProvider, HttpProvider over GraphQL with mock
    fall-backs) and the RPC-only build (HttpProvider over the chain node).
    It also covers the helpers of [src/lib/polkadot.ts] and
    [src/lib/utils.ts], and the links and the search bar of the pages.

    Conventions of the embedding:
    - a JavaScript number is an integer of [Z] or [NaN], which is exact
      where a double is, up to [MAX_SAFE_INTEGER]: the properties of cursors
      bound their offsets by it; the few places where the source computes
      with fractions in double precision are modelled with primitive floats
      ([floorTimes]);
    - a JavaScript string is a [string] whose characters are code units below
      256;
    - a value of type [any] is a [jsval]; an object is an association list
      read at its first binding;
    - code that can throw lives in the [exc] monad; an awaited promise that
      rejects is a [Throw] as well;
    - a reading of [new Date()] is a parameter: milliseconds since the epoch;
      the local time zone of the host is a parameter too, with the offsets
      that it has at each time, so that they may change with daylight saving
      ([Zone]). *)

From Stdlib Require Import ZArith List String Ascii Bool Lia Floats.
Import ListNotations.
Local Open Scope Z_scope.

(** ** Exceptions *)

Inductive exc (A : Type) : Type :=
| Return (a : A)
| Throw (e : string).
Arguments Return {A} a.
Arguments Throw {A} e.

Definition bind {A B : Type} (c : exc A) (k : A -> exc B) : exc B :=
  match c with
  | Return a => k a
  | Throw e => Throw e
  end.

Notation "x <- c ;; k" := (bind c (fun x => k))
  (at level 61, c at next level, right associativity).

(** [try { body } catch { handler }] *)
Definition try_catch {A : Type} (body : exc A) (handler : A) : A :=
  match body with
  | Return a => a
  | Throw _ => handler
  end.

(** ** The JavaScript runtime, as far as the data layer uses it *)

Module Js.

(** The numbers of the data layer are heights, counts, offsets and time
    values: integers, or [NaN].  [Int z] holds the integer exactly, as a
    double does while its magnitude is at most [MAX_SAFE_INTEGER]; above it a
    double rounds, and from 10^21 on it prints with an exponent.  What is
    stated about the arithmetic, the printing and the reading of offsets is
    therefore stated for offsets up to that bound. *)
Inductive num : Type :=
| NaN
| Int (z : Z).

(** [Number.MAX_SAFE_INTEGER], 2^53 - 1 *)
Definition MAX_SAFE_INTEGER : Z := 9007199254740991.

Definition isNaN (n : num) : bool :=
  match n with NaN => true | Int _ => false end.

Definition str (s : string) (t : string) : string := String.append s t.
Infix "+++" := str (at level 60, right associativity).

(** *** Number to string *)

(** The digit [d] of a radix up to 16, as [Number.prototype.toString] prints it. *)
Definition digitChar (d : Z) : ascii :=
  if d <? 10 then ascii_of_nat (48 + Z.to_nat d) else ascii_of_nat (87 + Z.to_nat d).

Fixpoint digitsAcc (fuel : nat) (radix n : Z) (acc : string) : string :=
  match fuel with
  | O => acc
  | S fuel' =>
      let acc' := String (digitChar (n mod radix)) acc in
      if n / radix =? 0 then acc' else digitsAcc fuel' radix (n / radix) acc'
  end.

(** [n.toString(radix)] for an integer [n] of a magnitude up to
    [MAX_SAFE_INTEGER]. *)
Definition toStringRadix (radix n : Z) : string :=
  if n <? 0
  then "-" +++ digitsAcc (S (Z.to_nat (Z.log2 (- n)))) radix (- n) EmptyString
  else digitsAcc (S (Z.to_nat (Z.log2 n))) radix n EmptyString.

(** [String(n)], [n.toString()] and [`${n}`] for an integer [n] of a
    magnitude up to [MAX_SAFE_INTEGER]. *)
Definition Number_toString (n : Z) : string := toStringRadix 10 n.

Definition num_toString (n : num) : string :=
  match n with
  | NaN => "NaN"
  | Int z => Number_toString z
  end.

(** [String(n).padStart(w, "0")] for a non-negative [n]. *)
Fixpoint zeros (k : nat) : string :=
  match k with O => EmptyString | S k' => String "0" (zeros k') end.

Definition padStart0 (w : nat) (s : string) : string :=
  zeros (w - String.length s) +++ s.

(** *** String to number *)

(** White space of [StrWhiteSpaceChar] among the code units below 256. *)
Definition isWhiteSpace (c : ascii) : bool :=
  let n := nat_of_ascii c in
  ((9 <=? n) && (n <=? 13) || (n =? 32) || (n =? 160))%nat.

Fixpoint skipWhiteSpace (s : string) : string :=
  match s with
  | String c s' => if isWhiteSpace c then skipWhiteSpace s' else s
  | EmptyString => s
  end.

(** The value of [c] as a digit, when it is one of [0-9a-zA-Z]. *)
Definition digitValue (c : ascii) : option Z :=
  let n := Z.of_nat (nat_of_ascii c) in
  if (48 <=? n) && (n <=? 57) then Some (n - 48)
  else if (97 <=? n) && (n <=? 122) then Some (n - 87)
  else if (65 <=? n) && (n <=? 90) then Some (n - 55)
  else None.

(** The longest prefix of digits of the radix, read left to right;
    [None] when that prefix is empty. *)
Fixpoint parseDigits (radix : Z) (s : string) (acc : option Z) : option Z :=
  match s with
  | String c s' =>
      match digitValue c with
      | Some d =>
          if d <? radix
          then parseDigits radix s' (Some (match acc with Some a => a * radix + d | None => d end))
          else acc
      | None => acc
      end
  | EmptyString => acc
  end.

Definition signed (negative : bool) (digits : option Z) : num :=
  match digits with
  | Some v => Int (if negative then - v else v)
  | None => NaN
  end.

Definition parseSigned (radix : Z) (stripPrefix : bool) (negative : bool) (s : string) : num :=
  match s with
  | String "0" (String x s') =>
      if stripPrefix && (Ascii.eqb x "x" || Ascii.eqb x "X")
      then signed negative (parseDigits 16 s' None)
      else signed negative (parseDigits radix s None)
  | _ => signed negative (parseDigits radix s None)
  end.

Definition parseIntWith (radix : Z) (stripPrefix : bool) (s : string) : num :=
  match skipWhiteSpace s with
  | String "-" s' => parseSigned radix stripPrefix true s'
  | String "+" s' => parseSigned radix stripPrefix false s'
  | s' => parseSigned radix stripPrefix false s'
  end.

(** [parseInt(s, 10)], for digits that spell a number of a magnitude up to
    [MAX_SAFE_INTEGER]. *)
Definition parseInt10 (s : string) : num := parseIntWith 10 false s.

(** [parseInt(s)]: radix 10, or 16 after a [0x] prefix. *)
Definition parseInt (s : string) : num := parseIntWith 10 true s.

(** [/^\d+$/.test(s)] *)
Definition isDigit (c : ascii) : bool :=
  let n := nat_of_ascii c in ((48 <=? n) && (n <=? 57))%nat.

Fixpoint allDigits (s : string) : bool :=
  match s with
  | EmptyString => true
  | String c s' => isDigit c && allDigits s'
  end.

Definition isDecimal (s : string) : bool :=
  match s with
  | EmptyString => false
  | _ => allDigits s
  end.

(** *** Lower case *)

(** [toLowerCase] on code units below 256: A-Z, and the upper-case letters
    of Latin-1 (C0-DE but D7), move up by 32. *)
Definition lowerChar (c : ascii) : ascii :=
  let n := nat_of_ascii c in
  if ((65 <=? n) && (n <=? 90) || (192 <=? n) && (n <=? 222) && negb (n =? 215))%nat
  then ascii_of_nat (n + 32)
  else c.

Fixpoint toLowerCase (s : string) : string :=
  match s with
  | EmptyString => EmptyString
  | String c s' => String (lowerChar c) (toLowerCase s')
  end.

(** *** Arrays *)

(** The relative index of [Array.prototype.slice] for an array of [len] items. *)
Definition relIndex (len : Z) (i : num) : Z :=
  match i with
  | NaN => 0
  | Int z => if z <? 0 then Z.max (len + z) 0 else Z.min z len
  end.

(** [xs.slice(start, stop)] *)
Definition slice {A : Type} (xs : list A) (start stop : num) : list A :=
  let len := Z.of_nat (List.length xs) in
  let k := relIndex len start in
  let final := relIndex len stop in
  firstn (Z.to_nat (final - k)) (skipn (Z.to_nat k) xs).

(** [x + y], [x < y] and [x > y] on numbers; a comparison with [NaN] is false. *)
Definition add (x y : num) : num :=
  match x, y with
  | Int a, Int b => Int (a + b)
  | _, _ => NaN
  end.

Definition ltb (x y : num) : bool :=
  match x, y with
  | Int a, Int b => a <? b
  | _, _ => false
  end.

Definition gtb (x y : num) : bool := ltb y x.

Definition lengthOf {A : Type} (xs : list A) : num := Int (Z.of_nat (List.length xs)).

(** *** Seeded arithmetic *)

(** [x | 0]: the signed 32-bit integer of [x]. *)
Definition toInt32 (z : Z) : Z := (z + 2 ^ 31) mod 2 ^ 32 - 2 ^ 31.

(** [Math.floor(f)] for a finite double [f]. *)
Definition floorFloat (f : float) : Z :=
  match Prim2SF f with
  | S754_finite negative m e =>
      let mant := if negative then Z.neg m else Z.pos m in
      if 0 <=? e then mant * 2 ^ e else mant / 2 ^ (- e)
  | _ => 0
  end.

Definition floatOfZ (z : Z) : float := PrimFloat.of_uint63 (Uint63.of_Z z).

(** [Math.floor((k / 1000000) * c)] in double precision, for the numerator
    [k] of a seeded value and a small non-negative constant [c]. *)
Definition floorTimes (c k : Z) : Z :=
  floorFloat (PrimFloat.mul (PrimFloat.div (floatOfZ k) (floatOfZ 1000000)) (floatOfZ c)).

(** *** Dates *)

(** A Date holds a time value: milliseconds since the epoch, or [NaN] for an
    invalid date. *)
Definition maxTime : Z := 8640000000000000.

Definition TimeClip (t : num) : num :=
  match t with
  | Int z => if Z.abs z <=? maxTime then Int z else NaN
  | NaN => NaN
  end.

(** Year, month and day of the day number [z] counted from 1970-01-01. *)
Definition civilFromDays (z : Z) : Z * Z * Z :=
  let z := z + 719468 in
  let era := z / 146097 in
  let doe := z - era * 146097 in
  let yoe := (doe - doe / 1460 + doe / 36524 - doe / 146096) / 365 in
  let doy := doe - (365 * yoe + yoe / 4 - yoe / 100) in
  let mp := (5 * doy + 2) / 153 in
  let d := doy - (153 * mp + 2) / 5 + 1 in
  let m := if mp <? 10 then mp + 3 else mp - 9 in
  (if m <=? 2 then yoe + era * 400 + 1 else yoe + era * 400, m, d).

Definition pad (w : nat) (n : Z) : string := padStart0 w (Number_toString n).

(** Years 0 to 9999 print with four digits, the others with a sign and six. *)
Definition isoYear (y : Z) : string :=
  if (0 <=? y) && (y <=? 9999) then pad 4 y
  else if y <? 0 then "-" +++ pad 6 (- y) else "+" +++ pad 6 y.

Definition isoDate (t : Z) : string :=
  let '(y, m, d) := civilFromDays (t / 86400000) in
  isoYear y +++ "-" +++ pad 2 m +++ "-" +++ pad 2 d.

Definition isoTime (t : Z) : string :=
  let ms := t mod 86400000 in
  pad 2 (ms / 3600000) +++ ":" +++ pad 2 (ms / 60000 mod 60) +++ ":" +++
  pad 2 (ms / 1000 mod 60) +++ "." +++ pad 3 (ms mod 1000) +++ "Z".

(** [date.toISOString()] *)
Definition toISOString (date : num) : exc string :=
  match date with
  | NaN => Throw "RangeError: Invalid time value"
  | Int t => Return (isoDate t +++ "T" +++ isoTime t)
  end.

(** [s.split(sep)[0]] for a one-character separator. *)
Fixpoint splitHead (sep : ascii) (s : string) : string :=
  match s with
  | EmptyString => EmptyString
  | String c s' => if Ascii.eqb c sep then EmptyString else String c (splitHead sep s')
  end.

(** The local time zone of the host, as the Date methods see it:
    [offsetAt t] is the offset of local time from UTC, in milliseconds, in
    force at the time value [t] (LocalTZA(t, true)), and [offsetOf l] the
    offset that the host takes for the local time value [l]
    (LocalTZA(l, false)).  Both change with the daylight saving rules of the
    zone, and nothing is assumed about either. *)
Record Zone : Type := mkZone {
  offsetAt : Z -> Z;
  offsetOf : Z -> Z
}.

(** A zone whose offset never changes: [minutes] ahead of UTC. *)
Definition fixedZone (minutes : Z) : Zone :=
  mkZone (fun _ => minutes * 60000) (fun _ => minutes * 60000).

Definition utc : Zone := fixedZone 0.

Definition LocalTime (tz : Zone) (t : Z) : Z := t + offsetAt tz t.

Definition UTC (tz : Zone) (l : Z) : Z := l - offsetOf tz l.

Definition MinFromTime (t : Z) : Z := t / 60000 mod 60.

(** [date.getMinutes()]: the minutes of the local time. *)
Definition getMinutes (tz : Zone) (t : Z) : Z := MinFromTime (LocalTime tz t).

(** [date.setMinutes(min)] where [min] is a whole number of minutes: the
    minutes of the local time are replaced, its day, hour, seconds and
    milliseconds stay, and the new local time is taken back to UTC with the
    offset that holds there. *)
Definition setMinutes (tz : Zone) (t min : Z) : num :=
  let local := LocalTime tz t in
  let date := local + (min - MinFromTime local) * 60000 in
  TimeClip (Int (UTC tz date)).

(** A zone is steady when no two of its offsets are more than four hours
    apart: its offset is fixed, or changes by daylight saving shifts, which
    are of an hour or so. *)
Definition steady (tz : Zone) : Prop :=
  forall t l, Z.abs (offsetAt tz t - offsetOf tz l) <= 14400000.

(** The offset of a zone is unchanged between the time value [t] and the
    local time value [l] when the same offset applies to both. *)
Definition sameOffset (tz : Zone) (t l : Z) : Prop :=
  offsetOf tz l = offsetAt tz t.

End Js.

(** ** The domain types of [src/lib/types] *)

Record Block : Type := mkBlock {
  height : Z;
  hash : string;
  timestamp : string;
  txCount : Z
}.

Inductive Status : Type := success | failed | pending.

Record Transaction : Type := mkTransaction {
  tx_hash : string;
  status : Status;
  blockHeight : option Z;
  tx_timestamp : option string;
  size : option Z
}.

Record AddressSummary : Type := mkAddressSummary {
  address : string;
  balance : option string;
  addr_txCount : option Z
}.

Record Page (T : Type) : Type := mkPage {
  items : list T;
  nextCursor : option string
}.
Arguments mkPage {T} items nextCursor.
Arguments items {T} p.
Arguments nextCursor {T} p.

Definition pageSize : Z := 20.

(** [cursor ? parseInt(cursor, 10) : 0]: an absent or empty cursor is falsy. *)
Definition cursorOffset (cursor : option string) : Js.num :=
  match cursor with
  | None => Js.Int 0
  | Some EmptyString => Js.Int 0
  | Some s => Js.parseInt10 s
  end.

(** [cond ? (offset + pageSize).toString() : undefined] *)
Definition cursorWhen (cond : bool) (offset : Js.num) : option string :=
  if cond then Some (Js.num_toString (Js.add offset (Js.Int pageSize))) else None.

(** [xs.find(p)] is [List.find]; [xs.slice(offset, offset + pageSize)]: *)
Definition window {T : Type} (xs : list T) (offset : Js.num) : list T :=
  Js.slice xs offset (Js.add offset (Js.Int pageSize)).

(** *** Vocabulary for the pagination contract *)

(** The items of [xs] from [offset] on, at most [pageSize] of them. *)
Definition windowOf {T : Type} (xs : list T) (offset : Z) : list T :=
  firstn (Z.to_nat pageSize) (skipn (Z.to_nat offset) xs).

(** Strictly more than the window at [offset] exists among [total] items. *)
Definition moreBeyond (total : nat) (offset : Z) : Prop :=
  offset + pageSize < Z.of_nat total.

Definition present (cursor : option string) : Prop := cursor <> None.

(** A next cursor, when there is one, is the decimal string of
    [offset + pageSize], and reads back as that offset. *)
Definition encodes (cursor : option string) (offset : Z) : Prop :=
  forall s, cursor = Some s ->
            s = Js.Number_toString (offset + pageSize) /\
            cursorOffset (Some s) = Js.Int (offset + pageSize).

(** ** The Mock Generator: [seededRandom], [generateMockBlock],
    [generateMockTransaction] and [MockProvider] *)

Module Mock.
Import Js.

Fixpoint hashLoop (seed : string) (hash : Z) : Z :=
  match seed with
  | EmptyString => hash
  | String c seed' =>
      hashLoop seed' (toInt32 (toInt32 (hash * 32) - hash + Z.of_nat (nat_of_ascii c)))
  end.

(** [seededRandom(seed)] returns the double [k / 1000000]; the model returns
    its numerator [k]. *)
Definition seededRandom (seed : string) : Z :=
  Z.abs (hashLoop seed 0) mod 1000000.

Fixpoint concat (parts : list string) : string :=
  match parts with
  | [] => EmptyString
  | p :: parts' => p +++ concat parts'
  end.

(** [Array.from({ length: 64 }, (_, i) => ...).join('')] *)
Definition fakeHash (seed : string) : string :=
  concat (map (fun i : nat =>
                 toStringRadix 16
                   (floorTimes 16 (seededRandom (seed +++ "-" +++ Number_toString (Z.of_nat i)))))
              (seq 0 64)).

Section Clock.

(** The local zone of the host. *)
Variable tz : Zone.

(** [generateMockBlock(height)], with [now] the reading of [new Date()]. *)
Definition generateMockBlock (now : Z) (height : Z) : exc Block :=
  let date := setMinutes tz now (getMinutes tz now - height * 2) in
  iso <- toISOString date ;;
  let seed := "block-" +++ Number_toString height +++ "-" +++ splitHead "T" iso in
  let rand := seededRandom seed in
  let hash := fakeHash seed in
  timestamp <- toISOString date ;;
  Return (mkBlock height hash timestamp (floorTimes 20 rand + 1)).

(** [blockHeight || 0] and the truthiness of an optional number *)
Definition orZero (h : option Z) : Z :=
  match h with Some z => z | None => 0 end.

Definition truthyHeight (h : option Z) : bool :=
  match h with Some z => negb (z =? 0) | None => false end.

(** [generateMockTransaction(index, blockHeight)].  The minutes handed to
    [setMinutes] are [m - h * 2 - index * 0.1], which it truncates towards
    zero: the quotient of [10 * (m - h * 2) - index] by 10 (in double
    precision as well, for the indices and heights of the corpus). *)
Definition generateMockTransaction (now : Z) (index : Z) (blockHeight : option Z)
  : exc Transaction :=
  let minutes := Z.quot (10 * (getMinutes tz now - orZero blockHeight * 2) - index) 10 in
  let date := setMinutes tz now minutes in
  iso <- toISOString date ;;
  let seed := "tx-" +++ Number_toString index +++ "-" +++ splitHead "T" iso in
  let rand := seededRandom seed in
  let hash := fakeHash seed in
  timestamp <- (if truthyHeight blockHeight
                then (t <- toISOString date ;; Return (Some t))
                else Return None) ;;
  Return (mkTransaction hash
            (if truthyHeight blockHeight then success
             else if 900000 <? rand then failed else pending)
            blockHeight timestamp (Some (floorTimes 2000 rand + 500))).

(** [for (let i = 0; i < n; i++) out.push(f(i))] *)
Fixpoint pushAll {A : Type} (f : nat -> exc A) (indices : list nat) : exc (list A) :=
  match indices with
  | [] => Return []
  | i :: indices' =>
      x <- f i ;;
      xs <- pushAll f indices' ;;
      Return (x :: xs)
  end.

Record MockProvider : Type := mkMockProvider {
  mockBlocks : list Block;
  mockTransactions : list Transaction
}.

Definition latestHeight : Z := 12345.

(** [new MockProvider()]; [clock n] is the reading of the [n]-th [new Date()]
    of the construction. *)
Definition construct (clock : nat -> Z) : exc MockProvider :=
  blocks <- pushAll (fun i => generateMockBlock (clock i) (latestHeight - Z.of_nat i))
                    (seq 0 100) ;;
  txs <- pushAll (fun i =>
                    let blockHeight :=
                      if (i <? 160)%nat then Some (latestHeight - Z.of_nat (i / 4)) else None in
                    generateMockTransaction (clock (100 + i)%nat) (Z.of_nat i) blockHeight)
                 (seq 0 200) ;;
  Return (mkMockProvider blocks txs).

End Clock.

Section Operations.

Variable mp : MockProvider.

Definition getLatestBlocks (limit : num) : list Block :=
  slice (mockBlocks mp) (Int 0) limit.

Definition getLatestTransactions (limit : num) : list Transaction :=
  slice (mockTransactions mp) (Int 0) limit.

Definition getBlocksPage (cursor : option string) : Page Block :=
  let cursorIndex := cursorOffset cursor in
  mkPage (window (mockBlocks mp) cursorIndex)
         (cursorWhen (ltb (add cursorIndex (Int pageSize)) (lengthOf (mockBlocks mp)))
                     cursorIndex).

Definition getBlockByHashOrHeight (id : string) : option Block :=
  match parseInt10 id with
  | Int h => find (fun b => height b =? h) (mockBlocks mp)
  | NaN => find (fun b => String.eqb (hash b) id) (mockBlocks mp)
  end.

Definition getTransactionsPage (cursor : option string) : Page Transaction :=
  let cursorIndex := cursorOffset cursor in
  mkPage (window (mockTransactions mp) cursorIndex)
         (cursorWhen (ltb (add cursorIndex (Int pageSize)) (lengthOf (mockTransactions mp)))
                     cursorIndex).

Definition getTransactionByHash (h : string) : option Transaction :=
  find (fun t => String.eqb (tx_hash t) h) (mockTransactions mp).

(** [(n / 100).toString()] for [n] hundredths: the shortest decimal. *)
Definition hundredths (n : Z) : string :=
  let whole := Number_toString (n / 100) in
  let frac := n mod 100 in
  if frac =? 0 then whole
  else if frac mod 10 =? 0 then whole +++ "." +++ Number_toString (frac / 10)
  else whole +++ "." +++ pad 2 frac.

Definition getAddressSummary (addr : string) : option AddressSummary :=
  let rand := seededRandom ("addr-" +++ addr) in
  Some (mkAddressSummary addr
          (Some (hundredths (floorTimes 10000 rand)))
          (Some (floorTimes 50 rand + 1))).

(** The height that [getBlockTransactions] resolves [id] to. *)
Definition resolveHeight (id : string) : option Z :=
  match parseInt10 id with
  | Int h => Some h
  | NaN => option_map height (find (fun b => String.eqb (hash b) id) (mockBlocks mp))
  end.

Definition heightIs (h : Z) (t : Transaction) : bool :=
  match blockHeight t with Some z => z =? h | None => false end.

Definition getBlockTransactions (id : string) (cursor : option string) : Page Transaction :=
  match resolveHeight id with
  | None => mkPage [] None
  | Some h =>
      let allTxs := filter (heightIs h) (mockTransactions mp) in
      let cursorIndex := cursorOffset cursor in
      mkPage (window allTxs cursorIndex)
             (cursorWhen (ltb (add cursorIndex (Int pageSize)) (lengthOf allTxs)) cursorIndex)
  end.

End Operations.

(** *** Vocabulary for the properties of the corpus *)

(** A clock is sane when each of its readings leaves room for the shift of
    the generated entities, so that no shifted date is invalid. *)
Definition saneClock (clock : nat -> Z) : Prop :=
  forall n, Z.abs (clock n) <= maxTime - 1500000000.

Definition blockHeights : list Z :=
  map (fun i => latestHeight - Z.of_nat i) (seq 0 100).

Definition txHeightAt (i : nat) : option Z :=
  if (i <? 160)%nat then Some (latestHeight - Z.of_nat (i / 4)) else None.

Definition txHeights : list (option Z) := map txHeightAt (seq 0 200).

(** The offsets at which the page of an empty list has no next cursor. *)
Definition notBelow (bound : Z) (offset : num) : Prop :=
  match offset with NaN => True | Int o => bound <= o end.

(** The transactions that [getBlockTransactions] pages for [id]. *)
Definition transactionsOfBlock (mp : MockProvider) (id : string) : list Transaction :=
  match resolveHeight mp id with
  | Some h => filter (heightIs h) (mockTransactions mp)
  | None => []
  end.

(** A corpus of 25 blocks for the examples. *)
Definition smallCorpus : MockProvider :=
  mkMockProvider
    (map (fun i => mkBlock (100 - Z.of_nat i) "0xblock" "2024-01-01T00:00:00.000Z" 1)
         (seq 0 25))
    [].

(** The seed of the block at height [h] generated on the day [day]. *)
Definition blockSeed (h : Z) (day : string) : string :=
  "block-" +++ Number_toString h +++ "-" +++ day.

(** The seed of the transaction at [index] generated on the day [day]. *)
Definition txSeed (index : Z) (day : string) : string :=
  "tx-" +++ Number_toString index +++ "-" +++ day.

(** The date that [generateMockBlock] computes for [height] from the reading
    [now] of the clock in the zone [tz], and the one that
    [generateMockTransaction] computes for [index] and [blockHeight]. *)
Definition blockDate (tz : Zone) (now height : Z) : num :=
  setMinutes tz now (getMinutes tz now - height * 2).

Definition transactionDate (tz : Zone) (now index : Z) (blockHeight : option Z) : num :=
  setMinutes tz now (Z.quot (10 * (getMinutes tz now - orZero blockHeight * 2) - index) 10).

(** The UTC calendar day of a valid date, as [toISOString] prints it. *)
Definition dayOf (date : num) : option string :=
  match date with
  | Int t => Some (isoDate t)
  | NaN => None
  end.

(** Does [s] lack the character [c]? *)
Fixpoint lacks (c : ascii) (s : string) : bool :=
  match s with
  | EmptyString => true
  | String x s' => negb (Ascii.eqb x c) && lacks c s'
  end.

(** Two readings of the clock: 2024-01-01T12:00:00.123Z and the same time a
    day later. *)
Definition newYearNoon : Z := 1704110400123.
Definition nextDayNoon : Z := 1704196800123.

(** A reading shortly after midnight: 2024-01-01T00:16:30.000Z. *)
Definition newYearNight : Z := 1704068190000.

End Mock.

(** ** Values of type [any]: the payloads of the indexer *)

#[warnings="-register-all"] Inductive jsval : Type :=
| JUndefined
| JNull
| JBool (b : bool)
| JNum (n : Js.num)
| JStr (s : string)
| JArr (xs : list jsval)
| JObj (fields : list (string * jsval)).

Module Any.
Import Js.

(** [!!v] *)
Definition truthy (v : jsval) : bool :=
  match v with
  | JUndefined | JNull => false
  | JBool b => b
  | JNum NaN => false
  | JNum (Int z) => negb (z =? 0)
  | JStr s => negb (String.eqb s EmptyString)
  | JArr _ | JObj _ => true
  end.

Definition isUndefined (v : jsval) : bool :=
  match v with JUndefined => true | _ => false end.

Fixpoint lookup (k : string) (fields : list (string * jsval)) : jsval :=
  match fields with
  | [] => JUndefined
  | (k', v) :: fields' => if String.eqb k' k then v else lookup k fields'
  end.

(** [v.k] for the property names the data layer reads; of the inherited
    members only [length] is among them. *)
Definition get (v : jsval) (k : string) : exc jsval :=
  match v with
  | JUndefined | JNull => Throw "TypeError: cannot read properties of null or undefined"
  | JObj fields => Return (lookup k fields)
  | JArr xs => Return (if String.eqb k "length" then JNum (lengthOf xs) else JUndefined)
  | JStr s =>
      Return (if String.eqb k "length" then JNum (Int (Z.of_nat (String.length s)))
              else JUndefined)
  | JBool _ | JNum _ => Return JUndefined
  end.

(** [v?.k] *)
Definition getOpt (v : jsval) (k : string) : exc jsval :=
  match v with
  | JUndefined | JNull => Return JUndefined
  | _ => get v k
  end.

(** [a || b] and [a ?? b]; the right operand is evaluated on demand. *)
Definition orElse (a b : exc jsval) : exc jsval :=
  x <- a ;; if truthy x then Return x else b.

Definition nullish (a b : exc jsval) : exc jsval :=
  x <- a ;;
  match x with
  | JUndefined | JNull => b
  | _ => Return x
  end.

Infix "|?|" := orElse (at level 62, right associativity).

(** [xs.map(f)], a TypeError when [xs] is no array. *)
Definition arrayMap {B : Type} (f : jsval -> B) (xs : jsval) : exc (list B) :=
  match xs with
  | JArr ys => Return (map f ys)
  | _ => Throw "TypeError: map is not a function"
  end.

(** [xs.filter(x => x !== null)] *)
Fixpoint notNull {B : Type} (xs : list (option B)) : list B :=
  match xs with
  | [] => []
  | Some x :: xs' => x :: notNull xs'
  | None :: xs' => notNull xs'
  end.

(** [String(v)] and [v.toString()] where the method exists. *)
Fixpoint toString (v : jsval) : string :=
  match v with
  | JUndefined => "undefined"
  | JNull => "null"
  | JBool true => "true"
  | JBool false => "false"
  | JNum n => num_toString n
  | JStr s => s
  | JObj _ => "[object Object]"
  | JArr xs =>
      (fix join (ys : list jsval) : string :=
         match ys with
         | [] => EmptyString
         | y :: ys' =>
             let here := match y with
                         | JUndefined | JNull => EmptyString
                         | _ => toString y
                         end in
             match ys' with
             | [] => here
             | _ => here +++ "," +++ join ys'
             end
         end) xs
  end.

(** [Number(v)] for the values that are no strings and no objects. *)
Definition toNumber (v : jsval) : option num :=
  match v with
  | JUndefined => Some NaN
  | JNull => Some (Int 0)
  | JBool b => Some (Int (if b then 1 else 0))
  | JNum n => Some n
  | JStr _ | JArr _ | JObj _ => None
  end.

Definition ofOptZ (z : option Z) : jsval :=
  match z with Some n => JNum (Int n) | None => JUndefined end.

Definition ofOptString (s : option string) : jsval :=
  match s with Some t => JStr t | None => JUndefined end.

End Any.

(** The entities as the indexer mapping builds them: object literals whose
    fields are whatever the payload held. *)

Record AnyBlock : Type := mkAnyBlock {
  any_height : jsval;
  any_hash : jsval;
  any_timestamp : jsval;
  any_txCount : jsval
}.

Record AnyTransaction : Type := mkAnyTransaction {
  any_tx_hash : jsval;
  any_status : Status;
  any_blockHeight : jsval;
  any_tx_timestamp : jsval;
  any_size : jsval
}.

Record AnyAddressSummary : Type := mkAnyAddressSummary {
  any_address : jsval;
  any_balance : option string;
  any_addr_txCount : jsval
}.

Definition ofBlock (b : Block) : AnyBlock :=
  mkAnyBlock (JNum (Js.Int (height b))) (JStr (hash b)) (JStr (timestamp b))
             (JNum (Js.Int (txCount b))).

Definition ofTransaction (t : Transaction) : AnyTransaction :=
  mkAnyTransaction (JStr (tx_hash t)) (status t) (Any.ofOptZ (blockHeight t))
                   (Any.ofOptString (tx_timestamp t)) (Any.ofOptZ (size t)).

Definition ofAddressSummary (a : AddressSummary) : AnyAddressSummary :=
  mkAnyAddressSummary (JStr (address a)) (balance a) (Any.ofOptZ (addr_txCount a)).

Definition mapPage {A B : Type} (f : A -> B) (p : Page A) : Page B :=
  mkPage (map f (items p)) (nextCursor p).

(** ** The Indexer Client: [HttpProvider] of the indexer-backed build *)

Module Indexer.
Import Js Any.
Local Open Scope string_scope.

(** What [fetch(INDEXER_URL, ...)] followed by [response.json()] yields. *)
Inductive response : Type :=
| Rejected
| NotOk
| Json (result : jsval).

Record HttpProvider : Type := mkHttpProvider {
  mockProvider : Mock.MockProvider
}.

Definition isTrue (v : jsval) : bool :=
  match v with JBool true => true | _ => false end.

Definition isFalse (v : jsval) : bool :=
  match v with JBool false => true | _ => false end.

Definition isString (v : jsval) (s : string) : bool :=
  match v with JStr t => String.eqb t s | _ => false end.

(** [v.toString()] for a truthy [v]: an own [toString] of a payload object
    is no function. *)
Definition callToString (v : jsval) : exc string :=
  match v with
  | JObj fields =>
      if existsb (fun kv => String.eqb (fst kv) "toString") fields
      then Throw "TypeError: toString is not a function"
      else Return (Any.toString v)
  | _ => Return (Any.toString v)
  end.

Section Provider.

Variable INDEXER_URL : string.

(** The local zone and the reading of [new Date()] during the operation. *)
Variable tz : Zone.
Variable now : Z.

(** The estimate of a timestamp for a height that is a string, an array or an
    object: the coercion of such a height to a number is left to the host. *)
Variable estimateOther : jsval -> exc string.

(** The indexer: the answer to a POST of [query] and [variables]. *)
Variable post : string -> string -> list (string * jsval) -> response.

Variable this : HttpProvider.

Definition graphQL (query : string) (variables : list (string * jsval)) : jsval :=
  if String.eqb INDEXER_URL EmptyString then JNull
  else
    match post INDEXER_URL query variables with
    | Rejected => JNull
    | NotOk => JNull
    | Json result =>
        try_catch
          (errors <- get result "errors" ;;
           if truthy errors then Return JNull else get result "data")
          JNull
    end.

Fixpoint tryQueries (queries : list (string * list (string * jsval))) : jsval :=
  match queries with
  | [] => JNull
  | (query, variables) :: queries' =>
      match graphQL query variables with
      | JNull => tryQueries queries'
      | result => result
      end
  end.

(** The estimate [now.setMinutes(now.getMinutes() - height * 2); now.toISOString()]. *)
Definition estimateTimestamp (height : jsval) : exc string :=
  match toNumber height with
  | Some (Int h) => toISOString (setMinutes tz now (getMinutes tz now - h * 2))
  | Some NaN => toISOString NaN
  | None => estimateOther height
  end.

(** The fields of a block, each probed under its alternative names. *)

Definition heightOf (blockData : jsval) : exc jsval :=
  get blockData "height" |?| get blockData "number" |?|
  (header <- get blockData "header" ;;
   number <- getOpt header "number" ;;
   match number with
   | JStr s => Return (JNum (parseInt10 s))
   | _ => Return number
   end).

Definition hashOf (blockData : jsval) : exc jsval :=
  get blockData "hash" |?| get blockData "blockHash" |?| get blockData "id".

Definition timestampOf (blockData height : jsval) : exc jsval :=
  timestamp0 <- (get blockData "timestamp" |?| get blockData "time" |?|
                 get blockData "datetime") ;;
  header <- get blockData "header" ;;
  headerTimestamp <- getOpt header "timestamp" ;;
  timestamp1 <- (if negb (truthy timestamp0) && truthy headerTimestamp
                 then (iso <- toISOString
                                (TimeClip (Js.parseInt (Any.toString headerTimestamp))) ;;
                       Return (JStr iso))
                 else Return timestamp0) ;;
  if negb (truthy timestamp1)
  then (iso <- estimateTimestamp height ;; Return (JStr iso))
  else Return timestamp1.

Definition txCountOf (blockData : jsval) : exc jsval :=
  get blockData "txCount" |?| get blockData "transactionCount" |?|
  get blockData "extrinsicsCount" |?|
  nullish (extrinsics <- get blockData "extrinsics" ;; getOpt extrinsics "length")
          (Return (JNum (Int 0))).

Definition mapBlock (block : jsval) : option AnyBlock :=
  try_catch
    (inner <- get block "block" ;;
     let blockData := if truthy inner then inner else block in
     height <- heightOf blockData ;;
     if isUndefined height then Return None
     else
       hash <- hashOf blockData ;;
       if negb (truthy hash) then Return None
       else
         timestamp <- timestampOf blockData height ;;
         txCount <- txCountOf blockData ;;
         Return (Some (mkAnyBlock height hash timestamp txCount)))
    None.

Definition mapTransaction (tx : jsval) : option AnyTransaction :=
  try_catch
    (txData <- (get tx "transaction" |?| get tx "extrinsic" |?| Return tx) ;;
     hash <- (get txData "hash" |?| get txData "txHash" |?| get txData "id") ;;
     if negb (truthy hash) then Return None
     else
       st <- get txData "status" ;;
       ok <- get txData "success" ;;
       let status :=
         if isTrue st || isTrue ok || isString st "success" then success
         else if isFalse st || isFalse ok || isString st "failed" then failed
         else pending in
       blockHeight <- (get txData "blockHeight" |?| get txData "blockNumber" |?|
                       nullish (block <- get txData "block" ;; getOpt block "height")
                               (Return JUndefined)) ;;
       timestamp0 <- (get txData "timestamp" |?| get txData "time" |?|
                      get txData "datetime") ;;
       block <- get txData "block" ;;
       blockTimestamp <- getOpt block "timestamp" ;;
       let timestamp :=
         if negb (truthy timestamp0) && truthy blockTimestamp then blockTimestamp
         else timestamp0 in
       size <- (get txData "size" |?| get txData "length" |?| Return JUndefined) ;;
       Return (Some (mkAnyTransaction hash status blockHeight timestamp size)))
    None.

(** [data.map(x => this.mapBlock(x)).filter(x => x !== null)] *)
Definition mapBlocks (blocksData : jsval) : exc (list AnyBlock) :=
  mapped <- arrayMap mapBlock blocksData ;; Return (notNull mapped).

Definition mapTransactions (txsData : jsval) : exc (list AnyTransaction) :=
  mapped <- arrayMap mapTransaction txsData ;; Return (notNull mapped).

Definition mock : Mock.MockProvider := mockProvider this.

(** [result.a || result.data?.a || ...] *)
Definition underData (result : jsval) (k : string) : exc jsval :=
  data <- get result "data" ;; getOpt data k.

Definition isEmpty {A : Type} (xs : list A) : bool :=
  match xs with [] => true | _ => false end.

(** [items.length === limit ? (offset + limit).toString() : undefined] *)
Definition fullPageCursor {A : Type} (items : list A) (offset : num) : option string :=
  cursorWhen (Z.of_nat (List.length items) =? pageSize)%Z offset.

(** *** The operations.  Each query text is the source's, its white space
    collapsed. *)

Definition vnum (n : num) : jsval := JNum n.
Definition vcursor (cursor : option string) : jsval := ofOptString cursor.

Definition blocksOf (result : jsval) : exc (list AnyBlock) :=
  blocksData <- (get result "blocks" |?| underData result "blocks" |?| Return (JArr [])) ;;
  mapBlocks blocksData.

Definition transactionsOf (result : jsval) : exc (list AnyTransaction) :=
  txsData <- (get result "transactions" |?| get result "extrinsics" |?|
              underData result "transactions" |?| underData result "extrinsics" |?|
              Return (JArr [])) ;;
  mapTransactions txsData.

Definition blockTransactionsOf (result : jsval) : exc (list AnyTransaction) :=
  txsData <- (get result "blockTransactions" |?| get result "extrinsics" |?|
              underData result "blockTransactions" |?| underData result "extrinsics" |?|
              Return (JArr [])) ;;
  mapTransactions txsData.

Definition latestBlocksQueries (limit : num) : list (string * list (string * jsval)) :=
  [ ("query GetLatestBlocks($limit: Int!) { blocks(orderBy: HEIGHT_DESC, limit: $limit) { height hash timestamp extrinsicsCount } }",
     [("limit", vnum limit)]);
    ("query GetLatestBlocks($limit: Int!) { blocks(orderBy: {height: DESC}, limit: $limit) { height hash timestamp transactionCount } }",
     [("limit", vnum limit)]);
    ("query GetLatestBlocks($limit: Int!) { blocks(first: $limit, orderBy: height, orderDirection: desc) { id number timestamp transactionsCount } }",
     [("limit", vnum limit)]) ].

Definition getLatestBlocks (limit : num) : list AnyBlock :=
  let fallback := map ofBlock (Mock.getLatestBlocks mock limit) in
  try_catch
    (let result := tryQueries (latestBlocksQueries limit) in
     if negb (truthy result) then Return fallback
     else
       blocks <- blocksOf result ;;
       Return (if isEmpty blocks then fallback else blocks))
    fallback.

Definition latestTransactionsQueries (limit : num) : list (string * list (string * jsval)) :=
  [ ("query GetLatestTransactions($limit: Int!) { transactions(orderBy: TIMESTAMP_DESC, limit: $limit) { hash status blockHeight timestamp size } }",
     [("limit", vnum limit)]);
    ("query GetLatestTransactions($limit: Int!) { extrinsics(orderBy: {timestamp: DESC}, limit: $limit) { hash success block { height timestamp } length } }",
     [("limit", vnum limit)]);
    ("query GetLatestTransactions($limit: Int!) { transactions(first: $limit, orderBy: blockNumber, orderDirection: desc) { id hash status blockNumber timestamp } }",
     [("limit", vnum limit)]) ].

Definition getLatestTransactions (limit : num) : list AnyTransaction :=
  let fallback := map ofTransaction (Mock.getLatestTransactions mock limit) in
  try_catch
    (let result := tryQueries (latestTransactionsQueries limit) in
     if negb (truthy result) then Return fallback
     else
       txs <- transactionsOf result ;;
       Return (if isEmpty txs then fallback else txs))
    fallback.

Definition blocksPageQueries (cursor : option string) : list (string * list (string * jsval)) :=
  let offset := cursorOffset cursor in
  [ ("query GetBlocksPage($offset: Int!, $limit: Int!) { blocks(orderBy: HEIGHT_DESC, offset: $offset, limit: $limit) { height hash timestamp extrinsicsCount } }",
     [("offset", vnum offset); ("limit", vnum (Int pageSize))]);
    ("query GetBlocksPage($offset: Int!, $limit: Int!) { blocks(orderBy: {height: DESC}, skip: $offset, limit: $limit) { height hash timestamp transactionCount } }",
     [("offset", vnum offset); ("limit", vnum (Int pageSize))]);
    ("query GetBlocksPage($cursor: String, $limit: Int!) { blocks(after: $cursor, first: $limit, orderBy: height, orderDirection: desc) { id number timestamp transactionsCount } }",
     [("cursor", vcursor cursor); ("limit", vnum (Int pageSize))]) ].

Definition getBlocksPage (cursor : option string) : Page AnyBlock :=
  let fallback := mapPage ofBlock (Mock.getBlocksPage mock cursor) in
  try_catch
    (let offset := cursorOffset cursor in
     let result := tryQueries (blocksPageQueries cursor) in
     if negb (truthy result) then Return fallback
     else
       items <- blocksOf result ;;
       if isEmpty items then Return fallback
       else Return (mkPage items (fullPageCursor items offset)))
    fallback.

Definition idHeight (id : string) : jsval :=
  if isDecimal id then JNum (parseInt10 id) else JUndefined.

Definition idHash (id : string) : jsval :=
  if isDecimal id then JUndefined else JStr id.

Definition blockQueries (id : string) : list (string * list (string * jsval)) :=
  [ ("query GetBlock($height: Int) { block(height: $height) { height hash timestamp extrinsicsCount } }",
     [("height", idHeight id)]);
    ("query GetBlock($hash: String) { block(hash: $hash) { height hash timestamp transactionCount } }",
     [("hash", idHash id)]);
    ("query GetBlock($height: Int, $hash: String) { block(number: $height, id: $hash) { number id timestamp transactionsCount } }",
     [("height", idHeight id); ("hash", idHash id)]) ].

Definition getBlockByHashOrHeight (id : string) : option AnyBlock :=
  let fallback := option_map ofBlock (Mock.getBlockByHashOrHeight mock id) in
  try_catch
    (let result := tryQueries (blockQueries id) in
     if negb (truthy result) then Return fallback
     else
       blockData <- (get result "block" |?| underData result "block") ;;
       if negb (truthy blockData) then Return fallback
       else
         match mapBlock blockData with
         | Some block => Return (Some block)
         | None => Return fallback
         end)
    fallback.

Definition transactionsPageQueries (cursor : option string)
  : list (string * list (string * jsval)) :=
  let offset := cursorOffset cursor in
  [ ("query GetTransactionsPage($offset: Int!, $limit: Int!) { transactions(orderBy: TIMESTAMP_DESC, offset: $offset, limit: $limit) { hash status blockHeight timestamp size } }",
     [("offset", vnum offset); ("limit", vnum (Int pageSize))]);
    ("query GetTransactionsPage($offset: Int!, $limit: Int!) { extrinsics(orderBy: {timestamp: DESC}, skip: $offset, limit: $limit) { hash success block { height timestamp } length } }",
     [("offset", vnum offset); ("limit", vnum (Int pageSize))]);
    ("query GetTransactionsPage($cursor: String, $limit: Int!) { transactions(after: $cursor, first: $limit, orderBy: blockNumber, orderDirection: desc) { id hash status blockNumber timestamp } }",
     [("cursor", vcursor cursor); ("limit", vnum (Int pageSize))]) ].

Definition getTransactionsPage (cursor : option string) : Page AnyTransaction :=
  let fallback := mapPage ofTransaction (Mock.getTransactionsPage mock cursor) in
  try_catch
    (let offset := cursorOffset cursor in
     let result := tryQueries (transactionsPageQueries cursor) in
     if negb (truthy result) then Return fallback
     else
       items <- transactionsOf result ;;
       if isEmpty items then Return fallback
       else Return (mkPage items (fullPageCursor items offset)))
    fallback.

Definition transactionQueries (hash : string) : list (string * list (string * jsval)) :=
  [ ("query GetTransaction($hash: String!) { transaction(hash: $hash) { hash status blockHeight timestamp size } }",
     [("hash", JStr hash)]);
    ("query GetTransaction($hash: String!) { extrinsic(hash: $hash) { hash success block { height timestamp } length } }",
     [("hash", JStr hash)]);
    ("query GetTransaction($hash: String!) { transaction(id: $hash) { id hash status blockNumber timestamp } }",
     [("hash", JStr hash)]) ].

Definition getTransactionByHash (hash : string) : option AnyTransaction :=
  let fallback := option_map ofTransaction (Mock.getTransactionByHash mock hash) in
  try_catch
    (let result := tryQueries (transactionQueries hash) in
     if negb (truthy result) then Return fallback
     else
       txData <- (get result "transaction" |?| get result "extrinsic" |?|
                  underData result "transaction" |?| underData result "extrinsic") ;;
       if negb (truthy txData) then Return fallback
       else
         match mapTransaction txData with
         | Some tx => Return (Some tx)
         | None => Return fallback
         end)
    fallback.

Definition addressQueries (addr : string) : list (string * list (string * jsval)) :=
  [ ("query GetAddress($address: String!) { address(address: $address) { address balance txCount } }",
     [("address", JStr addr)]);
    ("query GetAddress($address: String!) { account(address: $address) { address balance transactionCount } }",
     [("address", JStr addr)]);
    ("query GetAddress($address: String!) { account(id: $address) { id balances { free } transactionsCount } }",
     [("address", JStr addr)]) ].

(** The summary built from a truthy [addressData]. *)
Definition summaryOf (addr : string) (addressData : jsval) : exc AnyAddressSummary :=
  address <- (get addressData "address" |?| get addressData "id" |?| Return (JStr addr)) ;;
  bal <- get addressData "balance" ;;
  balance <- match bal with
             | JStr _ | JNum _ => Return (Some (Any.toString bal))
             | _ =>
                 balances <- get addressData "balances" ;;
                 free <- getOpt balances "free" ;;
                 if truthy free then (text <- callToString free ;; Return (Some text))
                 else Return None
             end ;;
  txCount <- (get addressData "txCount" |?| get addressData "transactionCount" |?|
              get addressData "transactionsCount") ;;
  Return (mkAnyAddressSummary address balance txCount).

Definition getAddressSummary (addr : string) : option AnyAddressSummary :=
  let fallback := option_map ofAddressSummary (Mock.getAddressSummary addr) in
  try_catch
    (let result := tryQueries (addressQueries addr) in
     if negb (truthy result) then Return fallback
     else
       addressData <- (get result "address" |?| get result "account" |?|
                       underData result "address" |?| underData result "account") ;;
       if negb (truthy addressData) then Return fallback
       else (summary <- summaryOf addr addressData ;; Return (Some summary)))
    fallback.

Definition blockTransactionsQueries (id : string) (cursor : option string)
  : list (string * list (string * jsval)) :=
  let offset := cursorOffset cursor in
  [ ("query GetBlockTransactions($height: Int!, $offset: Int!, $limit: Int!) { blockTransactions(blockHeight: $height, offset: $offset, limit: $limit) { hash status blockHeight timestamp size } }",
     [("height", idHeight id); ("offset", vnum offset); ("limit", vnum (Int pageSize))]);
    ("query GetBlockTransactions($hash: String!, $offset: Int!, $limit: Int!) { blockTransactions(blockHash: $hash, offset: $offset, limit: $limit) { hash status blockHeight timestamp size } }",
     [("hash", idHash id); ("offset", vnum offset); ("limit", vnum (Int pageSize))]);
    ("query GetBlockTransactions($height: Int, $hash: String, $offset: Int!, $limit: Int!) { extrinsics( where: { block: { height: $height, hash: $hash } } skip: $offset limit: $limit ) { hash success block { height timestamp } length } }",
     [("height", idHeight id); ("hash", idHash id); ("offset", vnum offset);
      ("limit", vnum (Int pageSize))]) ].

(** What [getBlockTransactions] returns once the indexer gave no transactions:
    the empty page when the block does not exist, the mock page otherwise. *)
Definition afterBlockCheck (id : string) (cursor : option string) : Page AnyTransaction :=
  match getBlockByHashOrHeight id with
  | None => mkPage [] None
  | Some _ => mapPage ofTransaction (Mock.getBlockTransactions mock id cursor)
  end.

Definition getBlockTransactions (id : string) (cursor : option string)
  : Page AnyTransaction :=
  let fallback := mapPage ofTransaction (Mock.getBlockTransactions mock id cursor) in
  try_catch
    (let offset := cursorOffset cursor in
     let result := tryQueries (blockTransactionsQueries id cursor) in
     if negb (truthy result) then Return (afterBlockCheck id cursor)
     else
       items <- blockTransactionsOf result ;;
       if isEmpty items then Return (afterBlockCheck id cursor)
       else Return (mkPage items (fullPageCursor items offset)))
    fallback.

(** *** Vocabulary for the properties of the fall-back *)

(** The block, the transaction and the address data that the single-entity
    operations map from a truthy [result]; [None] when there is nothing to
    map or the mapping drops the record. *)
Definition blockOf (result : jsval) : exc (option AnyBlock) :=
  blockData <- (get result "block" |?| underData result "block") ;;
  if negb (truthy blockData) then Return None else Return (mapBlock blockData).

Definition transactionOf (result : jsval) : exc (option AnyTransaction) :=
  txData <- (get result "transaction" |?| get result "extrinsic" |?|
             underData result "transaction" |?| underData result "extrinsic") ;;
  if negb (truthy txData) then Return None else Return (mapTransaction txData).

Definition addressOf (addr : string) (result : jsval) : exc (option AnyAddressSummary) :=
  addressData <- (get result "address" |?| get result "account" |?|
                  underData result "address" |?| underData result "account") ;;
  if negb (truthy addressData) then Return None
  else (summary <- summaryOf addr addressData ;; Return (Some summary)).

(** Every candidate query fails: the query layer yields no response that
    parses. *)
Definition allFail (queries : list (string * list (string * jsval))) : Prop :=
  forall query variables, In (query, variables) queries -> graphQL query variables = JNull.

(** The three causes of a fall-back: every candidate fails, or what is mapped
    from the response is empty, or the mapping throws. *)
Definition fellBack {R : Type} (queries : list (string * list (string * jsval)))
  (mapped : jsval -> exc R) (empty : R -> Prop) : Prop :=
  allFail queries \/
  (exists r, mapped (tryQueries queries) = Return r /\ empty r) \/
  (exists e, mapped (tryQueries queries) = Throw e).

Definition noItems {A : Type} (xs : list A) : Prop := xs = [].
Definition nothing {A : Type} (x : option A) : Prop := x = None.

End Provider.

(** The alternative count fields, as [txCountOf] probes them after [txCount]. *)
Definition otherCounts (blockData : jsval) : exc jsval :=
  get blockData "transactionCount" |?| get blockData "extrinsicsCount" |?|
  nullish (extrinsics <- get blockData "extrinsics" ;; getOpt extrinsics "length")
          (Return (JNum (Int 0))).

(** Records for the examples: a block of height 0, and a block whose
    [txCount] is 0 next to a [transactionCount] of 7. *)
Definition genesisRecord : jsval :=
  JObj [("height", JNum (Int 0)); ("hash", JStr "0xgenesis");
        ("timestamp", JStr "2024-01-01T00:00:00.000Z"); ("txCount", JNum (Int 3))].

Definition countedRecord : jsval :=
  JObj [("height", JNum (Int 5)); ("hash", JStr "0xfive");
        ("timestamp", JStr "2024-01-01T00:10:00.000Z"); ("txCount", JNum (Int 0));
        ("transactionCount", JNum (Int 7))].

Definition noEstimate (height : jsval) : exc string := Throw "unsupported height".

Definition unreachable (url query : string) (variables : list (string * jsval)) : response :=
  Rejected.

(** *** Construction and the factory of the indexer-backed build *)

(** [process.env.NAME || ""] of [src/lib/env.ts] *)
Definition envOr (value : option string) : string :=
  match value with Some s => s | None => EmptyString end.

Definition isSet (url : string) : bool := negb (String.eqb url EmptyString).

Definition missingEndpoints : string :=
  "Missing Midnight network endpoints. Please set NEXT_PUBLIC_INDEXER_URL and/or NEXT_PUBLIC_RPC_URL in your environment variables.".

(** [new HttpProvider()] *)
Definition construct (INDEXER_URL RPC_URL : string) (tz : Zone) (clock : nat -> Z)
  : exc HttpProvider :=
  if negb (isSet INDEXER_URL) && negb (isSet RPC_URL) then Throw missingEndpoints
  else (mp <- Mock.construct tz clock ;; Return (mkHttpProvider mp)).

Inductive ExplorerProvider : Type :=
| UseHttp (provider : HttpProvider)
| UseMock (provider : Mock.MockProvider).

(** [getProvider()]; the guard of the constructor throws before any reading
    of the clock, so the handler reads the same clock. *)
Definition getProvider (INDEXER_URL RPC_URL : string) (tz : Zone) (clock : nat -> Z)
  : exc ExplorerProvider :=
  if isSet INDEXER_URL || isSet RPC_URL
  then
    match construct INDEXER_URL RPC_URL tz clock with
    | Return provider => Return (UseHttp provider)
    | Throw _ => (mp <- Mock.construct tz clock ;; Return (UseMock mp))
    end
  else (mp <- Mock.construct tz clock ;; Return (UseMock mp)).

End Indexer.

(** ** The RPC Scanner: [HttpProvider] of the RPC-only build *)

Module Rpc.
Import Js.
Local Open Scope string_scope.

(** The chain data as the node's API hands it over. *)

Inductive Phase : Type :=
| ApplyExtrinsic (index : Z)
| Finalization
| Initialization.

Record EventRecord : Type := mkEventRecord {
  phase : option Phase;
  event_section : string;
  event_method : string
}.

(** [firstArg] is [Number(ext.method.args[0].toString())], or the exception
    that reading it raises. *)
Record Extrinsic : Type := mkExtrinsic {
  ext_hash : string;
  method_section : string;
  firstArg : exc num;
  encodedLength : option Z
}.

Record SignedBlock : Type := mkSignedBlock {
  header_number : Z;
  extrinsics : list Extrinsic
}.

Definition missingEndpoint : string :=
  "Missing Midnight RPC endpoint. Please set NEXT_PUBLIC_RPC_URL".

(** [new HttpProvider()] and [getProvider()], which only calls it. *)
Definition construct (RPC_URL : string) : exc unit :=
  if String.eqb RPC_URL EmptyString then Throw missingEndpoint else Return tt.

Definition getProvider (RPC_URL : string) : exc unit := construct RPC_URL.

(** [parseInt(id, 10)] for an id of digits, where it is never [NaN]. *)
Definition decimalValue (id : string) : Z :=
  match parseInt10 id with Int z => z | NaN => 0 end.

Section Provider.

(** The reading of [new Date()] during the operation. *)
Variable now : Z.

(** The node: an awaited call either resolves or rejects.  [getApi] is the
    outcome of acquiring the connection, the same for each call of one
    operation. *)
Variable getApi : exc unit.
Variable getFinalizedHead : exc string.
Variable getHeader : string -> exc Z.
Variable getBlockHash : num -> exc string.
Variable getBlock : string -> exc SignedBlock.
Variable eventsAt : string -> exc (list EventRecord).

(** [getTipInfo()] of [src/lib/polkadot.ts], its height. *)
Definition getTipInfo : exc Z :=
  _ <- getApi ;;
  finalizedHash <- getFinalizedHead ;;
  getHeader finalizedHash.

(** The timestamp that the block's [timestamp] extrinsic sets, if any. *)
Definition blockTime (exts : list Extrinsic) : option string :=
  match find (fun ext => String.eqb (method_section ext) "timestamp") exts with
  | Some tsExtrinsic =>
      try_catch
        (ms <- firstArg tsExtrinsic ;;
         iso <- toISOString (TimeClip ms) ;;
         Return (Some iso))
        None
  | None => None
  end.

Definition getBlockByHeight (height : num) : exc AnyBlock :=
  _ <- getApi ;;
  hash <- getBlockHash height ;;
  signedBlock <- getBlock hash ;;
  let exts := extrinsics signedBlock in
  current <- toISOString (TimeClip (Int now)) ;;
  let timestamp := match blockTime exts with Some t => t | None => current end in
  Return (mkAnyBlock (JNum height) (JStr hash) (JStr timestamp) (JNum (lengthOf exts))).

Definition isMarker (name : string) (r : EventRecord) : bool :=
  String.eqb (event_section r) "system" && String.eqb (event_method r) name.

Definition appliesTo (idx : Z) (rec : EventRecord) : bool :=
  match phase rec with
  | Some (ApplyExtrinsic n) => (n =? idx)%Z
  | _ => false
  end.

Definition statusAt (events : list EventRecord) (idx : Z) : Status :=
  let related := filter (appliesTo idx) events in
  if existsb (isMarker "ExtrinsicSuccess") related then success
  else if existsb (isMarker "ExtrinsicFailed") related then failed
  else pending.

(** [extrinsics.forEach((ext, idx) => items.push(...))] *)
Fixpoint forEachFrom (idx : Z) (exts : list Extrinsic) (events : list EventRecord)
  (blockHeight : Z) (blockTimestamp : option string) : list Transaction :=
  match exts with
  | [] => []
  | ext :: exts' =>
      mkTransaction (ext_hash ext) (statusAt events idx) (Some blockHeight) blockTimestamp
                    (encodedLength ext)
      :: forEachFrom (idx + 1) exts' events blockHeight blockTimestamp
  end.

Definition mapExtrinsicsForBlock (blockHeight : Z) (blockHashHex : string)
  : exc (list Transaction) :=
  _ <- getApi ;;
  signedBlock <- getBlock blockHashHex ;;
  let exts := extrinsics signedBlock in
  let blockTimestamp := blockTime exts in
  let events := try_catch (eventsAt blockHashHex) [] in
  Return (forEachFrom 0 exts events blockHeight blockTimestamp).

(** [Promise.all(heights.map(h => this.getBlockByHeight(h)))] *)
Fixpoint allBlocks (heights : list num) : exc (list AnyBlock) :=
  match heights with
  | [] => Return []
  | h :: heights' =>
      b <- getBlockByHeight h ;;
      bs <- allBlocks heights' ;;
      Return (b :: bs)
  end.

(** [for (let h = tip; h > tip - limit && h >= 0; h--) heights.push(h)] *)
Fixpoint heightsDown (fuel : nat) (h : Z) (bound : num) : list num :=
  match fuel with
  | O => []
  | S fuel' =>
      if gtb (Int h) bound && (0 <=? h)%Z
      then Int h :: heightsDown fuel' (h - 1) bound
      else []
  end.

Definition sub (x y : num) : num :=
  match x, y with
  | Int a, Int b => Int (a - b)
  | _, _ => NaN
  end.

Definition getLatestBlocks (limit : num) : exc (list AnyBlock) :=
  tip <- getTipInfo ;;
  allBlocks (heightsDown (Z.to_nat (tip + 1)) tip (sub (Int tip) limit)).

(** [for (let i = 0; i < pageSize; i++) { const h = tip - offset - i;
    if (h < 0) break; heights.push(h) }], with [fuel] turns left. *)
Fixpoint pageHeights (fuel : nat) (i : Z) (tip : Z) (offset : num) : list num :=
  match fuel with
  | O => []
  | S fuel' =>
      let h := sub (sub (Int tip) offset) (Int i) in
      if ltb h (Int 0) then [] else h :: pageHeights fuel' (i + 1) tip offset
  end.

Definition getBlocksPage (cursor : option string) : exc (Page AnyBlock) :=
  let offset := cursorOffset cursor in
  tip <- getTipInfo ;;
  let heights := pageHeights (Z.to_nat pageSize) 0 tip offset in
  items <- allBlocks heights ;;
  Return (mkPage items
            (cursorWhen (Z.of_nat (List.length heights) =? pageSize)%Z offset)).

(** The hash and the height that an id resolves to. *)
Definition resolve (id : string) : exc (Z * string) :=
  if isDecimal id
  then (hash <- getBlockHash (Int (decimalValue id)) ;; Return (decimalValue id, hash))
  else (signedBlock <- getBlock id ;; Return (header_number signedBlock, id)).

Definition getBlockByHashOrHeight (id : string) : exc (option AnyBlock) :=
  _ <- getApi ;;
  resolved <- resolve id ;;
  let '(height, hashHex) := resolved in
  if String.eqb hashHex EmptyString then Return None
  else (block <- getBlockByHeight (Int height) ;; Return (Some block)).

(** [while (collected.length < wanted && h >= 0 && scanned < maxScanBlocks)],
    with [fuel = maxScanBlocks - scanned]. *)
Fixpoint collectFrom (fuel : nat) (h : Z) (wanted : num) (collected : list Transaction)
  : exc (list Transaction) :=
  match fuel with
  | O => Return collected
  | S fuel' =>
      if ltb (lengthOf collected) wanted && (0 <=? h)%Z
      then
        (hash <- getBlockHash (Int h) ;;
         items <- mapExtrinsicsForBlock h hash ;;
         collectFrom fuel' (h - 1) wanted (collected ++ rev items)%list)
      else Return collected
  end.

Definition getLatestTransactions (limit : num) : exc (list Transaction) :=
  tip <- getTipInfo ;;
  _ <- getApi ;;
  out <- collectFrom 200 tip limit [] ;;
  Return (slice out (Int 0) limit).

Definition getTransactionsPage (cursor : option string) : exc (Page Transaction) :=
  let offset := cursorOffset cursor in
  tip <- getTipInfo ;;
  _ <- getApi ;;
  collected <- collectFrom 200 tip (add offset (Int pageSize)) [] ;;
  Return (mkPage (window collected offset)
            (cursorWhen (gtb (lengthOf collected) (add offset (Int pageSize))) offset)).

Definition sameHash (hash : string) (tx : Transaction) : bool :=
  String.eqb (toLowerCase (tx_hash tx)) (toLowerCase hash).

(** [while (h >= 0 && scanned < maxScanBlocks)] of [getTransactionByHash], with
    [fuel = maxScanBlocks - scanned]; next to the result, the heights whose
    blocks were asked of the node, in the order of the requests. *)
Fixpoint findFrom (fuel : nat) (h : Z) (hash : string)
  : list Z * exc (option Transaction) :=
  match fuel with
  | O => ([], Return None)
  | S fuel' =>
      if (h <? 0)%Z then ([], Return None)
      else
        match (bHash <- getBlockHash (Int h) ;; mapExtrinsicsForBlock h bHash) with
        | Throw e => ([h], Throw e)
        | Return items =>
            match find (sameHash hash) items with
            | Some found => ([h], Return (Some found))
            | None =>
                let '(fetched, result) := findFrom fuel' (h - 1) hash in
                (h :: fetched, result)
            end
        end
  end.

Definition maxScanBlocks : nat := 500.

Definition scanByHash (hash : string) : list Z * exc (option Transaction) :=
  match (tip <- getTipInfo ;; _ <- getApi ;; Return tip) with
  | Throw e => ([], Throw e)
  | Return tip => findFrom maxScanBlocks tip hash
  end.

Definition getTransactionByHash (hash : string) : exc (option Transaction) :=
  snd (scanByHash hash).

Definition getAddressSummary (addr : string) : exc (option AddressSummary) :=
  Return None.

Definition getBlockTransactions (id : string) (cursor : option string)
  : exc (Page Transaction) :=
  _ <- getApi ;;
  resolved <- resolve id ;;
  let '(height, hashHex) := resolved in
  all <- mapExtrinsicsForBlock height hashHex ;;
  let offset := cursorOffset cursor in
  Return (mkPage (window all offset)
            (cursorWhen (gtb (lengthOf all) (add offset (Int pageSize))) offset)).

(** *** Vocabulary for the properties of the scanner *)

(** The transactions of the block at height [h], as one turn of a scan
    fetches them. *)
Definition transactionsAt (h : Z) : exc (list Transaction) :=
  bHash <- getBlockHash (Int h) ;; mapExtrinsicsForBlock h bHash.

(** The event log that [mapExtrinsicsForBlock] works with. *)
Definition eventLog (blockHashHex : string) : list EventRecord :=
  try_catch (eventsAt blockHashHex) [].

(** The block at height [h] holds [tx] as its first transaction of the hash
    [hash], compared without regard to case; or it holds none. *)
Definition matchesAt (hash : string) (h : Z) (tx : Transaction) : Prop :=
  exists items, transactionsAt h = Return items /\ find (sameHash hash) items = Some tx.

Definition noMatchAt (hash : string) (h : Z) : Prop :=
  exists items, transactionsAt h = Return items /\ find (sameHash hash) items = None.

(** The heights that a scan of at most [depth] blocks below [tip] covers. *)
Definition scanned (depth : nat) (tip h : Z) : Prop :=
  0 <= h <= tip /\ tip - Z.of_nat depth < h.

End Provider.

(** The log holds a marker of the given name whose phase is the application
    of the extrinsic [idx]. *)
Definition hasMarker (name : string) (events : list EventRecord) (idx : Z) : Prop :=
  exists r, In r events /\ phase r = Some (ApplyExtrinsic idx) /\
            event_section r = "system" /\ event_method r = name.

(** A node for the examples: its tip is [tip], each block holds the
    extrinsics [exts] and the event log [events]. *)
Definition sampleHash (h : num) : exc string := Return ("0x" +++ num_toString h).
Definition sampleBlock (exts : list Extrinsic) (hash : string) : exc SignedBlock :=
  Return (mkSignedBlock 0 exts).
Definition sampleEvents (events : list EventRecord) (hash : string)
  : exc (list EventRecord) := Return events.

Definition fourExtrinsics : list Extrinsic :=
  [ mkExtrinsic "0xAA" "timestamp" (Return (Int 1704110400000)) (Some 10);
    mkExtrinsic "0xBB" "balances" (Throw "no argument") (Some 120);
    mkExtrinsic "0xCC" "balances" (Throw "no argument") None;
    mkExtrinsic "0xDD" "midnight" (Throw "no argument") (Some 300) ].

Definition fourEvents : list EventRecord :=
  [ mkEventRecord (Some (ApplyExtrinsic 0)) "system" "ExtrinsicSuccess";
    mkEventRecord (Some (ApplyExtrinsic 1)) "system" "ExtrinsicFailed";
    mkEventRecord (Some (ApplyExtrinsic 3)) "system" "ExtrinsicFailed";
    mkEventRecord (Some (ApplyExtrinsic 3)) "system" "ExtrinsicSuccess";
    mkEventRecord (Some Finalization) "system" "ExtrinsicSuccess" ].

End Rpc.

(** ** The connection helpers of [src/lib/polkadot.ts] *)

Module Polkadot.
Import Js.
Local Open Scope string_scope.

(** [s.startsWith(p)] *)
Definition startsWith (s p : string) : bool := String.prefix p s.

Fixpoint drop (n : nat) (s : string) : string :=
  match n, s with
  | O, _ => s
  | S n', String _ s' => drop n' s'
  | S _, EmptyString => EmptyString
  end.

(** [s.replace(pattern, replacement)] for a string [pattern] and a
    [replacement] that holds no dollar sign: the first occurrence of [pattern]
    is replaced. *)
Fixpoint replace (s pattern replacement : string) : string :=
  if String.prefix pattern s then replacement +++ drop (String.length pattern) s
  else match s with
       | EmptyString => EmptyString
       | String c s' => String c (replace s' pattern replacement)
       end.

Definition httpToWs (url : string) : string :=
  if startsWith url "https://" then replace url "https://" "wss://"
  else if startsWith url "http://" then replace url "http://" "ws://"
  else url.

(** [getWsUrl()], with [RPC_URL] of [src/lib/env.ts]. *)
Definition getWsUrl (RPC_URL : string) : string :=
  if String.eqb RPC_URL EmptyString then "wss://rpc.testnet-02.midnight.network"
  else httpToWs RPC_URL.

End Polkadot.

(** ** The connection to the node: [getApi] of [src/lib/polkadot.ts] *)

Module Connection.
Import Js.

(** The two variables of the module.  An instance of the API is named by a
    number, and so is the handler that [getApi] makes for it: the handler made
    along with the instance [n] is the handler [n]. *)
Record State : Type := mkState {
  apiInstance : option nat;
  disconnectHandler : option nat
}.

(** The calls that [getApi] makes to the library. *)
Inductive Call : Type :=
| Off (instance handler : nat)
| Disconnect (instance : nat)
| Create (wsUrl : string)
| On (instance handler : nat).

(** What the library answers during one call of [getApi]: the value of
    [apiInstance.isConnected], and whether [ApiPromise.create] resolves.  A
    rejection of [apiInstance.disconnect()] is caught and changes nothing. *)
Record Answers : Type := mkAnswers {
  isConnected : bool;
  create : exc unit
}.

Section GetApi.

Variable RPC_URL : string.

(** The creation of a new instance, after the calls made so far; [fresh] is
    the name of the instance that [ApiPromise.create] yields when it
    resolves. *)
Definition connect (fresh : nat) (a : Answers) (s : State) (calls : list Call)
  : State * list Call * exc nat :=
  let wsUrl := Polkadot.getWsUrl RPC_URL in
  match create a with
  | Throw e => (s, (calls ++ [Create wsUrl])%list, Throw e)
  | Return _ =>
      (mkState (Some fresh) (Some fresh),
       (calls ++ [Create wsUrl; On fresh fresh])%list,
       Return fresh)
  end.

(** [getApi()]: the variables after the call, the calls made to the library,
    and the instance returned or the rejection. *)
Definition getApi (fresh : nat) (a : Answers) (s : State)
  : State * list Call * exc nat :=
  match apiInstance s with
  | Some i =>
      if isConnected a then (s, [], Return i)
      else
        let off := match disconnectHandler s with
                   | Some h => [Off i h]
                   | None => []
                   end in
        connect fresh a (mkState None (disconnectHandler s)) (off ++ [Disconnect i])%list
  | None => connect fresh a s []
  end.

End GetApi.

(** The handler: [() => { apiInstance = null }]. *)
Definition onDisconnected (s : State) : State :=
  mkState None (disconnectHandler s).

(** *** Vocabulary for the properties of the connection *)

(** The process and the library together: the variables, the handlers
    registered for the event [disconnected] as pairs of an instance and a
    handler, and the number of creations asked for so far, which names the
    next instance. *)
Record World : Type := mkWorld {
  state : State;
  listeners : list (nat * nat);
  creations : nat
}.

Definition sameListener (p q : nat * nat) : bool :=
  (fst p =? fst q)%nat && (snd p =? snd q)%nat.

(** The effect of a call on the registered handlers. *)
Definition perform (ls : list (nat * nat)) (c : Call) : list (nat * nat) :=
  match c with
  | On i h => (i, h) :: ls
  | Off i h => filter (fun p => negb (sameListener p (i, h))) ls
  | Disconnect _ | Create _ => ls
  end.

Definition isCreate (c : Call) : bool :=
  match c with Create _ => true | _ => false end.

(** What happens next: a call of [getApi] with the answers of the library,
    or the event [disconnected] of an instance, which runs the handlers
    registered on it. *)
Inductive Step : Type :=
| GetApi (a : Answers)
| Emit (instance : nat).

Definition listensTo (ls : list (nat * nat)) (i : nat) : bool :=
  existsb (fun p => (fst p =? i)%nat) ls.

Definition step (RPC_URL : string) (w : World) (st : Step) : World :=
  match st with
  | GetApi a =>
      let '(s, calls, _) := getApi RPC_URL (creations w) a (state w) in
      mkWorld s (fold_left perform calls (listeners w))
              (creations w + List.length (filter isCreate calls))
  | Emit i =>
      if listensTo (listeners w) i
      then mkWorld (onDisconnected (state w)) (listeners w) (creations w)
      else w
  end.

Definition initial : World := mkWorld (mkState None None) [] 0.

Definition run (RPC_URL : string) (steps : list Step) : World :=
  fold_left (step RPC_URL) steps initial.

(** What every history keeps: a registered handler is the handler of its
    instance, of an instance created before; no handler is registered
    twice; a cached instance carries its handler, and that handler is the
    one held in [disconnectHandler]. *)
Definition wellKept (w : World) : Prop :=
  (forall i h, In (i, h) (listeners w) -> h = i /\ (i < creations w)%nat) /\
  NoDup (listeners w) /\
  (forall i, apiInstance (state w) = Some i ->
             disconnectHandler (state w) = Some i /\ In (i, i) (listeners w)).

End Connection.

(** ** Relative times: [formatDistanceToNow] of [src/lib/utils.ts] *)

Module Utils.
Import Js.
Local Open Scope string_scope.

(** [x - y] on numbers *)
Definition minus (x y : num) : num :=
  match x, y with
  | Int a, Int b => Int (a - b)
  | _, _ => NaN
  end.

(** [Math.floor(x / d)] for an integer [x] below 2^53 in size and a divisor
    [d] of 7 to 1000, where the quotient in double precision has the floor of
    the exact one. *)
Definition floorDiv (x : num) (d : Z) : num :=
  match x with
  | Int a => Int (a / d)
  | NaN => NaN
  end.

(** [formatDistanceToNow(date)]; [now] is the reading of [new Date()], [date]
    the time value of the argument. *)
Definition formatDistanceToNow (now : Z) (date : num) : string :=
  let diffMs := minus (Int now) date in
  let diffSec := floorDiv diffMs 1000 in
  if ltb diffSec (Int 60)
  then (if ltb diffSec (Int 10) then "just now" else num_toString diffSec +++ "s")
  else
    let diffMin := floorDiv diffSec 60 in
    if ltb diffMin (Int 60) then num_toString diffMin +++ "m"
    else
      let diffHour := floorDiv diffMin 60 in
      if ltb diffHour (Int 24) then num_toString diffHour +++ "h"
      else
        let diffDay := floorDiv diffHour 24 in
        if ltb diffDay (Int 7) then num_toString diffDay +++ "d"
        else
          let diffWeek := floorDiv diffDay 7 in
          if ltb diffDay (Int 30) then num_toString diffWeek +++ "w"
          else
            let diffMonth := floorDiv diffDay 30 in
            if ltb diffMonth (Int 12) then num_toString diffMonth +++ "mo"
            else
              let diffYear := floorDiv diffMonth 12 in
              num_toString diffYear +++ "y".

(** *** Vocabulary for the properties of the labels *)

(** The label of [n] units. *)
Definition label (n : Z) (unit : string) : string := Number_toString n +++ unit.

Definition second : Z := 1000.
Definition minute : Z := 60 * second.
Definition hour : Z := 60 * minute.
Definition day : Z := 24 * hour.

End Utils.

(** ** The pages of the explorer: their links to the next and the previous
    page, and the search bar *)

Module Pages.
Import Js.
Local Open Scope string_scope.

(** The target of a link, [`${path}?cursor=${cursor}`] or [path] alone; the
    router hands the cursor of the query to the target page as
    [searchParams.cursor]. *)
Record Href : Type := mkHref {
  path : string;
  cursor_param : option string
}.

Definition hrefText (h : Href) : string :=
  match cursor_param h with
  | Some c => path h +++ "?cursor=" +++ c
  | None => path h
  end.

(** [{nextCursor && <Link href={`${path}?cursor=${nextCursor}`}>}] *)
Definition nextLink (path : string) (nextCursor : option string) : option Href :=
  match nextCursor with
  | None => None
  | Some EmptyString => None
  | Some c => Some (mkHref path (Some c))
  end.

(** The pagination helpers of TransactionsPage and BlockTransactionsPage:
    [current] is [cursor ? parseInt(cursor, 10) : 0], which is [cursorOffset]. *)
Definition prevHref (path : string) (cursor : option string) : Href :=
  let current := cursorOffset cursor in
  let prevCursor := Utils.minus current (Int 20) in
  if gtb prevCursor (Int 0) then mkHref path (Some (num_toString prevCursor))
  else mkHref path None.

(** [{current > 0 && <Link href={prevHref}>}] *)
Definition previousLink (path : string) (cursor : option string) : option Href :=
  if gtb (cursorOffset cursor) (Int 0) then Some (prevHref path cursor) else None.

(** *** The search bar: [handleSearch] of [src/components/SearchBar.tsx] *)

Fixpoint reverseOnto (s acc : string) : string :=
  match s with
  | EmptyString => acc
  | String c s' => reverseOnto s' (String c acc)
  end.

Definition reverse (s : string) : string := reverseOnto s EmptyString.

(** [s.trim()]: white space and line terminators leave both ends. *)
Definition trim (s : string) : string :=
  reverse (skipWhiteSpace (reverse (skipWhiteSpace s))).

(** The path that [handleSearch] pushes to the router for the [query] of the
    input, if any. *)
Definition handleSearch (query : string) : option string :=
  if String.eqb (trim query) EmptyString then None
  else
    let cleanQuery := trim query in
    if isDecimal cleanQuery then Some ("/blocks/" +++ cleanQuery)
    else if (40 <=? String.length cleanQuery)%nat then Some ("/txs/" +++ cleanQuery)
    else Some ("/address/" +++ cleanQuery).

(** *** Vocabulary for the properties of the pages *)

(** The items that a reader sees who opens a list at [cursor] and then
    follows the link to the next page as long as there is one.  Every page
    is a request of its own, and [page n] is the operation that serves the
    [n]-th of them.  The reader makes [fuel] requests at most: the result is
    [None] when the last page that they allow still has a link to a next
    one, so that [Some] stands for a walk that reached a page without. *)
Fixpoint follow {T : Type} (page : nat -> option string -> Page T) (path : string)
  (fuel : nat) (request : nat) (cursor : option string) : option (list T) :=
  match fuel with
  | O => None
  | S fuel' =>
      let p := page request cursor in
      match nextLink path (nextCursor p) with
      | Some link =>
          match follow page path fuel' (S request) (cursor_param link) with
          | Some rest => Some (items p ++ rest)%list
          | None => None
          end
      | None => Some (items p)
      end
  end.

(** The same reader of an operation that can fail, while what the operation
    reads stays as it is. *)
Fixpoint followExc {T : Type} (page : option string -> exc (Page T)) (path : string)
  (fuel : nat) (cursor : option string) : exc (option (list T)) :=
  match fuel with
  | O => Return None
  | S fuel' =>
      p <- page cursor ;;
      match nextLink path (nextCursor p) with
      | Some link =>
          rest <- followExc page path fuel' (cursor_param link) ;;
          Return (option_map (fun rest => (items p ++ rest)%list) rest)
      | None => Return (Some (items p))
      end
  end.

Fixpoint allWhiteSpace (s : string) : bool :=
  match s with
  | EmptyString => true
  | String c s' => isWhiteSpace c && allWhiteSpace s'
  end.

End Pages.

(** ** Further vocabulary for the properties of the corpus *)

Module MockTerms.

(** Is the optional height [o] the height [h]?  [heightIs h t] asks this of
    the height of the transaction [t]. *)
Definition atHeight (h : Z) (o : option Z) : bool :=
  match o with Some z => z =? h | None => false end.

End MockTerms.

(** ** Further vocabulary for the properties of the scanner *)

Module RpcTerms.

(** The heights [hs] never grow along the list. *)
Fixpoint newestFirst (hs : list Z) : Prop :=
  match hs with
  | [] => True
  | h :: rest => (forall k, In k rest -> k <= h) /\ newestFirst rest
  end.

(** What [getBlockByHeight] makes of the block at [height]: its hash is the
    hash the node gives for the height, its count the number of extrinsics of
    the body fetched by that hash. *)
Definition describes (getBlockHash : Js.num -> exc string)
  (getBlock : string -> exc Rpc.SignedBlock) (b : AnyBlock) : Prop :=
  exists height hash signedBlock,
    any_height b = JNum height /\
    getBlockHash height = Return hash /\ any_hash b = JStr hash /\
    getBlock hash = Return signedBlock /\
    any_txCount b = JNum (Js.lengthOf (Rpc.extrinsics signedBlock)).

End RpcTerms.

(** ** Inputs for the examples *)

Module Samples.
Import Js Any.
Local Open Scope string_scope.

(** A transaction record whose [status] says failed and whose [success] says
    [true]. *)
Definition conflictingRecord : jsval :=
  JObj [("hash", JStr "0xabc"); ("status", JStr "failed"); ("success", JBool true)].

(** A zone that is on UTC until 2023-12-20T00:00:00 and moves its clocks
    forward by an hour then. *)
Definition summerTime : Zone :=
  mkZone (fun t => if (t <? 1703030400000)%Z then 0%Z else 3600000%Z)
         (fun l => if (l <? 1703030400000)%Z then 0%Z else 3600000%Z).

(** An indexer that answers every query with
    [{ data: { blockTransactions: {} } }]: an object where a list is due. *)
Definition objectForList (url query : string) (variables : list (string * jsval))
  : Indexer.response :=
  Indexer.Json (JObj [("data", JObj [("blockTransactions", JObj [])])]).

(** A block record that holds a height and a hash and nothing else. *)
Definition bareRecord : jsval :=
  JObj [("number", JNum (Int 1440)); ("id", JStr "0xbare")].

(** The extrinsics of a block that holds its timestamp and nothing else. *)
Definition oneExtrinsic : list Rpc.Extrinsic :=
  [ Rpc.mkExtrinsic "0xTS" "timestamp" (Return (Int 1704110400000)) (Some 10) ].

(** A node whose event logs cannot be read. *)
Definition noEvents (hash : string) : exc (list Rpc.EventRecord) := Throw "no events".

(** An extrinsic of the section [timestamp] whose argument cannot be read. *)
Definition unreadableTimestamp : Rpc.Extrinsic :=
  Rpc.mkExtrinsic "0xEE" "timestamp" (Throw "no argument") None.

(** The extrinsics of a block that holds 45 of them. *)
Definition manyExtrinsics : list Rpc.Extrinsic :=
  map (fun i => Rpc.mkExtrinsic ("0x" +++ Number_toString (Z.of_nat i)) "balances"
                  (Throw "no argument") (Some 100))
      (seq 0 45).

(** An indexer that refuses the first shape of the query for the latest
    blocks and answers every other query with one block. *)
Definition secondShape (url query : string) (variables : list (string * jsval))
  : Indexer.response :=
  match Indexer.latestBlocksQueries (Int 10) with
  | (first, _) :: _ =>
      if String.eqb query first then Indexer.NotOk
      else Indexer.Json
             (JObj [("data", JObj [("blocks", JArr [Indexer.countedRecord])])])
  | [] => Indexer.NotOk
  end.

(** A history of the connection: a first call that connects, the loss of
    that connection, and a second call that connects again. *)
Definition reconnects : list Connection.Step :=
  [ Connection.GetApi (Connection.mkAnswers false (Return tt));
    Connection.Emit 0;
    Connection.GetApi (Connection.mkAnswers false (Return tt)) ].

End Samples.

(** * Properties *)

(** ** Lists, slices and cursors *)

Lemma slice_map {A B : Type} (f : A -> B) (xs : list A) (start stop : Js.num) :
  map f (Js.slice xs start stop) = Js.slice (map f xs) start stop.
Proof.
  unfold Js.slice. rewrite length_map.
  now rewrite <- firstn_map, <- skipn_map.
Qed.

Lemma window_map {A B : Type} (f : A -> B) (xs : list A) (offset : Js.num) :
  map f (window xs offset) = window (map f xs) offset.
Proof. apply slice_map. Qed.

Lemma find_map {A B : Type} (f : A -> B) (p : B -> bool) (xs : list A) :
  option_map f (find (fun x => p (f x)) xs) = find p (map f xs).
Proof.
  induction xs as [|x xs IH]; simpl; [reflexivity|].
  destruct (p (f x)); [reflexivity | exact IH].
Qed.

Lemma filter_map_comm {A B : Type} (f : A -> B) (p : B -> bool) (xs : list A) :
  map f (filter (fun x => p (f x)) xs) = filter p (map f xs).
Proof.
  induction xs as [|x xs IH]; simpl; [reflexivity|].
  destruct (p (f x)); simpl; now rewrite IH.
Qed.

(** ** The Mock Generator *)

Module MockFacts.
Import Js Mock.

Lemma pushAll_Forall2 {A : Type} (f : nat -> exc A) (indices : list nat) (xs : list A) :
  pushAll f indices = Return xs -> Forall2 (fun i x => f i = Return x) indices xs.
Proof.
  revert xs. induction indices as [|i indices IH]; simpl; intros xs H.
  - injection H as <-. constructor.
  - destruct (f i) as [x|e] eqn:Hx; simpl in H; [|discriminate].
    destruct (pushAll f indices) as [xs'|e] eqn:Hxs; simpl in H; [|discriminate].
    injection H as <-. constructor; [exact Hx | now apply IH].
Qed.

Lemma pushAll_total {A : Type} (f : nat -> exc A) (indices : list nat) :
  (forall i, In i indices -> exists x, f i = Return x) ->
  exists xs, pushAll f indices = Return xs.
Proof.
  induction indices as [|i indices IH]; simpl; intros H.
  - now exists [].
  - destruct (H i (or_introl eq_refl)) as [x Hx].
    destruct IH as [xs Hxs]; [intros j Hj; apply H; now right|].
    exists (x :: xs). now rewrite Hx, Hxs.
Qed.

Lemma pushAll_ext {A : Type} (f g : nat -> exc A) (indices : list nat) :
  (forall i, In i indices -> f i = g i) -> pushAll f indices = pushAll g indices.
Proof.
  induction indices as [|i indices IH]; simpl; intros H; [reflexivity|].
  rewrite (H i (or_introl eq_refl)), IH; [reflexivity|].
  intros j Hj. apply H. now right.
Qed.

Lemma Forall2_map_r {A B C : Type} (R : A -> B -> Prop) (f : A -> C) (g : B -> C)
  (xs : list A) (ys : list B) :
  Forall2 R xs ys -> (forall x y, R x y -> g y = f x) -> map g ys = map f xs.
Proof.
  induction 1 as [|x y xs ys Hxy _ IH]; intros H; simpl; [reflexivity|].
  now rewrite (H _ _ Hxy), IH.
Qed.

(** The date of a block is the local time of the reading moved back by two
    minutes a height, taken back to UTC. *)
Lemma block_date (tz : Zone) (now h : Z) :
  setMinutes tz now (getMinutes tz now - h * 2)
  = TimeClip (Int (UTC tz (LocalTime tz now - h * 120000))).
Proof.
  unfold setMinutes, getMinutes. cbv zeta. f_equal. f_equal. f_equal. lia.
Qed.

(** In a zone whose offset does not change, the local time plays no part. *)
Lemma block_date_fixed (minutes now h : Z) :
  setMinutes (fixedZone minutes) now (getMinutes (fixedZone minutes) now - h * 2)
  = TimeClip (Int (now - h * 120000)).
Proof.
  rewrite block_date. unfold UTC, LocalTime, fixedZone. cbn [offsetAt offsetOf].
  f_equal. f_equal. lia.
Qed.

(** Every zone of a fixed offset is steady. *)
Lemma steady_fixedZone (minutes : Z) : steady (fixedZone minutes).
Proof. intros t l. unfold fixedZone. cbn [offsetAt offsetOf]. lia. Qed.

(** In a steady zone, a sane reading shifted by what the generators shift
    it by is a valid date. *)
Lemma shifted_date_valid (tz : Zone) (now shift : Z) :
  steady tz -> Z.abs now <= maxTime - 1500000000 ->
  -1483200000 <= shift <= 1200000 ->
  Z.abs (UTC tz (LocalTime tz now + shift)) <= maxTime.
Proof.
  intros Hsteady Hnow Hshift. unfold UTC, LocalTime.
  specialize (Hsteady now (now + offsetAt tz now + shift)).
  unfold maxTime in *. lia.
Qed.

Lemma toISOString_TimeClip (t : Z) :
  Z.abs t <= maxTime -> exists iso, toISOString (TimeClip (Int t)) = Return iso.
Proof.
  intros H. unfold TimeClip. apply Z.leb_le in H. rewrite H. simpl. eauto.
Qed.

Lemma generateMockBlock_height (tz : Zone) (now h : Z) (b : Block) :
  generateMockBlock tz now h = Return b -> height b = h.
Proof.
  unfold generateMockBlock.
  destruct (toISOString _) as [iso|e]; simpl; [|discriminate].
  now intros [= <-].
Qed.

Lemma generateMockBlock_total (tz : Zone) (now h : Z) :
  steady tz -> Z.abs now <= maxTime - 1500000000 -> 0 <= h <= 12345 ->
  exists b, generateMockBlock tz now h = Return b.
Proof.
  intros Hsteady Hnow Hh. unfold generateMockBlock. rewrite block_date.
  assert (Z.abs (UTC tz (LocalTime tz now + - (h * 120000))) <= maxTime) as Hvalid
    by (apply shifted_date_valid; [assumption | assumption | lia]).
  replace (LocalTime tz now + - (h * 120000)) with (LocalTime tz now - h * 120000)
    in Hvalid by lia.
  destruct (toISOString_TimeClip _ Hvalid) as [iso ->]. simpl. eauto.
Qed.

Lemma generateMockTransaction_fields (tz : Zone) (now index : Z) (bh : option Z) (t : Transaction) :
  generateMockTransaction tz now index bh = Return t ->
  blockHeight t = bh /\
  (truthyHeight bh = true -> status t = success /\ tx_timestamp t <> None) /\
  (truthyHeight bh = false -> status t <> success /\ tx_timestamp t = None).
Proof.
  unfold generateMockTransaction.
  destruct (toISOString _) as [iso|e]; simpl; [|discriminate].
  destruct (truthyHeight bh); simpl.
  - intros [= <-]. simpl. repeat split; try discriminate.
  - intros [= <-]. simpl. repeat split; try discriminate.
    destruct (900000 <? _); discriminate.
Qed.

Lemma quot_minutes_bound (m h index : Z) :
  0 <= m < 60 -> 0 <= h <= 12345 -> 0 <= index < 200 ->
  -24720 <= Z.quot (10 * (m - h * 2) - index) 10 - m <= 20.
Proof.
  intros Hm Hh Hi.
  Z.to_euclidean_division_equations. lia.
Qed.

Lemma getMinutes_range (tz : Zone) (t : Z) : 0 <= getMinutes tz t < 60.
Proof. unfold getMinutes. apply Z.mod_pos_bound. lia. Qed.

Lemma generateMockTransaction_total (tz : Zone) (now index : Z) (bh : option Z) :
  steady tz ->
  Z.abs now <= maxTime - 1500000000 -> 0 <= orZero bh <= 12345 -> 0 <= index < 200 ->
  exists t, generateMockTransaction tz now index bh = Return t.
Proof.
  intros Hsteady Hnow Hh Hi. unfold generateMockTransaction, setMinutes.
  pose proof (quot_minutes_bound _ _ _ (getMinutes_range tz now) Hh Hi) as Hq.
  unfold getMinutes in *. cbv zeta.
  set (shift := Z.quot _ 10 - MinFromTime (LocalTime tz now)) in *.
  assert (Z.abs (UTC tz (LocalTime tz now + shift * 60000)) <= maxTime) as Hvalid
    by (apply shifted_date_valid; [assumption | assumption | lia]).
  destruct (toISOString_TimeClip _ Hvalid) as [iso ->]. simpl.
  destruct (truthyHeight bh); simpl; eauto.
Qed.

Lemma txHeightAt_range (i : nat) : 0 <= orZero (txHeightAt i) <= 12345.
Proof.
  unfold txHeightAt, latestHeight. destruct (i <? 160)%nat eqn:Hi; cbn [orZero]; [|lia].
  apply Nat.ltb_lt in Hi.
  assert (i / 4 < 40)%nat by (apply Nat.Div0.div_lt_upper_bound; lia).
  generalize dependent (i / 4)%nat. intros. lia.
Qed.

Lemma txHeightAt_truthy (i : nat) :
  truthyHeight (txHeightAt i) = match txHeightAt i with Some _ => true | None => false end.
Proof.
  pose proof (txHeightAt_range i) as H. unfold txHeightAt, latestHeight in *.
  destruct (i <? 160)%nat eqn:Hi; cbn [orZero truthyHeight] in *; [|reflexivity].
  apply Nat.ltb_lt in Hi.
  assert (i / 4 < 40)%nat by (apply Nat.Div0.div_lt_upper_bound; lia).
  apply negb_true_iff, Z.eqb_neq.
  generalize dependent (i / 4)%nat. intros. lia.
Qed.

(** The corpus of a construction: what each entry was generated from. *)
Lemma construct_inv (tz : Zone) (clock : nat -> Z) (mp : MockProvider) :
  construct tz clock = Return mp ->
  Forall2 (fun i b => generateMockBlock tz (clock i) (latestHeight - Z.of_nat i) = Return b)
          (seq 0 100) (mockBlocks mp) /\
  Forall2 (fun i t =>
             generateMockTransaction tz (clock (100 + i)%nat) (Z.of_nat i) (txHeightAt i)
             = Return t)
          (seq 0 200) (mockTransactions mp).
Proof.
  unfold construct. intros H.
  destruct (pushAll _ (seq 0 100)) as [blocks|e] eqn:Hb; cbn [bind] in H; [|discriminate].
  destruct (pushAll _ (seq 0 200)) as [txs|e] eqn:Ht; cbn [bind] in H; [|discriminate].
  injection H as <-. cbn [mockBlocks mockTransactions]. split.
  - exact (pushAll_Forall2 _ _ _ Hb).
  - exact (pushAll_Forall2 _ _ _ Ht).
Qed.

Lemma construct_heights (tz : Zone) (clock : nat -> Z) (mp : MockProvider) :
  construct tz clock = Return mp ->
  map height (mockBlocks mp) = blockHeights /\
  map blockHeight (mockTransactions mp) = txHeights.
Proof.
  intros H. destruct (construct_inv _ _ _ H) as [Hb Ht]. split.
  - apply (Forall2_map_r _ _ _ _ _ Hb). intros i b Hi.
    now apply generateMockBlock_height in Hi.
  - apply (Forall2_map_r _ _ _ _ _ Ht). intros i t Hi.
    now apply generateMockTransaction_fields in Hi.
Qed.

Lemma construct_total (tz : Zone) (clock : nat -> Z) :
  steady tz -> saneClock clock -> exists mp, construct tz clock = Return mp.
Proof.
  intros Hsteady Hsane. unfold construct.
  destruct (pushAll_total
              (fun i => generateMockBlock tz (clock i) (latestHeight - Z.of_nat i))
              (seq 0 100)) as [blocks ->].
  { intros i Hi. apply in_seq in Hi.
    apply generateMockBlock_total; [assumption | apply Hsane | unfold latestHeight; lia]. }
  cbn [bind].
  destruct (pushAll_total
              (fun i => generateMockTransaction tz (clock (100 + i)%nat) (Z.of_nat i)
                          (if (i <? 160)%nat then Some (latestHeight - Z.of_nat (i / 4))
                           else None))
              (seq 0 200)) as [txs ->].
  { intros i Hi. apply in_seq in Hi.
    apply generateMockTransaction_total;
      [assumption | apply Hsane | apply (txHeightAt_range i) | lia]. }
  cbn [bind]. eauto.
Qed.

Lemma construct_lengths (tz : Zone) (clock : nat -> Z) (mp : MockProvider) :
  construct tz clock = Return mp ->
  List.length (mockBlocks mp) = 100%nat /\ List.length (mockTransactions mp) = 200%nat.
Proof.
  intros H. destruct (construct_heights _ _ _ H) as [Hb Ht]. split.
  - rewrite <- (length_map height), Hb. reflexivity.
  - rewrite <- (length_map blockHeight), Ht. reflexivity.
Qed.

Lemma Forall2_nth_error {A B : Type} (R : A -> B -> Prop) (xs : list A) (ys : list B) :
  Forall2 R xs ys ->
  forall i x, nth_error xs i = Some x -> exists y, nth_error ys i = Some y /\ R x y.
Proof.
  induction 1 as [|x0 y0 xs ys H0 _ IH]; intros [|i] x Hx; simpl in *; try discriminate.
  - injection Hx as <-. eauto.
  - now apply IH.
Qed.

Lemma mock_block_at (tz : Zone) (clock : nat -> Z) (mp : MockProvider) (i : nat) :
  construct tz clock = Return mp -> (i < 100)%nat ->
  exists b, nth_error (mockBlocks mp) i = Some b /\
            generateMockBlock tz (clock i) (latestHeight - Z.of_nat i) = Return b.
Proof.
  intros H Hi. destruct (construct_inv _ _ _ H) as [Hb _].
  apply (Forall2_nth_error _ _ _ Hb i i).
  rewrite nth_error_nth' with (d := 0%nat) by (rewrite length_seq; exact Hi).
  now rewrite seq_nth.
Qed.

Lemma getBlocksPage_heights (mp : MockProvider) (cursor : option string) :
  map height (items (getBlocksPage mp cursor))
  = window (map height (mockBlocks mp)) (cursorOffset cursor).
Proof. apply window_map. Qed.

Lemma lookup_by_height (mp : MockProvider) (id : string) (h : Z) :
  parseInt10 id = Int h ->
  option_map height (getBlockByHashOrHeight mp id)
  = find (fun z => z =? h) (map height (mockBlocks mp)).
Proof.
  intros Hid. unfold getBlockByHashOrHeight. rewrite Hid.
  apply (find_map height (fun z => z =? h)).
Qed.

(** C5: on the corpus of 100 mock blocks below the tip 12345, the page without
    a cursor holds the heights 12345 down to 12326 and continues at "20", the
    page at "20" holds 12325 down to 12306 and continues at "40", and the page
    at "80" holds 20 blocks and has no next cursor. *)
Theorem mock_blocks_pages_scenario (tz : Zone) (clock : nat -> Z) :
  steady tz -> saneClock clock ->
  exists mp,
    construct tz clock = Return mp /\
    List.length (mockBlocks mp) = 100%nat /\
    hd_error (map height (mockBlocks mp)) = Some 12345 /\
    map height (items (getBlocksPage mp None)) = [12345; 12344; 12343; 12342; 12341; 12340; 12339; 12338; 12337; 12336; 12335; 12334; 12333; 12332; 12331; 12330; 12329; 12328; 12327; 12326] /\
    nextCursor (getBlocksPage mp None) = Some "20"%string /\
    map height (items (getBlocksPage mp (Some "20"%string))) = [12325; 12324; 12323; 12322; 12321; 12320; 12319; 12318; 12317; 12316; 12315; 12314; 12313; 12312; 12311; 12310; 12309; 12308; 12307; 12306] /\
    nextCursor (getBlocksPage mp (Some "20"%string)) = Some "40"%string /\
    List.length (items (getBlocksPage mp (Some "80"%string))) = 20%nat /\
    nextCursor (getBlocksPage mp (Some "80"%string)) = None.
Proof.
  intros Hsteady Hsane. destruct (construct_total tz clock Hsteady Hsane) as [mp Hmp].
  exists mp. destruct (construct_heights _ _ _ Hmp) as [Hh _].
  destruct (construct_lengths _ _ _ Hmp) as [Hlen _].
  split; [exact Hmp|]. split; [exact Hlen|].
  rewrite !getBlocksPage_heights, Hh.
  unfold getBlocksPage, lengthOf. cbn [nextCursor]. rewrite Hlen.
  repeat split; try reflexivity.
  cbn [items]. rewrite <- (length_map height), window_map, Hh. reflexivity.
Qed.

Lemma mock_blocks_pages_scenario_witness :
  steady utc /\ saneClock (fun _ => newYearNoon) /\
  exists mp,
    construct utc (fun _ => newYearNoon) = Return mp /\
    nextCursor (getBlocksPage mp None) = Some "20"%string.
Proof.
  assert (saneClock (fun _ => newYearNoon)) as Hsane
    by (intros n; unfold maxTime, newYearNoon; simpl; lia).
  split; [exact (steady_fixedZone 0)|]. split; [exact Hsane|].
  destruct (mock_blocks_pages_scenario utc (fun _ => newYearNoon) (steady_fixedZone 0) Hsane)
    as [mp [H1 [_ [_ [_ [H2 _]]]]]].
  exists mp. split; [exact H1 | exact H2].
Defined.

(** C10: in the transaction corpus every transaction with a block height is a
    success with a timestamp, and every failed or pending one has neither a
    block height nor a timestamp, so no confirmed mock transaction is failed. *)
Theorem mock_transactions_confirmed_iff_success (tz : Zone) (clock : nat -> Z) :
  steady tz -> saneClock clock ->
  exists mp,
    construct tz clock = Return mp /\
    List.length (mockTransactions mp) = 200%nat /\
    forall t, In t (mockTransactions mp) ->
      (blockHeight t <> None -> status t = success /\ tx_timestamp t <> None) /\
      (status t = failed \/ status t = pending ->
       blockHeight t = None /\ tx_timestamp t = None).
Proof.
  intros Hsteady Hsane. destruct (construct_total tz clock Hsteady Hsane) as [mp Hmp].
  exists mp. split; [exact Hmp|]. split; [apply (construct_lengths _ _ _ Hmp)|].
  destruct (construct_inv _ _ _ Hmp) as [_ Ht].
  intros t Hin. apply In_nth_error in Hin as [i Hi].
  assert (exists j, generateMockTransaction tz (clock (100 + j)%nat) (Z.of_nat j)
                      (txHeightAt j) = Return t) as [j Hj].
  { clear Hmp. revert i Hi. induction Ht as [|j t' js ts Hjt _ IH]; intros [|i] Hi;
      simpl in Hi; try discriminate.
    - injection Hi as ->. now exists j.
    - now apply (IH i). }
  destruct (generateMockTransaction_fields _ _ _ _ _ Hj) as [Hbh [Hyes Hno]].
  rewrite txHeightAt_truthy in Hyes, Hno. rewrite Hbh.
  destruct (txHeightAt j) as [h|].
  - destruct (Hyes eq_refl) as [Hs Hts]. split; [easy|].
    rewrite Hs. intros [|]; discriminate.
  - destruct (Hno eq_refl) as [Hs Hts]. split; [easy|]. now intros _.
Qed.

Lemma mock_transactions_confirmed_iff_success_witness :
  steady utc /\ saneClock (fun _ => newYearNoon) /\
  exists mp,
    construct utc (fun _ => newYearNoon) = Return mp /\
    List.length (mockTransactions mp) = 200%nat.
Proof.
  assert (saneClock (fun _ => newYearNoon)) as Hsane
    by (intros n; unfold maxTime, newYearNoon; simpl; lia).
  split; [exact (steady_fixedZone 0)|]. split; [exact Hsane|].
  destruct (mock_transactions_confirmed_iff_success utc (fun _ => newYearNoon)
              (steady_fixedZone 0) Hsane)
    as [mp [H1 [H2 _]]].
  exists mp. split; [exact H1 | exact H2].
Defined.

(** *** The seed of a block holds the UTC day of its shifted date *)

Lemma lacks_app (c : ascii) (a b : string) :
  lacks c (a +++ b) = lacks c a && lacks c b.
Proof.
  unfold str. induction a as [|x a IH]; simpl; [reflexivity|].
  now rewrite IH, andb_assoc.
Qed.

Lemma splitHead_lacks (c : ascii) (a b : string) :
  lacks c a = true -> splitHead c (a +++ String c b) = a.
Proof.
  unfold str. induction a as [|x a IH]; simpl; intros H.
  - now rewrite Ascii.eqb_refl.
  - apply andb_prop in H as [Hx Ha]. apply negb_true_iff in Hx. rewrite Hx.
    f_equal. now apply IH.
Qed.

Lemma digitChar_not_T (d : Z) : 0 <= d < 10 -> Ascii.eqb (digitChar d) "T" = false.
Proof.
  intros H.
  assert (d = 0 \/ d = 1 \/ d = 2 \/ d = 3 \/ d = 4 \/ d = 5 \/ d = 6 \/ d = 7 \/ d = 8 \/ d = 9)
    as Hd by lia.
  repeat (destruct Hd as [-> | Hd]; [reflexivity|]). now subst.
Qed.

Lemma digitsAcc_lacks_T (fuel : nat) (n : Z) (acc : string) :
  lacks "T" acc = true -> lacks "T" (digitsAcc fuel 10 n acc) = true.
Proof.
  revert n acc. induction fuel as [|fuel IH]; intros n acc Hacc; simpl; [exact Hacc|].
  assert (lacks "T" (String (digitChar (n mod 10)) acc) = true) as Hnext.
  { cbn [lacks]. rewrite digitChar_not_T by (apply Z.mod_pos_bound; lia). exact Hacc. }
  destruct (n / 10 =? 0); [exact Hnext | now apply IH].
Qed.

Lemma Number_toString_lacks_T (n : Z) : lacks "T" (Number_toString n) = true.
Proof.
  unfold Number_toString, toStringRadix.
  destruct (n <? 0).
  - rewrite lacks_app. now rewrite digitsAcc_lacks_T.
  - now apply digitsAcc_lacks_T.
Qed.

Lemma zeros_lacks_T (k : nat) : lacks "T" (zeros k) = true.
Proof. induction k; simpl; auto. Qed.

Lemma pad_lacks_T (w : nat) (n : Z) : lacks "T" (pad w n) = true.
Proof.
  unfold pad, padStart0. now rewrite lacks_app, zeros_lacks_T, Number_toString_lacks_T.
Qed.

Lemma isoDate_lacks_T (t : Z) : lacks "T" (isoDate t) = true.
Proof.
  unfold isoDate. destruct (civilFromDays _) as [[y m] d].
  assert (lacks "T" (isoYear y) = true) as Hy.
  { unfold isoYear. destruct (_ && _); [apply pad_lacks_T|].
    destruct (y <? 0); rewrite lacks_app, pad_lacks_T; reflexivity. }
  rewrite !lacks_app, Hy, !pad_lacks_T. reflexivity.
Qed.

Lemma toISOString_day (date : num) (iso : string) :
  toISOString date = Return iso ->
  exists t, date = Int t /\ splitHead "T" iso = isoDate t.
Proof.
  destruct date as [|t]; simpl; [discriminate|].
  intros [= <-]. exists t. split; [reflexivity|].
  apply splitHead_lacks, isoDate_lacks_T.
Qed.

(** What a mock block holds, in terms of its height and the UTC day of its
    timestamp, which is the ISO form of the date computed for it. *)
Lemma generateMockBlock_fields (tz : Zone) (now h : Z) (b : Block) :
  generateMockBlock tz now h = Return b ->
  height b = h /\
  toISOString (blockDate tz now h) = Return (timestamp b) /\
  hash b = fakeHash (blockSeed h (splitHead "T" (timestamp b))) /\
  txCount b
  = floorTimes 20 (seededRandom (blockSeed h (splitHead "T" (timestamp b)))) + 1.
Proof.
  unfold generateMockBlock. fold (blockDate tz now h).
  destruct (toISOString _) as [iso|e] eqn:Hiso; cbn [bind]; [|discriminate].
  intros [= <-]. cbn [height hash txCount timestamp]. repeat split.
Qed.

(** What a mock transaction holds, in terms of its index, its block height
    and the UTC day of the date computed for it. *)
Lemma generateMockTransaction_seed (tz : Zone) (now index : Z) (bh : option Z)
  (t : Transaction) :
  generateMockTransaction tz now index bh = Return t ->
  exists day,
    dayOf (transactionDate tz now index bh) = Some day /\
    tx_hash t = fakeHash (txSeed index day) /\
    status t = (if truthyHeight bh then success
                else if 900000 <? seededRandom (txSeed index day) then failed
                     else pending) /\
    size t = Some (floorTimes 2000 (seededRandom (txSeed index day)) + 500).
Proof.
  unfold generateMockTransaction. cbv zeta. fold (transactionDate tz now index bh).
  destruct (toISOString _) as [iso|e] eqn:Hiso; cbn [bind]; [|discriminate].
  destruct (toISOString_day _ _ Hiso) as [d [-> Hday]]. rewrite Hday.
  intros H. exists (isoDate d). split; [reflexivity|].
  destruct (truthyHeight bh); cbn [bind] in H; injection H as <-;
    cbn [tx_hash status size]; repeat split.
Qed.

(** A mock transaction is a function of its index, its block height and the
    date computed for it. *)
Lemma generateMockTransaction_date (tz1 tz2 : Zone) (now1 now2 index : Z) (bh : option Z)
  (t1 t2 : Transaction) :
  generateMockTransaction tz1 now1 index bh = Return t1 ->
  generateMockTransaction tz2 now2 index bh = Return t2 ->
  transactionDate tz1 now1 index bh = transactionDate tz2 now2 index bh ->
  t1 = t2.
Proof.
  unfold generateMockTransaction. cbv zeta.
  fold (transactionDate tz1 now1 index bh). fold (transactionDate tz2 now2 index bh).
  intros H1 H2 Hdate. rewrite Hdate in H1. congruence.
Qed.

Lemma mock_transaction_at (tz : Zone) (clock : nat -> Z) (mp : MockProvider) (i : nat) :
  construct tz clock = Return mp -> (i < 200)%nat ->
  exists t, nth_error (mockTransactions mp) i = Some t /\
            generateMockTransaction tz (clock (100 + i)%nat) (Z.of_nat i) (txHeightAt i)
            = Return t.
Proof.
  intros H Hi. destruct (construct_inv _ _ _ H) as [_ Ht].
  apply (Forall2_nth_error _ _ _ Ht i i).
  rewrite nth_error_nth' with (d := 0%nat) by (rewrite length_seq; exact Hi).
  now rewrite seq_nth.
Qed.

(** C3, as the code has it: two constructions produce blocks of the same
    heights and transactions of the same block heights, and what else they
    produce depends on the clock readings and on the local time zone of the
    host, through the dates computed from them.  The blocks at one position
    (the first one is the block at height 12345) have the same hash and
    txCount whenever their timestamps, which are the ISO forms of those
    dates, fall on the same UTC day, and are equal whenever the timestamps
    are; the transactions at one position have the same hash, status and size
    whenever their dates fall on the same UTC day, and are equal whenever the
    dates are. *)
Theorem mock_corpus_determined_by_dates (tz1 tz2 : Zone) (clock1 clock2 : nat -> Z) :
  steady tz1 -> steady tz2 -> saneClock clock1 -> saneClock clock2 ->
  exists mp1 mp2,
    construct tz1 clock1 = Return mp1 /\
    construct tz2 clock2 = Return mp2 /\
    (forall i b1 b2,
        nth_error (mockBlocks mp1) i = Some b1 ->
        nth_error (mockBlocks mp2) i = Some b2 ->
        height b1 = height b2 /\
        toISOString (blockDate tz1 (clock1 i) (height b1)) = Return (timestamp b1) /\
        toISOString (blockDate tz2 (clock2 i) (height b2)) = Return (timestamp b2) /\
        (splitHead "T" (timestamp b1) = splitHead "T" (timestamp b2) ->
         hash b1 = hash b2 /\ txCount b1 = txCount b2) /\
        (timestamp b1 = timestamp b2 -> b1 = b2)) /\
    (forall i t1 t2,
        nth_error (mockTransactions mp1) i = Some t1 ->
        nth_error (mockTransactions mp2) i = Some t2 ->
        let date1 :=
          transactionDate tz1 (clock1 (100 + i)%nat) (Z.of_nat i) (blockHeight t1) in
        let date2 :=
          transactionDate tz2 (clock2 (100 + i)%nat) (Z.of_nat i) (blockHeight t2) in
        blockHeight t1 = blockHeight t2 /\
        (dayOf date1 = dayOf date2 ->
         tx_hash t1 = tx_hash t2 /\ status t1 = status t2 /\ size t1 = size t2) /\
        (date1 = date2 -> t1 = t2)).
Proof.
  intros Hz1 Hz2 Hs1 Hs2.
  destruct (construct_total tz1 clock1 Hz1 Hs1) as [mp1 H1].
  destruct (construct_total tz2 clock2 Hz2 Hs2) as [mp2 H2].
  exists mp1, mp2. split; [exact H1|]. split; [exact H2|]. split.
  - intros i b1 b2 Hb1 Hb2.
    assert (i < 100)%nat as Hi.
    { destruct (construct_lengths _ _ _ H1) as [<- _].
      apply nth_error_Some. congruence. }
    destruct (mock_block_at tz1 clock1 mp1 i H1 Hi) as [c1 [Hc1 G1]].
    destruct (mock_block_at tz2 clock2 mp2 i H2 Hi) as [c2 [Hc2 G2]].
    rewrite Hb1 in Hc1. injection Hc1 as <-.
    rewrite Hb2 in Hc2. injection Hc2 as <-.
    destruct (generateMockBlock_fields _ _ _ _ G1) as [E1 [D1 [F1 T1]]].
    destruct (generateMockBlock_fields _ _ _ _ G2) as [E2 [D2 [F2 T2]]].
    split; [congruence|]. rewrite E1, E2. split; [exact D1|]. split; [exact D2|].
    assert (splitHead "T" (timestamp b1) = splitHead "T" (timestamp b2) ->
            hash b1 = hash b2 /\ txCount b1 = txCount b2) as Hday.
    { intros Hday. rewrite F1, F2, T1, T2, Hday. split; reflexivity. }
    split; [exact Hday|].
    intros Hts. destruct Hday as [Hh Hc]; [now rewrite Hts|].
    destruct b1, b2. cbn [height hash timestamp txCount] in *. congruence.
  - intros i t1 t2 Ht1 Ht2.
    assert (i < 200)%nat as Hi.
    { destruct (construct_lengths _ _ _ H1) as [_ <-].
      apply nth_error_Some. congruence. }
    destruct (mock_transaction_at tz1 clock1 mp1 i H1 Hi) as [c1 [Hc1 G1]].
    destruct (mock_transaction_at tz2 clock2 mp2 i H2 Hi) as [c2 [Hc2 G2]].
    rewrite Ht1 in Hc1. injection Hc1 as <-.
    rewrite Ht2 in Hc2. injection Hc2 as <-.
    destruct (generateMockTransaction_fields _ _ _ _ _ G1) as [B1 _].
    destruct (generateMockTransaction_fields _ _ _ _ _ G2) as [B2 _].
    cbv zeta. rewrite B1, B2. split; [reflexivity|]. split.
    + intros Hday.
      destruct (generateMockTransaction_seed _ _ _ _ _ G1) as [d1 [D1 [X1 [Y1 Z1]]]].
      destruct (generateMockTransaction_seed _ _ _ _ _ G2) as [d2 [D2 [X2 [Y2 Z2]]]].
      assert (d1 = d2) as <- by congruence.
      rewrite X1, X2, Y1, Y2, Z1, Z2. repeat split.
    + intros Hdate. exact (generateMockTransaction_date _ _ _ _ _ _ _ _ G1 G2 Hdate).
Qed.

Lemma mock_corpus_determined_by_dates_witness :
  steady utc /\ steady (fixedZone 330) /\
  saneClock (fun _ => newYearNoon) /\ saneClock (fun _ => nextDayNoon) /\
  exists mp1 mp2,
    construct utc (fun _ => newYearNoon) = Return mp1 /\
    construct (fixedZone 330) (fun _ => nextDayNoon) = Return mp2 /\
    forall b1 b2,
      nth_error (mockBlocks mp1) 0 = Some b1 ->
      nth_error (mockBlocks mp2) 0 = Some b2 ->
      height b1 = height b2.
Proof.
  assert (saneClock (fun _ => newYearNoon)) as Hs1
    by (intros n; unfold maxTime, newYearNoon; simpl; lia).
  assert (saneClock (fun _ => nextDayNoon)) as Hs2
    by (intros n; unfold maxTime, nextDayNoon; simpl; lia).
  split; [exact (steady_fixedZone 0)|]. split; [exact (steady_fixedZone 330)|].
  split; [exact Hs1|]. split; [exact Hs2|].
  destruct (mock_corpus_determined_by_dates utc (fixedZone 330)
              (fun _ => newYearNoon) (fun _ => nextDayNoon)
              (steady_fixedZone 0) (steady_fixedZone 330) Hs1 Hs2)
    as [mp1 [mp2 [H1 [H2 [H3 _]]]]].
  exists mp1, mp2. split; [exact H1|]. split; [exact H2|].
  intros b1 b2 Hb1 Hb2. exact (proj1 (H3 0%nat b1 b2 Hb1 Hb2)).
Defined.

Lemma sane_constant (t : Z) : Z.abs t <= maxTime - 1500000000 -> saneClock (fun _ => t).
Proof. intros H n. exact H. Qed.

Lemma first_block (mp : MockProvider) (now : Z) :
  construct utc (fun _ => now) = Return mp ->
  exists b, hd_error (mockBlocks mp) = Some b /\ generateMockBlock utc now 12345 = Return b.
Proof.
  intros H. destruct (mock_block_at utc _ mp 0 H) as [b [Hb G]]; [lia|].
  exists b. split; [|exact G].
  destruct (mockBlocks mp); simpl in *; congruence.
Qed.

(** C3, as stated, fails: a construction at noon of 2024-01-01 (UTC) and one
    a day later give the mock block at height 12345 different hashes, hence
    different corpora. *)
Lemma mock_corpus_differs_across_days :
  exists mp1 mp2 b1 b2,
    construct utc (fun _ => newYearNoon) = Return mp1 /\
    construct utc (fun _ => nextDayNoon) = Return mp2 /\
    hd_error (mockBlocks mp1) = Some b1 /\
    hd_error (mockBlocks mp2) = Some b2 /\
    height b1 = 12345 /\ height b2 = 12345 /\
    hash b1 = "7777777777111111111111111111111111111111111111111111111111111111"%string /\
    hash b2 = "7777777777222222222222222222222222222222222222222222222222222222"%string /\
    mp1 <> mp2.
Proof.
  assert (saneClock (fun _ => newYearNoon)) as Hs1
    by (apply sane_constant; unfold maxTime, newYearNoon; simpl; lia).
  assert (saneClock (fun _ => nextDayNoon)) as Hs2
    by (apply sane_constant; unfold maxTime, nextDayNoon; simpl; lia).
  destruct (construct_total utc _ (steady_fixedZone 0) Hs1) as [mp1 H1].
  destruct (construct_total utc _ (steady_fixedZone 0) Hs2) as [mp2 H2].
  destruct (first_block _ _ H1) as [b1 [Hb1 G1]].
  destruct (first_block _ _ H2) as [b2 [Hb2 G2]].
  vm_compute in G1. vm_compute in G2.
  injection G1 as <-. injection G2 as <-.
  exists mp1, mp2. do 2 eexists.
  split; [exact H1|]. split; [exact H2|]. split; [exact Hb1|]. split; [exact Hb2|].
  repeat split. intros ->. rewrite Hb1 in Hb2. discriminate.
Qed.

(** The zone of the host matters as well: the minutes handed to
    [setMinutes] are truncated towards zero from the minutes of the local
    time, so that at 2024-01-01T00:16:30.000Z the date of the transaction at
    index 161 falls on 2024-01-01 on a host on UTC and on 2023-12-31 on a
    host five and a half hours ahead, and the two transactions differ in
    their hashes. *)
Lemma mock_corpus_differs_across_zones :
  exists mp1 mp2 t1 t2,
    construct utc (fun _ => newYearNight) = Return mp1 /\
    construct (fixedZone 330) (fun _ => newYearNight) = Return mp2 /\
    nth_error (mockTransactions mp1) 161 = Some t1 /\
    nth_error (mockTransactions mp2) 161 = Some t2 /\
    dayOf (transactionDate utc newYearNight 161 None) = Some "2024-01-01"%string /\
    dayOf (transactionDate (fixedZone 330) newYearNight 161 None)
    = Some "2023-12-31"%string /\
    tx_hash t1 <> tx_hash t2 /\
    mp1 <> mp2.
Proof.
  assert (saneClock (fun _ => newYearNight)) as Hs
    by (apply sane_constant; unfold maxTime, newYearNight; simpl; lia).
  destruct (construct_total utc _ (steady_fixedZone 0) Hs) as [mp1 H1].
  destruct (construct_total (fixedZone 330) _ (steady_fixedZone 330) Hs) as [mp2 H2].
  destruct (mock_transaction_at _ _ mp1 161 H1) as [t1 [Ht1 G1]]; [lia|].
  destruct (mock_transaction_at _ _ mp2 161 H2) as [t2 [Ht2 G2]]; [lia|].
  vm_compute in G1. vm_compute in G2.
  injection G1 as <-. injection G2 as <-.
  exists mp1, mp2. do 2 eexists.
  split; [exact H1|]. split; [exact H2|]. split; [exact Ht1|]. split; [exact Ht2|].
  split; [vm_compute; reflexivity|]. split; [vm_compute; reflexivity|].
  split; [cbn [tx_hash]; discriminate|].
  intros ->. rewrite Ht1 in Ht2. discriminate.
Qed.

(** C4, where the code breaks the rule: MockProvider reads an id with
    [parseInt], so an id that only starts with digits is taken for a height.
    The id 12345abc, which is no number, yields the block at height 12345; and
    the mock block at height 12343 of a construction at noon of 2024-01-01,
    whose hash starts with digits, is not found by its own hash. *)
Theorem mock_lookup_takes_digit_prefix_for_height :
  exists mp b b',
    construct utc (fun _ => newYearNoon) = Return mp /\
    isDecimal "12345abc" = false /\
    getBlockByHashOrHeight mp "12345abc" = Some b /\
    height b = 12345 /\
    In b' (mockBlocks mp) /\
    hash b' = "6666666666ffffffffffffffffffffffffffffffffffffffffffffffffffffff"%string /\
    isDecimal (hash b') = false /\
    getBlockByHashOrHeight mp (hash b') = None.
Proof.
  assert (saneClock (fun _ => newYearNoon)) as Hs
    by (apply sane_constant; unfold maxTime, newYearNoon; simpl; lia).
  destruct (construct_total utc _ (steady_fixedZone 0) Hs) as [mp H].
  destruct (construct_heights _ _ _ H) as [Hh _].
  assert (option_map height (getBlockByHashOrHeight mp "12345abc") = Some 12345) as H1.
  { rewrite (lookup_by_height mp _ 12345) by reflexivity. rewrite Hh. reflexivity. }
  destruct (getBlockByHashOrHeight mp "12345abc") as [b|] eqn:Hb; [|discriminate].
  destruct (mock_block_at utc _ mp 2 H) as [b' [Hb' G]]; [lia|].
  vm_compute in G. injection G as <-.
  exists mp, b. eexists.
  split; [exact H|]. split; [reflexivity|]. split; [exact Hb|].
  split; [now injection H1|]. split; [exact (nth_error_In _ _ Hb')|].
  split; [reflexivity|]. split; [reflexivity|].
  cbn [hash].
  assert (option_map height
            (getBlockByHashOrHeight mp
               "6666666666ffffffffffffffffffffffffffffffffffffffffffffffffffffff")
          = None) as H2.
  { rewrite (lookup_by_height mp _ 6666666666) by reflexivity. rewrite Hh. reflexivity. }
  destruct (getBlockByHashOrHeight mp
              "6666666666ffffffffffffffffffffffffffffffffffffffffffffffffffffff");
    [simpl in H2; discriminate | reflexivity].
Qed.

(** *** Transactions of a block that the corpus does not hold *)

Lemma window_nil {A : Type} (offset : num) : window (@nil A) offset = [].
Proof.
  unfold window, slice. rewrite skipn_nil. apply firstn_nil.
Qed.

Lemma txHeights_in_blocks :
  forallb (fun o => match o with
                    | None => true
                    | Some z => existsb (Z.eqb z) blockHeights
                    end) txHeights = true.
Proof. vm_compute. reflexivity. Qed.

Lemma no_block_no_transactions (tz : Zone) (clock : nat -> Z) (mp : MockProvider) (h : Z) :
  construct tz clock = Return mp ->
  find (fun b => height b =? h) (mockBlocks mp) = None ->
  filter (heightIs h) (mockTransactions mp) = [].
Proof.
  intros Hmp Hfind. destruct (construct_heights _ _ _ Hmp) as [Hb Ht].
  destruct (filter (heightIs h) (mockTransactions mp)) as [|t ts] eqn:Hf; [reflexivity|].
  exfalso.
  assert (In t (filter (heightIs h) (mockTransactions mp))) as Hin
    by (rewrite Hf; now left).
  apply filter_In in Hin as [Hin Hh]. unfold heightIs in Hh.
  destruct (blockHeight t) as [z|] eqn:Hz; [|discriminate].
  apply Z.eqb_eq in Hh. subst z.
  assert (In (Some h) txHeights) as Hth.
  { rewrite <- Ht, <- Hz. now apply in_map. }
  pose proof txHeights_in_blocks as Hall. rewrite forallb_forall in Hall.
  specialize (Hall _ Hth). cbn beta iota in Hall.
  apply existsb_exists in Hall as [z [Hzin Hzeq]]. apply Z.eqb_eq in Hzeq. subst z.
  rewrite <- Hb in Hzin. apply in_map_iff in Hzin as [b [Hbh Hbin]].
  apply (find_none _ _ Hfind) in Hbin. rewrite Hbh, Z.eqb_refl in Hbin. discriminate.
Qed.

Lemma missing_block_page (tz : Zone) (clock : nat -> Z) (mp : MockProvider)
  (id : string) (cursor : option string) :
  construct tz clock = Return mp ->
  getBlockByHashOrHeight mp id = None ->
  notBelow (-20) (cursorOffset cursor) ->
  getBlockTransactions mp id cursor = mkPage [] None.
Proof.
  intros Hmp Hnone Hoff. unfold getBlockTransactions, resolveHeight.
  unfold getBlockByHashOrHeight in Hnone.
  destruct (parseInt10 id) as [|h].
  - now rewrite Hnone.
  - rewrite (no_block_no_transactions _ _ _ _ Hmp Hnone), window_nil.
    f_equal. unfold cursorWhen, lengthOf. cbn [List.length Z.of_nat].
    destruct (cursorOffset cursor) as [|o]; cbn [add ltb]; [reflexivity|].
    cbn [notBelow] in Hoff. unfold pageSize.
    destruct (o + 20 <? 0) eqn:Hlt; [|reflexivity].
    apply Z.ltb_lt in Hlt. lia.
Qed.

End MockFacts.

(** ** The RPC Scanner *)

Module RpcFacts.
Import Js Rpc.

Lemma marker_found (name : string) (events : list EventRecord) (idx : Z) :
  existsb (isMarker name) (filter (appliesTo idx) events) = true <->
  hasMarker name events idx.
Proof.
  unfold hasMarker. split.
  - intros Hs. apply existsb_exists in Hs as [r [Hin Hm]].
    apply filter_In in Hin as [Hin Hphase].
    unfold appliesTo in Hphase. unfold isMarker in Hm.
    apply andb_prop in Hm as [Hsec Hmeth].
    apply String.eqb_eq in Hsec, Hmeth.
    destruct (phase r) as [[n| |]|] eqn:Hp; try discriminate.
    apply Z.eqb_eq in Hphase. subst n. now exists r.
  - intros [r [Hin [Hp [Hsec Hmeth]]]].
    apply existsb_exists. exists r. split.
    + apply filter_In. split; [exact Hin|]. unfold appliesTo. rewrite Hp. apply Z.eqb_refl.
    + unfold isMarker. apply andb_true_intro. split; now apply String.eqb_eq.
Qed.

Lemma statusAt_cases (events : list EventRecord) (idx : Z) :
  (hasMarker "ExtrinsicSuccess" events idx -> statusAt events idx = success) /\
  (~ hasMarker "ExtrinsicSuccess" events idx -> hasMarker "ExtrinsicFailed" events idx ->
   statusAt events idx = failed) /\
  (~ hasMarker "ExtrinsicSuccess" events idx -> ~ hasMarker "ExtrinsicFailed" events idx ->
   statusAt events idx = pending).
Proof.
  pose proof (marker_found "ExtrinsicSuccess" events idx) as [Hs1 Hs2].
  pose proof (marker_found "ExtrinsicFailed" events idx) as [Hf1 Hf2].
  unfold statusAt.
  destruct (existsb (isMarker "ExtrinsicSuccess") _);
    destruct (existsb (isMarker "ExtrinsicFailed") _);
    intuition congruence.
Qed.

Lemma forEachFrom_nth (exts : list Extrinsic) (events : list EventRecord) (h : Z)
  (ts : option string) :
  forall (k : Z) (i : nat) (tx : Transaction),
    nth_error (forEachFrom k exts events h ts) i = Some tx ->
    exists ext, nth_error exts i = Some ext /\
                tx = mkTransaction (ext_hash ext) (statusAt events (k + Z.of_nat i)) (Some h) ts
                                   (encodedLength ext).
Proof.
  induction exts as [|ext exts IH]; intros k [|i] tx H; simpl in H; try discriminate.
  - injection H as <-. exists ext. split; [reflexivity|]. now rewrite Z.add_0_r.
  - destruct (IH (k + 1) i tx H) as [e [He Htx]]. exists e. split; [exact He|].
    rewrite Htx. do 2 f_equal. lia.
Qed.

Lemma forEachFrom_length (exts : list Extrinsic) (events : list EventRecord) (h : Z)
  (ts : option string) (k : Z) :
  List.length (forEachFrom k exts events h ts) = List.length exts.
Proof. revert k. induction exts; intros k; simpl; auto. Qed.

Section Scanner.

Variable now : Z.
Variable getApi : exc unit.
Variable getFinalizedHead : exc string.
Variable getHeader : string -> exc Z.
Variable getBlockHash : num -> exc string.
Variable getBlock : string -> exc SignedBlock.
Variable eventsAt : string -> exc (list EventRecord).

#[local] Abbreviation mapExtrinsicsForBlock :=
  (Rpc.mapExtrinsicsForBlock getApi getBlock eventsAt).
#[local] Abbreviation eventLog := (Rpc.eventLog eventsAt).

Lemma mapExtrinsicsForBlock_inv (h : Z) (hashHex : string) (txs : list Transaction) :
  mapExtrinsicsForBlock h hashHex = Return txs ->
  exists signedBlock,
    getBlock hashHex = Return signedBlock /\
    txs = forEachFrom 0 (extrinsics signedBlock) (eventLog hashHex) h
                      (blockTime (extrinsics signedBlock)).
Proof.
  unfold Rpc.mapExtrinsicsForBlock, Rpc.eventLog.
  destruct getApi; cbn [bind]; [|discriminate].
  destruct (getBlock hashHex) as [sb|e]; cbn [bind]; [|discriminate].
  intros [= <-]. now exists sb.
Qed.

(** C6: the scanner gives the transaction at index [i] of a block the status
    success when the event log holds a success marker correlated to [i] (also
    when a failure marker is correlated to it as well), failed when it holds a
    correlated failure marker and no correlated success marker, and pending
    when it holds neither. *)
Theorem extrinsic_status_follows_markers (h : Z) (hashHex : string)
  (txs : list Transaction) :
  mapExtrinsicsForBlock h hashHex = Return txs ->
  exists signedBlock,
    getBlock hashHex = Return signedBlock /\
    List.length txs = List.length (extrinsics signedBlock) /\
    forall (i : nat) (tx : Transaction),
      nth_error txs i = Some tx ->
      let idx := Z.of_nat i in
      let log := eventLog hashHex in
      (exists ext, nth_error (extrinsics signedBlock) i = Some ext /\
                   tx_hash tx = ext_hash ext) /\
      (hasMarker "ExtrinsicSuccess" log idx -> status tx = success) /\
      (~ hasMarker "ExtrinsicSuccess" log idx -> hasMarker "ExtrinsicFailed" log idx ->
       status tx = failed) /\
      (~ hasMarker "ExtrinsicSuccess" log idx -> ~ hasMarker "ExtrinsicFailed" log idx ->
       status tx = pending).
Proof.
  intros H. destruct (mapExtrinsicsForBlock_inv _ _ _ H) as [sb [Hsb ->]].
  exists sb. split; [exact Hsb|]. split; [apply forEachFrom_length|].
  intros i tx Htx idx log.
  destruct (forEachFrom_nth _ _ _ _ _ _ _ Htx) as [ext [Hext ->]].
  cbn [status tx_hash]. split; [now exists ext|].
  exact (statusAt_cases (eventLog hashHex) (Z.of_nat i)).
Qed.

End Scanner.

Lemma extrinsic_status_follows_markers_witness :
  Rpc.mapExtrinsicsForBlock (Return tt) (sampleBlock fourExtrinsics) (sampleEvents fourEvents)
    7 "0x7"
  = Return [ mkTransaction "0xAA" success (Some 7) (Some "2024-01-01T12:00:00.000Z"%string)
               (Some 10);
             mkTransaction "0xBB" failed (Some 7) (Some "2024-01-01T12:00:00.000Z"%string)
               (Some 120);
             mkTransaction "0xCC" pending (Some 7) (Some "2024-01-01T12:00:00.000Z"%string)
               None;
             mkTransaction "0xDD" success (Some 7) (Some "2024-01-01T12:00:00.000Z"%string)
               (Some 300) ] /\
  exists signedBlock,
    sampleBlock fourExtrinsics "0x7" = Return signedBlock /\
    List.length (extrinsics signedBlock) = 4%nat.
Proof.
  assert (Rpc.mapExtrinsicsForBlock (Return tt) (sampleBlock fourExtrinsics)
            (sampleEvents fourEvents) 7 "0x7"
          = Return [ mkTransaction "0xAA" success (Some 7)
                       (Some "2024-01-01T12:00:00.000Z"%string) (Some 10);
                     mkTransaction "0xBB" failed (Some 7)
                       (Some "2024-01-01T12:00:00.000Z"%string) (Some 120);
                     mkTransaction "0xCC" pending (Some 7)
                       (Some "2024-01-01T12:00:00.000Z"%string) None;
                     mkTransaction "0xDD" success (Some 7)
                       (Some "2024-01-01T12:00:00.000Z"%string) (Some 300) ]) as H
    by (vm_compute; reflexivity).
  split; [exact H|].
  destruct (extrinsic_status_follows_markers (Return tt) (sampleBlock fourExtrinsics)
              (sampleEvents fourEvents) 7 "0x7" _ H) as [sb [Hsb [Hlen _]]].
  exists sb. split; [exact Hsb|]. rewrite <- Hlen. reflexivity.
Defined.

Section ByHash.

Variable getApi : exc unit.
Variable getFinalizedHead : exc string.
Variable getHeader : string -> exc Z.
Variable getBlockHash : num -> exc string.
Variable getBlock : string -> exc SignedBlock.
Variable eventsAt : string -> exc (list EventRecord).
Variable hash : string.

#[local] Abbreviation transactionsAt :=
  (Rpc.transactionsAt getApi getBlockHash getBlock eventsAt).
#[local] Abbreviation findFrom := (Rpc.findFrom getApi getBlockHash getBlock eventsAt).
#[local] Abbreviation matchesAt := (Rpc.matchesAt getApi getBlockHash getBlock eventsAt).
#[local] Abbreviation noMatchAt := (Rpc.noMatchAt getApi getBlockHash getBlock eventsAt).
#[local] Abbreviation getTipInfo := (Rpc.getTipInfo getApi getFinalizedHead getHeader).
#[local] Abbreviation scanByHash :=
  (Rpc.scanByHash getApi getFinalizedHead getHeader getBlockHash getBlock eventsAt).
#[local] Abbreviation getTransactionByHash :=
  (Rpc.getTransactionByHash getApi getFinalizedHead getHeader getBlockHash getBlock eventsAt).

Lemma findFrom_S (fuel : nat) (h : Z) :
  findFrom (S fuel) h hash
  = if h <? 0 then ([], Return None)
    else match transactionsAt h with
         | Throw e => ([h], Throw e)
         | Return items =>
             match find (sameHash hash) items with
             | Some found => ([h], Return (Some found))
             | None => (h :: fst (findFrom fuel (h - 1) hash),
                        snd (findFrom fuel (h - 1) hash))
             end
         end.
Proof.
  cbn [Rpc.findFrom]. unfold Rpc.transactionsAt.
  destruct (h <? 0); [reflexivity|].
  destruct (bind _ _); [|reflexivity].
  destruct (find _ _); [reflexivity|].
  now destruct (Rpc.findFrom _ _ _ _ fuel (h - 1) hash).
Qed.

(** The scan asks for at most [fuel] blocks, at the heights [h], [h - 1], ... *)
Lemma findFrom_fetched (fuel : nat) :
  forall h,
    (List.length (fst (findFrom fuel h hash)) <= fuel)%nat /\
    forall k x, nth_error (fst (findFrom fuel h hash)) k = Some x ->
                x = h - Z.of_nat k /\ 0 <= x.
Proof.
  induction fuel as [|fuel IH]; intros h.
  - simpl. split; [lia|]. intros [|k] x; discriminate.
  - rewrite findFrom_S. destruct (h <? 0) eqn:Hneg.
    + simpl. split; [lia|]. intros [|k] x; discriminate.
    + apply Z.ltb_ge in Hneg.
      assert (forall k x, nth_error [h] k = Some x -> x = h - Z.of_nat k /\ 0 <= x) as Hone.
      { intros [|[|k]] x Hx; simpl in Hx; try discriminate. injection Hx as <-. lia. }
      destruct (transactionsAt h) as [items|e].
      * destruct (find _ items).
        -- simpl. split; [lia | exact Hone].
        -- destruct (IH (h - 1)) as [Hlen Hnth]. cbn [fst List.length]. split; [lia|].
           intros [|k] x Hx; simpl in Hx.
           ++ injection Hx as <-. lia.
           ++ destruct (Hnth k x Hx). lia.
      * simpl. split; [lia | exact Hone].
Qed.

(** What the scan returns: a first match in the highest block that holds one,
    or nothing after it saw no match in any block that it covers. *)
Lemma findFrom_result (fuel : nat) :
  forall h,
    (forall tx, snd (findFrom fuel h hash) = Return (Some tx) ->
                exists x, scanned fuel h x /\ matchesAt hash x tx /\
                          forall y, x < y <= h -> noMatchAt hash y) /\
    (snd (findFrom fuel h hash) = Return None ->
     forall x, scanned fuel h x -> noMatchAt hash x).
Proof.
  unfold Rpc.scanned.
  induction fuel as [|fuel IH]; intros h.
  - simpl. split; [discriminate|]. intros _ x Hx. lia.
  - rewrite findFrom_S. destruct (h <? 0) eqn:Hneg.
    + cbn [snd]. apply Z.ltb_lt in Hneg. split; [discriminate|]. intros _ x Hx. lia.
    + apply Z.ltb_ge in Hneg.
      destruct (transactionsAt h) as [items|e] eqn:Hitems.
      * destruct (find _ items) as [found|] eqn:Hfind; cbn [snd].
        -- split; [|discriminate]. intros tx [= <-]. exists h.
           split; [lia|]. split; [now exists items|]. intros y Hy. lia.
        -- destruct (IH (h - 1)) as [Hsome Hnone]. split.
           ++ intros tx Htx. destruct (Hsome tx Htx) as [x [Hx [Hm Habove]]].
              exists x. split; [lia|]. split; [exact Hm|].
              intros y Hy. destruct (Z.eq_dec y h) as [->|Hne].
              ** now exists items.
              ** apply Habove. lia.
           ++ intros Hres x Hx. destruct (Z.eq_dec x h) as [->|Hne].
              ** now exists items.
              ** apply (Hnone Hres). lia.
      * cbn [snd]. split; discriminate.
Qed.

(** The scan ends without an error when the node answers for the blocks that
    it covers. *)
Lemma findFrom_total (fuel : nat) :
  forall h,
    (forall x, scanned fuel h x -> exists items, transactionsAt x = Return items) ->
    exists r, snd (findFrom fuel h hash) = Return r.
Proof.
  unfold Rpc.scanned.
  induction fuel as [|fuel IH]; intros h Hnode.
  - simpl. eauto.
  - rewrite findFrom_S. destruct (h <? 0) eqn:Hneg; [simpl; eauto|].
    apply Z.ltb_ge in Hneg.
    destruct (Hnode h) as [items ->]; [lia|].
    destruct (find _ items); cbn [snd]; [eauto|].
    apply IH. intros x Hx. apply Hnode. lia.
Qed.

Lemma scanByHash_tip (tip : Z) :
  getTipInfo = Return tip -> getApi = Return tt ->
  scanByHash hash = findFrom maxScanBlocks tip hash.
Proof.
  intros Htip Hapi. unfold Rpc.scanByHash. rewrite Htip. cbn [bind]. now rewrite Hapi.
Qed.

Lemma scanByHash_cases :
  (exists e, scanByHash hash = ([], Throw e)) \/
  (exists tip, getTipInfo = Return tip /\ scanByHash hash = findFrom maxScanBlocks tip hash).
Proof.
  unfold Rpc.scanByHash.
  destruct getTipInfo as [tip|e]; cbn [bind]; [|left; eauto].
  destruct getApi as [[]|e]; cbn [bind]; [|left; eauto].
  right. eauto.
Qed.

(** C7: a lookup by hash asks the node for at most 500 blocks, going down from
    the tip; a transaction that it returns is the first one of the highest
    scanned block that holds the hash, compared without regard to case; it
    returns null, and no error, when the node answers and none of the scanned
    blocks holds the hash. *)
Theorem transaction_lookup_scans_at_most_500_blocks :
  maxScanBlocks = 500%nat /\
  (List.length (fst (scanByHash hash)) <= maxScanBlocks)%nat /\
  (forall tip, getTipInfo = Return tip ->
     (forall k x, nth_error (fst (scanByHash hash)) k = Some x ->
                  x = tip - Z.of_nat k /\ 0 <= x) /\
     (forall tx, getTransactionByHash hash = Return (Some tx) ->
                 toLowerCase (tx_hash tx) = toLowerCase hash /\
                 exists x, scanned maxScanBlocks tip x /\ matchesAt hash x tx /\
                           forall y, x < y <= tip -> noMatchAt hash y) /\
     (getTransactionByHash hash = Return None ->
      forall x, scanned maxScanBlocks tip x -> noMatchAt hash x) /\
     (getApi = Return tt ->
      (forall x, scanned maxScanBlocks tip x ->
                 exists items, transactionsAt x = Return items) ->
      exists r, getTransactionByHash hash = Return r /\
                (r = None <-> forall x, scanned maxScanBlocks tip x -> noMatchAt hash x) /\
                (forall x found, scanned maxScanBlocks tip x -> matchesAt hash x found ->
                                 exists tx, r = Some tx))).
Proof.
  split; [reflexivity|]. split.
  - destruct scanByHash_cases as [[e ->]|[tip [_ ->]]]; [simpl; lia|].
    apply (findFrom_fetched maxScanBlocks tip).
  - intros tip Htip. unfold Rpc.getTransactionByHash.
    destruct scanByHash_cases as [[e He]|[tip' [Htip' He]]].
    + rewrite He. cbn [fst snd]. repeat split; try discriminate.
      * destruct k; discriminate.
      * destruct k; discriminate.
      * intros Hapi Hnode. exfalso.
        rewrite (scanByHash_tip tip Htip Hapi) in He.
        destruct (findFrom_total maxScanBlocks tip Hnode) as [r Hr].
        rewrite He in Hr. discriminate.
    + rewrite Htip in Htip'. injection Htip' as <-. rewrite He.
      destruct (findFrom_result maxScanBlocks tip) as [Hsome Hnone].
      split; [apply (findFrom_fetched maxScanBlocks tip)|].
      split; [|split; [exact Hnone|]].
      * intros tx Htx. destruct (Hsome tx Htx) as [x [Hx [Hm Habove]]].
        split.
        -- destruct Hm as [items [_ Hfind]]. apply find_some in Hfind as [_ Hsame].
           apply String.eqb_eq. exact Hsame.
        -- exists x. split; [exact Hx|]. split; [exact Hm | exact Habove].
      * intros _ Hnode. destruct (findFrom_total maxScanBlocks tip Hnode) as [r Hr].
        exists r. split; [exact Hr|].
        assert ((forall x, scanned maxScanBlocks tip x -> noMatchAt hash x) -> r = None)
          as Hback.
        { intros Hno. destruct r as [tx|]; [|reflexivity].
          destruct (Hsome tx Hr) as [x [Hx [[items [Hi Hf]] _]]].
          destruct (Hno x Hx) as [items' [Hi' Hf']]. congruence. }
        split.
        -- split; [|exact Hback]. intros ->. exact (Hnone Hr).
        -- intros x found Hx [items [Hi Hf]].
           destruct r as [tx|]; [now exists tx|].
           destruct (Hnone Hr x Hx) as [items' [Hi' Hf']]. congruence.
Qed.

End ByHash.

Lemma transaction_lookup_scans_at_most_500_blocks_witness :
  Rpc.getTipInfo (Return tt) (Return "0xhead"%string) (fun _ => Return 3) = Return 3 /\
  Rpc.getTransactionByHash (Return tt) (Return "0xhead"%string) (fun _ => Return 3)
    sampleHash (sampleBlock fourExtrinsics) (sampleEvents fourEvents) "0xdd"
  = Return (Some (mkTransaction "0xDD" success (Some 3)
                    (Some "2024-01-01T12:00:00.000Z"%string) (Some 300))) /\
  toLowerCase "0xDD" = toLowerCase "0xdd" /\
  (List.length
     (fst (Rpc.scanByHash (Return tt) (Return "0xhead"%string) (fun _ => Return 3%Z)
             sampleHash (sampleBlock fourExtrinsics) (sampleEvents fourEvents) "0xdd"))
   <= maxScanBlocks)%nat.
Proof.
  destruct (transaction_lookup_scans_at_most_500_blocks
              (Return tt) (Return "0xhead"%string) (fun _ => Return 3)
              sampleHash (sampleBlock fourExtrinsics) (sampleEvents fourEvents) "0xdd")
    as [_ [Hlen Hall]].
  destruct (Hall 3 eq_refl) as [_ [Hsome _]].
  assert (Rpc.getTransactionByHash (Return tt) (Return "0xhead"%string) (fun _ => Return 3)
            sampleHash (sampleBlock fourExtrinsics) (sampleEvents fourEvents) "0xdd"
          = Return (Some (mkTransaction "0xDD" success (Some 3)
                            (Some "2024-01-01T12:00:00.000Z"%string) (Some 300)))) as Htx
    by (vm_compute; reflexivity).
  destruct (Hsome _ Htx) as [Hcase _].
  split; [reflexivity|]. split; [exact Htx|]. split; [exact Hcase | exact Hlen].
Defined.

End RpcFacts.

(** ** The factory *)

Module FactoryFacts.
Import Mock.

Lemma isSet_false (url : string) : Indexer.isSet url = false <-> url = EmptyString.
Proof.
  unfold Indexer.isSet. destruct (String.eqb_spec url EmptyString); cbn [negb];
    split; congruence.
Qed.

(** C8, as the code has it.  The RPC-only build always selects the scanner,
    whose construction fails with the error of the missing endpoint exactly
    when the node's endpoint is empty.  In the indexer-backed build the
    constructor of HttpProvider fails, with its own error, exactly when both
    endpoints are empty; the factory selects HttpProvider exactly when one of
    them is set, so it never fails and the handler that would turn a failure
    into the mock provider is never entered: with an endpoint set it returns
    the constructed HttpProvider, also when that endpoint is the node's and
    the indexer's is empty, and without endpoints the mock provider. *)
Theorem construction_fails_only_without_required_endpoint :
  (forall RPC_URL,
      (Rpc.getProvider RPC_URL = Throw Rpc.missingEndpoint <-> RPC_URL = EmptyString) /\
      (RPC_URL <> EmptyString -> Rpc.getProvider RPC_URL = Return tt)) /\
  (forall INDEXER_URL RPC_URL tz clock,
      Js.steady tz -> saneClock clock ->
      (Indexer.construct INDEXER_URL RPC_URL tz clock = Throw Indexer.missingEndpoints <->
       INDEXER_URL = EmptyString /\ RPC_URL = EmptyString) /\
      (forall e, Indexer.construct INDEXER_URL RPC_URL tz clock = Throw e ->
                 e = Indexer.missingEndpoints) /\
      (INDEXER_URL <> EmptyString \/ RPC_URL <> EmptyString ->
       exists provider,
         Indexer.construct INDEXER_URL RPC_URL tz clock = Return provider /\
         Indexer.getProvider INDEXER_URL RPC_URL tz clock
         = Return (Indexer.UseHttp provider)) /\
      (INDEXER_URL = EmptyString /\ RPC_URL = EmptyString ->
       exists provider,
         construct tz clock = Return provider /\
         Indexer.getProvider INDEXER_URL RPC_URL tz clock
         = Return (Indexer.UseMock provider))).
Proof.
  split.
  - intros url. unfold Rpc.getProvider, Rpc.construct.
    destruct (String.eqb_spec url EmptyString) as [->|Hne].
    + split; [tauto|]. intros H. now elim H.
    + split; [|reflexivity]. split; [discriminate | intros; contradiction].
  - intros iurl rurl tz clock Hsteady Hsane.
    destruct (MockFacts.construct_total tz clock Hsteady Hsane) as [mp Hmp].
    unfold Indexer.getProvider, Indexer.construct.
    destruct (Indexer.isSet iurl) eqn:Hi; destruct (Indexer.isSet rurl) eqn:Hr;
      cbn [negb andb orb]; rewrite ?Hmp; cbn [bind].
    all: try apply isSet_false in Hi; try apply isSet_false in Hr.
    all: try (assert (iurl <> EmptyString) as Hi'
                by (intros E; apply isSet_false in E; congruence)).
    all: try (assert (rurl <> EmptyString) as Hr'
                by (intros E; apply isSet_false in E; congruence)).
    all: repeat split; try discriminate; try congruence; try tauto; eauto.
    all: try (intros [? ?]; contradiction).
    all: try (intros [?|?]; contradiction).
Qed.

Lemma construction_fails_only_without_required_endpoint_witness :
  Js.steady Js.utc /\ saneClock (fun _ => newYearNoon) /\
  (Indexer.construct EmptyString EmptyString Js.utc (fun _ => newYearNoon)
   = Throw Indexer.missingEndpoints) /\
  exists provider,
    Indexer.getProvider "https://indexer.example" EmptyString Js.utc (fun _ => newYearNoon)
    = Return (Indexer.UseHttp provider).
Proof.
  assert (saneClock (fun _ => newYearNoon)) as Hsane
    by (intros n; unfold Js.maxTime, newYearNoon; simpl; lia).
  split; [exact (MockFacts.steady_fixedZone 0)|]. split; [exact Hsane|].
  destruct construction_fails_only_without_required_endpoint as [_ H]. split.
  - destruct (H EmptyString EmptyString Js.utc (fun _ => newYearNoon)
                (MockFacts.steady_fixedZone 0) Hsane) as [Hthrow _].
    apply Hthrow. split; reflexivity.
  - destruct (H "https://indexer.example"%string EmptyString Js.utc (fun _ => newYearNoon)
                (MockFacts.steady_fixedZone 0) Hsane) as [_ [_ [Hhttp _]]].
    destruct Hhttp as [provider [_ Hp]]; [left; discriminate|].
    now exists provider.
Defined.

(** C8, as stated, fails in the indexer-backed build: with the node's
    endpoint set and the indexer's empty, the factory selects the indexer
    client and constructs it without failure, although the endpoint that its
    queries go to is empty; every query then has no result. *)
Lemma indexer_client_is_built_without_indexer_endpoint :
  exists provider,
    Indexer.getProvider EmptyString "wss://node.example" Js.utc (fun _ => newYearNoon)
    = Return (Indexer.UseHttp provider) /\
    forall post query variables,
      Indexer.graphQL EmptyString post query variables = JNull.
Proof.
  assert (saneClock (fun _ => newYearNoon)) as Hsane
    by (intros n; unfold Js.maxTime, newYearNoon; simpl; lia).
  destruct (MockFacts.construct_total Js.utc _ (MockFacts.steady_fixedZone 0) Hsane)
    as [mp Hmp].
  exists (Indexer.mkHttpProvider mp). split.
  - unfold Indexer.getProvider, Indexer.construct.
    change (Indexer.isSet EmptyString) with false.
    change (Indexer.isSet "wss://node.example") with true.
    cbn [negb andb orb]. rewrite Hmp. reflexivity.
  - intros post query variables. reflexivity.
Qed.

End FactoryFacts.

(** ** The Indexer Client *)

Module IndexerFacts.
Import Js Any Indexer.
Local Open Scope string_scope.

Lemma notNull_app {B : Type} (xs ys : list (option B)) :
  notNull (xs ++ ys)%list = (notNull xs ++ notNull ys)%list.
Proof.
  induction xs as [|[x|] xs IH]; simpl; [reflexivity| |exact IH].
  now rewrite IH.
Qed.

Section Mapping.

Variable tz : Zone.
Variable now : Z.
Variable estimateOther : jsval -> exc string.

#[local] Abbreviation mapBlock := (Indexer.mapBlock tz now estimateOther).
#[local] Abbreviation mapBlocks := (Indexer.mapBlocks tz now estimateOther).

Lemma mapBlocks_drops (block : jsval) (before after : list jsval) :
  mapBlock block = None ->
  mapBlocks (JArr (before ++ block :: after)%list) = mapBlocks (JArr (before ++ after)%list).
Proof.
  intros H. unfold Indexer.mapBlocks, arrayMap. cbn [bind].
  rewrite !map_app, !notNull_app. cbn [map notNull]. now rewrite H.
Qed.

(** C9: a record whose height is present and 0, and whose [number] and
    [header.number] are absent, is mapped to null and so is dropped from the
    page, the other records staying; and in a record that is mapped, a
    [txCount] that is present and 0 gives way to the alternative count
    fields.  Both follow from probing the fields by truthiness. *)
Theorem zero_is_probed_as_absent (block inner : jsval) :
  get block "block" = Return inner ->
  let blockData := if truthy inner then inner else block in
  (get blockData "height" = Return (JNum (Int 0)) ->
   get blockData "number" = Return JUndefined ->
   (header <- get blockData "header" ;; getOpt header "number") = Return JUndefined ->
   mapBlock block = None /\
   forall before after,
     mapBlocks (JArr (before ++ block :: after)%list)
     = mapBlocks (JArr (before ++ after)%list)) /\
  (get blockData "txCount" = Return (JNum (Int 0)) ->
   forall mapped, mapBlock block = Some mapped ->
                  otherCounts blockData = Return (any_txCount mapped)).
Proof.
  intros Hinner blockData. split.
  - intros Hheight Hnumber Hheader.
    assert (mapBlock block = None) as Hnull.
    { unfold Indexer.mapBlock. rewrite Hinner. cbn [bind]. fold blockData.
      unfold heightOf, orElse. rewrite Hheight. cbn [bind truthy Z.eqb negb].
      rewrite Hnumber. cbn [bind truthy].
      destruct (get blockData "header") as [header|e]; cbn [bind] in *; [|discriminate].
      rewrite Hheader. reflexivity. }
    split; [exact Hnull|]. intros before after. now apply mapBlocks_drops.
  - intros Hcount mapped. unfold Indexer.mapBlock. rewrite Hinner. cbn [bind].
    fold blockData.
    destruct (heightOf blockData) as [height|e]; cbn [bind try_catch]; [|discriminate].
    destruct (isUndefined height); cbn [try_catch]; [discriminate|].
    destruct (hashOf blockData) as [hash|e]; cbn [bind try_catch]; [|discriminate].
    destruct (negb (truthy hash)); cbn [try_catch]; [discriminate|].
    destruct (timestampOf _ _ _ _ _) as [timestamp|e]; cbn [bind try_catch]; [|discriminate].
    unfold txCountOf, orElse at 1. rewrite Hcount. cbn [bind truthy Z.eqb negb].
    fold (otherCounts blockData).
    destruct (otherCounts blockData) as [txCount|e]; cbn [bind try_catch]; [|discriminate].
    now intros [= <-].
Qed.

End Mapping.

Lemma zero_is_probed_as_absent_witness :
  Indexer.mapBlock utc Mock.newYearNoon noEstimate genesisRecord = None /\
  Indexer.mapBlock utc Mock.newYearNoon noEstimate countedRecord
  = Some (mkAnyBlock (JNum (Int 5)) (JStr "0xfive") (JStr "2024-01-01T00:10:00.000Z")
            (JNum (Int 7))) /\
  otherCounts countedRecord = Return (JNum (Int 7)).
Proof.
  destruct (zero_is_probed_as_absent utc Mock.newYearNoon noEstimate genesisRecord JUndefined
              eq_refl) as [Hdrop _].
  destruct (Hdrop eq_refl eq_refl eq_refl) as [Hnull _].
  destruct (zero_is_probed_as_absent utc Mock.newYearNoon noEstimate countedRecord JUndefined
              eq_refl) as [_ Hcount].
  split; [exact Hnull|]. split; [reflexivity|].
  exact (Hcount eq_refl _ eq_refl).
Defined.

Section Fallback.

Variable INDEXER_URL : string.
Variable tz : Zone.
Variable now : Z.
Variable estimateOther : jsval -> exc string.
Variable post : string -> string -> list (string * jsval) -> response.
Variable this : HttpProvider.

#[local] Abbreviation graphQL := (Indexer.graphQL INDEXER_URL post).
#[local] Abbreviation tryQueries := (Indexer.tryQueries INDEXER_URL post).
#[local] Abbreviation allFail := (Indexer.allFail INDEXER_URL post).
#[local] Abbreviation fellBack := (Indexer.fellBack INDEXER_URL post).
#[local] Abbreviation blocksOf := (Indexer.blocksOf tz now estimateOther).
#[local] Abbreviation blockOf := (Indexer.blockOf tz now estimateOther).
#[local] Abbreviation getLatestBlocks :=
  (Indexer.getLatestBlocks INDEXER_URL tz now estimateOther post this).
#[local] Abbreviation getLatestTransactions :=
  (Indexer.getLatestTransactions INDEXER_URL post this).
#[local] Abbreviation getBlocksPage :=
  (Indexer.getBlocksPage INDEXER_URL tz now estimateOther post this).
#[local] Abbreviation getBlockByHashOrHeight :=
  (Indexer.getBlockByHashOrHeight INDEXER_URL tz now estimateOther post this).
#[local] Abbreviation getTransactionsPage :=
  (Indexer.getTransactionsPage INDEXER_URL post this).
#[local] Abbreviation getTransactionByHash :=
  (Indexer.getTransactionByHash INDEXER_URL post this).
#[local] Abbreviation getAddressSummary := (Indexer.getAddressSummary INDEXER_URL post).
#[local] Abbreviation getBlockTransactions :=
  (Indexer.getBlockTransactions INDEXER_URL tz now estimateOther post this).
#[local] Abbreviation afterBlockCheck :=
  (Indexer.afterBlockCheck INDEXER_URL tz now estimateOther post this).
#[local] Abbreviation mock := (mockProvider this).

Lemma tryQueries_allFail (queries : list (string * list (string * jsval))) :
  allFail queries -> tryQueries queries = JNull.
Proof.
  unfold Indexer.allFail.
  induction queries as [|[query variables] queries IH]; intros H; simpl; [reflexivity|].
  rewrite (H query variables (or_introl eq_refl)).
  apply IH. intros q v Hin. apply H. now right.
Qed.

(** The shape shared by the operations: fall back on a falsy result, on an
    empty mapping and on an exception. *)
Lemma falls_back {R X : Type} (queries : list (string * list (string * jsval)))
  (mapped : jsval -> exc R) (empty : R -> Prop) (body : R -> exc X) (fallback : X) :
  fellBack queries mapped empty ->
  (forall r, empty r -> body r = Return fallback) ->
  try_catch
    (if negb (truthy (tryQueries queries)) then Return fallback
     else (r <- mapped (tryQueries queries) ;; body r))
    fallback
  = fallback.
Proof.
  intros [Hall | [[r [Hr Hempty]] | [e He]]] Hbody.
  - now rewrite (tryQueries_allFail _ Hall).
  - destruct (truthy (tryQueries queries)); cbn [negb]; [|reflexivity].
    rewrite Hr. cbn [bind]. now rewrite (Hbody r Hempty).
  - destruct (truthy (tryQueries queries)); cbn [negb]; [|reflexivity].
    now rewrite He.
Qed.

Lemma getLatestBlocks_fallback (limit : num) :
  fellBack (latestBlocksQueries limit) blocksOf noItems ->
  getLatestBlocks limit = map ofBlock (Mock.getLatestBlocks mock limit).
Proof.
  intros H. unfold Indexer.getLatestBlocks.
  apply (falls_back _ _ _ (fun blocks => Return (if isEmpty blocks then _ else blocks)) _ H).
  now intros r ->.
Qed.

Lemma getLatestTransactions_fallback (limit : num) :
  fellBack (latestTransactionsQueries limit) transactionsOf noItems ->
  getLatestTransactions limit = map ofTransaction (Mock.getLatestTransactions mock limit).
Proof.
  intros H. unfold Indexer.getLatestTransactions.
  apply (falls_back _ _ _ (fun txs => Return (if isEmpty txs then _ else txs)) _ H).
  now intros r ->.
Qed.

Lemma getBlocksPage_fallback (cursor : option string) :
  fellBack (blocksPageQueries cursor) blocksOf noItems ->
  getBlocksPage cursor = mapPage ofBlock (Mock.getBlocksPage mock cursor).
Proof.
  intros H. unfold Indexer.getBlocksPage.
  apply (falls_back _ _ _
           (fun items => if isEmpty items then Return _
                         else Return (mkPage items (fullPageCursor items _))) _ H).
  now intros r ->.
Qed.

Lemma getTransactionsPage_fallback (cursor : option string) :
  fellBack (transactionsPageQueries cursor) transactionsOf noItems ->
  getTransactionsPage cursor = mapPage ofTransaction (Mock.getTransactionsPage mock cursor).
Proof.
  intros H. unfold Indexer.getTransactionsPage.
  apply (falls_back _ _ _
           (fun items => if isEmpty items then Return _
                         else Return (mkPage items (fullPageCursor items _))) _ H).
  now intros r ->.
Qed.

(** The single-entity operations, through [blockOf], [transactionOf] and
    [addressOf]. *)
Lemma getBlockByHashOrHeight_unfold (id : string) :
  getBlockByHashOrHeight id
  = let fallback := option_map ofBlock (Mock.getBlockByHashOrHeight mock id) in
    try_catch
      (if negb (truthy (tryQueries (blockQueries id))) then Return fallback
       else (found <- blockOf (tryQueries (blockQueries id)) ;;
             Return (match found with Some block => Some block | None => fallback end)))
      fallback.
Proof.
  unfold Indexer.getBlockByHashOrHeight, Indexer.blockOf. cbv zeta.
  destruct (negb (truthy _)); [reflexivity|].
  destruct (orElse _ _) as [blockData|e]; cbn [bind try_catch]; [|reflexivity].
  destruct (negb (truthy blockData)); cbn [bind try_catch]; [reflexivity|].
  now destruct (Indexer.mapBlock _ _ _ blockData).
Qed.

Lemma getBlockByHashOrHeight_fallback (id : string) :
  fellBack (blockQueries id) blockOf nothing ->
  getBlockByHashOrHeight id = option_map ofBlock (Mock.getBlockByHashOrHeight mock id).
Proof.
  intros H. rewrite getBlockByHashOrHeight_unfold. cbv zeta.
  apply (falls_back _ _ _
           (fun found => Return (match found with Some block => Some block | None => _ end))
           _ H).
  now intros r ->.
Qed.

Lemma getBlockByHashOrHeight_none (id : string) :
  getBlockByHashOrHeight id = None -> Mock.getBlockByHashOrHeight mock id = None.
Proof.
  rewrite getBlockByHashOrHeight_unfold. cbv zeta.
  assert (option_map ofBlock (Mock.getBlockByHashOrHeight mock id) = None ->
          Mock.getBlockByHashOrHeight mock id = None) as Hmap
    by (destruct (Mock.getBlockByHashOrHeight mock id); [discriminate | reflexivity]).
  destruct (negb (truthy _)); cbn [try_catch]; [exact Hmap|].
  destruct (blockOf _) as [[block|]|e]; cbn [bind try_catch]; try exact Hmap.
  discriminate.
Qed.

Lemma getTransactionByHash_unfold (hash : string) :
  getTransactionByHash hash
  = let fallback := option_map ofTransaction (Mock.getTransactionByHash mock hash) in
    try_catch
      (if negb (truthy (tryQueries (transactionQueries hash))) then Return fallback
       else (found <- transactionOf (tryQueries (transactionQueries hash)) ;;
             Return (match found with Some tx => Some tx | None => fallback end)))
      fallback.
Proof.
  unfold Indexer.getTransactionByHash, Indexer.transactionOf. cbv zeta.
  destruct (negb (truthy _)); [reflexivity|].
  destruct (orElse _ _) as [txData|e]; cbn [bind try_catch]; [|reflexivity].
  destruct (negb (truthy txData)); cbn [bind try_catch]; [reflexivity|].
  now destruct (mapTransaction txData).
Qed.

Lemma getTransactionByHash_fallback (hash : string) :
  fellBack (transactionQueries hash) transactionOf nothing ->
  getTransactionByHash hash
  = option_map ofTransaction (Mock.getTransactionByHash mock hash).
Proof.
  intros H. rewrite getTransactionByHash_unfold. cbv zeta.
  apply (falls_back _ _ _
           (fun found => Return (match found with Some tx => Some tx | None => _ end))
           _ H).
  now intros r ->.
Qed.

Lemma getAddressSummary_unfold (addr : string) :
  getAddressSummary addr
  = let fallback := option_map ofAddressSummary (Mock.getAddressSummary addr) in
    try_catch
      (if negb (truthy (tryQueries (addressQueries addr))) then Return fallback
       else (found <- addressOf addr (tryQueries (addressQueries addr)) ;;
             Return (match found with Some summary => Some summary | None => fallback end)))
      fallback.
Proof.
  unfold Indexer.getAddressSummary, Indexer.addressOf. cbv zeta.
  destruct (negb (truthy _)); [reflexivity|].
  destruct (orElse _ _) as [addressData|e]; cbn [bind try_catch]; [|reflexivity].
  destruct (negb (truthy addressData)); cbn [bind try_catch]; [reflexivity|].
  now destruct (summaryOf addr addressData).
Qed.

Lemma getAddressSummary_fallback (addr : string) :
  fellBack (addressQueries addr) (addressOf addr) nothing ->
  getAddressSummary addr = option_map ofAddressSummary (Mock.getAddressSummary addr).
Proof.
  intros H. rewrite getAddressSummary_unfold. cbv zeta.
  apply (falls_back _ _ _
           (fun found => Return (match found with
                                 | Some summary => Some summary
                                 | None => _
                                 end))
           _ H).
  now intros r ->.
Qed.

(** [getBlockTransactions] looks the block up when the response is falsy or
    nothing is mapped from it, and returns the page of the mock provider as
    it is when the mapping throws. *)
Lemma getBlockTransactions_checked (id : string) (cursor : option string) :
  truthy (tryQueries (blockTransactionsQueries id cursor)) = false \/
  blockTransactionsOf (tryQueries (blockTransactionsQueries id cursor)) = Return [] ->
  getBlockTransactions id cursor = afterBlockCheck id cursor.
Proof.
  intros H. unfold Indexer.getBlockTransactions. cbv zeta.
  destruct (truthy (tryQueries _)); cbn [negb try_catch]; [|reflexivity].
  destruct H as [H|H]; [discriminate|]. rewrite H. reflexivity.
Qed.

Lemma getBlockTransactions_unchecked (id : string) (cursor : option string) (e : string) :
  truthy (tryQueries (blockTransactionsQueries id cursor)) = true ->
  blockTransactionsOf (tryQueries (blockTransactionsQueries id cursor)) = Throw e ->
  getBlockTransactions id cursor
  = mapPage ofTransaction (Mock.getBlockTransactions mock id cursor).
Proof.
  intros Ht He. unfold Indexer.getBlockTransactions. cbv zeta.
  rewrite Ht, He. reflexivity.
Qed.

Lemma fellBack_cases (id : string) (cursor : option string) :
  fellBack (blockTransactionsQueries id cursor) blockTransactionsOf noItems ->
  (truthy (tryQueries (blockTransactionsQueries id cursor)) = true /\
   exists e, blockTransactionsOf (tryQueries (blockTransactionsQueries id cursor)) = Throw e) \/
  (truthy (tryQueries (blockTransactionsQueries id cursor)) = false \/
   blockTransactionsOf (tryQueries (blockTransactionsQueries id cursor)) = Return []).
Proof.
  intros [Hall | [[r [Hr Hempty]] | [e He]]].
  - right. left. now rewrite (tryQueries_allFail _ Hall).
  - right. right. now rewrite Hr, Hempty.
  - destruct (truthy (tryQueries _)); [left | right; left; reflexivity].
    split; [reflexivity | now exists e].
Qed.

(** C2, as the code has it: when every candidate query fails, or what is
    mapped from the response is empty, or the mapping throws, each operation
    returns what MockProvider returns for the same arguments, except
    [getBlockTransactions].  That one returns MockProvider's page as it is
    when the mapping of a truthy response throws; when the response is falsy
    (as it is when every candidate fails) or nothing is mapped from it, it
    first looks the block up with its own [getBlockByHashOrHeight] and
    returns the empty page without a cursor when there is no block, which
    MockProvider then lacks too, and MockProvider's page when there is one.
    The empty page is MockProvider's page as well unless the offset of the
    cursor is below -20.  The operations are total: no error reaches the
    caller. *)
Theorem indexer_falls_back_to_mock (tz0 : Zone) (clock : nat -> Z) :
  Mock.construct tz0 clock = Return mock ->
  (forall limit,
      fellBack (latestBlocksQueries limit) blocksOf noItems ->
      getLatestBlocks limit = map ofBlock (Mock.getLatestBlocks mock limit)) /\
  (forall limit,
      fellBack (latestTransactionsQueries limit) transactionsOf noItems ->
      getLatestTransactions limit
      = map ofTransaction (Mock.getLatestTransactions mock limit)) /\
  (forall cursor,
      fellBack (blocksPageQueries cursor) blocksOf noItems ->
      getBlocksPage cursor = mapPage ofBlock (Mock.getBlocksPage mock cursor)) /\
  (forall id,
      fellBack (blockQueries id) blockOf nothing ->
      getBlockByHashOrHeight id
      = option_map ofBlock (Mock.getBlockByHashOrHeight mock id)) /\
  (forall cursor,
      fellBack (transactionsPageQueries cursor) transactionsOf noItems ->
      getTransactionsPage cursor
      = mapPage ofTransaction (Mock.getTransactionsPage mock cursor)) /\
  (forall hash,
      fellBack (transactionQueries hash) transactionOf nothing ->
      getTransactionByHash hash
      = option_map ofTransaction (Mock.getTransactionByHash mock hash)) /\
  (forall addr,
      fellBack (addressQueries addr) (addressOf addr) nothing ->
      getAddressSummary addr = option_map ofAddressSummary (Mock.getAddressSummary addr)) /\
  (forall id cursor,
      fellBack (blockTransactionsQueries id cursor) blockTransactionsOf noItems ->
      let result := tryQueries (blockTransactionsQueries id cursor) in
      let mockPage := mapPage ofTransaction (Mock.getBlockTransactions mock id cursor) in
      ((truthy result = true /\ exists e, blockTransactionsOf result = Throw e) \/
       (truthy result = false \/ blockTransactionsOf result = Return [])) /\
      (truthy result = true -> (exists e, blockTransactionsOf result = Throw e) ->
       getBlockTransactions id cursor = mockPage) /\
      (truthy result = false \/ blockTransactionsOf result = Return [] ->
       getBlockTransactions id cursor
       = match getBlockByHashOrHeight id with
         | None => mkPage [] None
         | Some _ => mockPage
         end /\
       (getBlockByHashOrHeight id = None -> Mock.getBlockByHashOrHeight mock id = None)) /\
      (Mock.notBelow (-20) (cursorOffset cursor) ->
       getBlockTransactions id cursor = mockPage)).
Proof.
  intros Hmock.
  split; [exact getLatestBlocks_fallback|].
  split; [exact getLatestTransactions_fallback|].
  split; [exact getBlocksPage_fallback|].
  split; [exact getBlockByHashOrHeight_fallback|].
  split; [exact getTransactionsPage_fallback|].
  split; [exact getTransactionByHash_fallback|].
  split; [exact getAddressSummary_fallback|].
  intros id cursor H result mockPage.
  pose proof (fellBack_cases id cursor H) as Hcases. fold result in Hcases.
  assert (truthy result = true -> (exists e, blockTransactionsOf result = Throw e) ->
          getBlockTransactions id cursor = mockPage) as Hthrown.
  { intros Ht [e He]. exact (getBlockTransactions_unchecked id cursor e Ht He). }
  assert (truthy result = false \/ blockTransactionsOf result = Return [] ->
          getBlockTransactions id cursor
          = match getBlockByHashOrHeight id with
            | None => mkPage [] None
            | Some _ => mockPage
            end) as Hchecked.
  { intros Hc. exact (getBlockTransactions_checked id cursor Hc). }
  split; [exact Hcases|]. split; [exact Hthrown|]. split.
  - intros Hc. split; [exact (Hchecked Hc)|]. apply getBlockByHashOrHeight_none.
  - intros Hoff. destruct Hcases as [[Ht He] | Hc]; [exact (Hthrown Ht He)|].
    rewrite (Hchecked Hc).
    destruct (getBlockByHashOrHeight id) eqn:Hb; [reflexivity|].
    apply getBlockByHashOrHeight_none in Hb. subst mockPage.
    now rewrite (MockFacts.missing_block_page _ _ _ id cursor Hmock Hb Hoff).
Qed.

End Fallback.

Lemma unreachable_allFail (queries : list (string * list (string * jsval))) :
  Indexer.allFail EmptyString unreachable queries.
Proof. intros query variables _. reflexivity. Qed.

Lemma indexer_falls_back_to_mock_witness :
  exists mp,
    Mock.construct utc (fun _ => Mock.newYearNoon) = Return mp /\
    Indexer.getBlocksPage EmptyString utc Mock.newYearNoon noEstimate unreachable
      (mkHttpProvider mp) None
    = mapPage ofBlock (Mock.getBlocksPage mp None).
Proof.
  assert (Mock.saneClock (fun _ => Mock.newYearNoon)) as Hsane
    by (intros n; unfold maxTime, Mock.newYearNoon; simpl; lia).
  destruct (MockFacts.construct_total utc _ (MockFacts.steady_fixedZone 0) Hsane) as [mp Hmp].
  exists mp. split; [exact Hmp|].
  destruct (indexer_falls_back_to_mock EmptyString utc Mock.newYearNoon noEstimate unreachable
              (mkHttpProvider mp) utc (fun _ => Mock.newYearNoon) Hmp)
    as [_ [_ [Hpage _]]].
  apply Hpage. left. apply unreachable_allFail.
Defined.

(** No mock block has the height 1, and MockProvider's page of its
    transactions at the cursor -21 is empty with the next cursor -1. *)
Lemma mock_page_of_missing_block (mp : Mock.MockProvider) :
  Mock.construct utc (fun _ => Mock.newYearNoon) = Return mp ->
  Mock.getBlockByHashOrHeight mp "1" = None /\
  mapPage ofTransaction (Mock.getBlockTransactions mp "1" (Some "-21"))
  = mkPage [] (Some "-1").
Proof.
  intros Hmp. destruct (MockFacts.construct_heights _ _ _ Hmp) as [Hh _].
  assert (find (fun b => height b =? 1)%Z (Mock.mockBlocks mp) = None) as Hfind.
  { pose proof (find_map height (fun z => z =? 1)%Z (Mock.mockBlocks mp)) as Hm.
    rewrite Hh in Hm. destruct (find _ (Mock.mockBlocks mp)); [discriminate | reflexivity]. }
  split; [exact Hfind|].
  unfold Mock.getBlockTransactions, Mock.resolveHeight.
  change (parseInt10 "1") with (Int 1). cbv beta iota.
  rewrite (MockFacts.no_block_no_transactions _ _ _ _ Hmp Hfind), MockFacts.window_nil.
  reflexivity.
Qed.

(** C2, as stated, fails for [getBlockTransactions]: with no indexer endpoint
    every candidate query fails, and for the id 1, which no mock block has, and
    the cursor -21 the operation returns the empty page without a cursor,
    where MockProvider returns the empty page with the next cursor -1. *)
Lemma block_transactions_fallback_differs_from_mock :
  exists mp,
    Mock.construct utc (fun _ => Mock.newYearNoon) = Return mp /\
    Indexer.allFail EmptyString unreachable (blockTransactionsQueries "1" (Some "-21")) /\
    Indexer.getBlockTransactions EmptyString utc Mock.newYearNoon noEstimate unreachable
      (mkHttpProvider mp) "1" (Some "-21")
    = mkPage [] None /\
    mapPage ofTransaction (Mock.getBlockTransactions mp "1" (Some "-21"))
    = mkPage [] (Some "-1") /\
    Indexer.getBlockTransactions EmptyString utc Mock.newYearNoon noEstimate unreachable
      (mkHttpProvider mp) "1" (Some "-21")
    <> mapPage ofTransaction (Mock.getBlockTransactions mp "1" (Some "-21")).
Proof.
  assert (Mock.saneClock (fun _ => Mock.newYearNoon)) as Hsane
    by (intros n; unfold maxTime, Mock.newYearNoon; simpl; lia).
  destruct (MockFacts.construct_total utc _ (MockFacts.steady_fixedZone 0) Hsane) as [mp Hmp].
  destruct (mock_page_of_missing_block mp Hmp) as [Hnone Hmock].
  assert (Indexer.getBlockTransactions EmptyString utc Mock.newYearNoon noEstimate unreachable
            (mkHttpProvider mp) "1" (Some "-21")
          = mkPage [] None) as Hhttp.
  { unfold Indexer.getBlockTransactions.
    rewrite (tryQueries_allFail _ _ _ (unreachable_allFail _)).
    cbn [truthy negb try_catch]. unfold Indexer.afterBlockCheck.
    rewrite (getBlockByHashOrHeight_fallback EmptyString utc Mock.newYearNoon noEstimate
               unreachable (mkHttpProvider mp) "1")
      by (left; apply unreachable_allFail).
    cbn [mockProvider]. now rewrite Hnone. }
  exists mp. split; [exact Hmp|]. split; [apply unreachable_allFail|].
  split; [exact Hhttp|]. split; [exact Hmock|].
  rewrite Hhttp, Hmock. discriminate.
Qed.

(** When the mapping throws, the block is not looked up: an indexer that
    answers with an object where the list of transactions is due makes
    [getBlockTransactions] return MockProvider's page for the id 1 and the
    cursor -21, the empty page with the next cursor -1, although its own
    [getBlockByHashOrHeight] finds no block 1. *)
Lemma block_transactions_unchecked_when_mapping_throws :
  exists mp,
    Mock.construct utc (fun _ => Mock.newYearNoon) = Return mp /\
    Indexer.blockTransactionsOf
      (Indexer.tryQueries "https://indexer.example" Samples.objectForList
         (blockTransactionsQueries "1" (Some "-21")))
    = Throw "TypeError: map is not a function" /\
    Indexer.getBlockByHashOrHeight "https://indexer.example" utc Mock.newYearNoon noEstimate
      Samples.objectForList (mkHttpProvider mp) "1"
    = None /\
    Indexer.getBlockTransactions "https://indexer.example" utc Mock.newYearNoon noEstimate
      Samples.objectForList (mkHttpProvider mp) "1" (Some "-21")
    = mkPage [] (Some "-1").
Proof.
  assert (Mock.saneClock (fun _ => Mock.newYearNoon)) as Hsane
    by (intros n; unfold maxTime, Mock.newYearNoon; simpl; lia).
  destruct (MockFacts.construct_total utc _ (MockFacts.steady_fixedZone 0) Hsane) as [mp Hmp].
  destruct (mock_page_of_missing_block mp Hmp) as [Hnone Hmock].
  exists mp. split; [exact Hmp|].
  assert (Indexer.blockTransactionsOf
            (Indexer.tryQueries "https://indexer.example" Samples.objectForList
               (blockTransactionsQueries "1" (Some "-21")))
          = Throw "TypeError: map is not a function") as Hthrow
    by (vm_compute; reflexivity).
  split; [exact Hthrow|]. split.
  - rewrite (getBlockByHashOrHeight_fallback "https://indexer.example" utc Mock.newYearNoon
               noEstimate Samples.objectForList (mkHttpProvider mp) "1").
    + cbn [mockProvider]. now rewrite Hnone.
    + right. left. exists None. split; [vm_compute; reflexivity | reflexivity].
  - rewrite (getBlockTransactions_unchecked "https://indexer.example" utc Mock.newYearNoon
               noEstimate Samples.objectForList (mkHttpProvider mp) "1" (Some "-21")
               _ eq_refl Hthrow).
    exact Hmock.
Qed.

End IndexerFacts.

(** ** The pagination contract *)

Module PagingFacts.
Import Js.

(** *** Decimal strings read back *)

Lemma digitValue_digitChar (d : Z) : 0 <= d < 10 -> digitValue (digitChar d) = Some d.
Proof.
  intros H.
  assert (d = 0 \/ d = 1 \/ d = 2 \/ d = 3 \/ d = 4 \/ d = 5 \/ d = 6 \/ d = 7 \/ d = 8 \/ d = 9)
    as Hd by lia.
  repeat (destruct Hd as [-> | Hd]; [reflexivity|]). now subst.
Qed.

Lemma parseDigits_digitsAcc (fuel : nat) :
  forall n acc, 0 <= n < 10 ^ Z.of_nat (S fuel) ->
                parseDigits 10 (digitsAcc (S fuel) 10 n acc) None
                = parseDigits 10 acc (Some n).
Proof.
  induction fuel as [|fuel IH]; intros n acc Hn.
  - assert (0 <= n < 10) as Hd by (simpl in Hn; lia).
    assert (n / 10 = 0) as Hq by (Z.to_euclidean_division_equations; lia).
    assert (n mod 10 = n) as Hr by (Z.to_euclidean_division_equations; lia).
    cbn [digitsAcc]. rewrite Hq, Hr. cbn [Z.eqb parseDigits].
    rewrite (digitValue_digitChar _ Hd).
    destruct (n <? 10) eqn:Hlt; [reflexivity|]. apply Z.ltb_ge in Hlt. lia.
  - remember (S fuel) as fuel' eqn:Hfuel.
    cbn [digitsAcc].
    assert (0 <= n mod 10 < 10) as Hd by (apply Z.mod_pos_bound; lia).
    assert ((n mod 10 <? 10) = true) as Hlt by (apply Z.ltb_lt; lia).
    destruct (n / 10 =? 0) eqn:Hq.
    + apply Z.eqb_eq in Hq. cbn [parseDigits].
      rewrite (digitValue_digitChar _ Hd), Hlt. do 2 f_equal.
      Z.to_euclidean_division_equations. lia.
    + subst fuel'. rewrite IH.
      * cbn [parseDigits]. rewrite (digitValue_digitChar _ Hd), Hlt.
        do 2 f_equal. Z.to_euclidean_division_equations. lia.
      * rewrite (Nat2Z.inj_succ (S fuel)), Z.pow_succ_r in Hn by lia.
        Z.to_euclidean_division_equations. lia.
Qed.

Lemma digitsAcc_head (fuel : nat) :
  forall n acc, exists d rest, 0 <= d < 10 /\
                               digitsAcc (S fuel) 10 n acc = String (digitChar d) rest.
Proof.
  induction fuel as [|fuel IH]; intros n acc.
  - exists (n mod 10), acc. split; [apply Z.mod_pos_bound; lia|].
    cbn [digitsAcc]. now destruct (n / 10 =? 0).
  - cbn [digitsAcc] in *. destruct (n / 10 =? 0).
    + exists (n mod 10), acc. split; [apply Z.mod_pos_bound; lia | reflexivity].
    + apply IH.
Qed.

Lemma parseInt10_digit_head (d : Z) (rest : string) :
  0 <= d < 10 ->
  parseInt10 (String (digitChar d) rest)
  = signed false (parseDigits 10 (String (digitChar d) rest) None).
Proof.
  intros H.
  assert (d = 0 \/ d = 1 \/ d = 2 \/ d = 3 \/ d = 4 \/ d = 5 \/ d = 6 \/ d = 7 \/ d = 8 \/ d = 9)
    as Hd by lia.
  repeat (destruct Hd as [-> | Hd];
          [unfold parseInt10, parseIntWith, parseSigned;
           cbn [skipWhiteSpace isWhiteSpace digitChar];
           try reflexivity; now destruct rest|]).
  subst. unfold parseInt10, parseIntWith, parseSigned. reflexivity.
Qed.

Lemma pow2_le_pow10 (k : nat) : 2 ^ Z.of_nat k <= 10 ^ Z.of_nat k.
Proof. apply Z.pow_le_mono_l. lia. Qed.

(** [parseInt(String(n), 10)] is [n] for a non-negative integer. *)
Lemma parseInt10_Number_toString (n : Z) :
  0 <= n -> parseInt10 (Number_toString n) = Int n.
Proof.
  intros Hn. unfold Number_toString, toStringRadix.
  destruct (n <? 0) eqn:Hneg; [apply Z.ltb_lt in Hneg; lia|].
  set (fuel := Z.to_nat (Z.log2 n)).
  destruct (digitsAcc_head fuel n EmptyString) as [d [rest [Hd Hhead]]].
  rewrite Hhead, (parseInt10_digit_head d rest Hd), <- Hhead.
  rewrite parseDigits_digitsAcc; [reflexivity|].
  split; [exact Hn|].
  destruct (Z.eq_dec n 0) as [->|Hpos]; [simpl; lia|].
  eapply Z.lt_le_trans; [|apply pow2_le_pow10].
  unfold fuel. rewrite Nat2Z.inj_succ, Z2Nat.id by apply Z.log2_nonneg.
  apply Z.log2_spec. lia.
Qed.

Lemma cursorOffset_Number_toString (n : Z) :
  0 <= n -> cursorOffset (Some (Number_toString n)) = Int n.
Proof.
  intros Hn. unfold cursorOffset.
  destruct (digitsAcc_head (Z.to_nat (Z.log2 n)) n EmptyString) as [d [rest [_ Hhead]]].
  assert (Number_toString n = String (digitChar d) rest) as Hs.
  { unfold Number_toString, toStringRadix.
    destruct (n <? 0) eqn:Hneg; [apply Z.ltb_lt in Hneg; lia | exact Hhead]. }
  rewrite Hs, <- Hs. now apply parseInt10_Number_toString.
Qed.

(** *** Windows and cursors of a list *)

Lemma firstn_min_length {T : Type} (n : nat) (xs : list T) :
  firstn (Nat.min n (List.length xs)) xs = firstn n xs.
Proof.
  destruct (Nat.le_gt_cases n (List.length xs)) as [Hle|Hgt].
  - now rewrite Nat.min_l.
  - rewrite Nat.min_r by lia. rewrite firstn_all. symmetry. apply firstn_all2. lia.
Qed.

Lemma window_Int {T : Type} (xs : list T) (o : Z) :
  0 <= o -> window xs (Int o) = windowOf xs o.
Proof.
  intros Ho. unfold window, windowOf, slice, relIndex, add, pageSize.
  assert ((o <? 0) = false) as -> by (apply Z.ltb_ge; lia).
  assert ((o + 20 <? 0) = false) as -> by (apply Z.ltb_ge; lia).
  set (len := List.length xs).
  destruct (Z_le_gt_dec (Z.of_nat len) o) as [Hout|Hin].
  - rewrite !Z.min_r by lia. rewrite Z.sub_diag. cbn [Z.to_nat firstn].
    rewrite (skipn_all2 xs) by (fold len; lia). now rewrite firstn_nil.
  - rewrite (Z.min_l o) by lia.
    rewrite <- (firstn_min_length (Z.to_nat 20)). f_equal.
    rewrite length_skipn. fold len. lia.
Qed.

Lemma cursorWhen_encodes (cond : bool) (o : Z) :
  0 <= o -> encodes (cursorWhen cond (Int o)) o.
Proof.
  intros Ho s. unfold cursorWhen. destruct cond; [|discriminate].
  cbn [add num_toString]. intros [= <-]. split; [reflexivity|].
  apply cursorOffset_Number_toString. unfold pageSize. lia.
Qed.

Lemma cursorWhen_present (cond : bool) (offset : num) :
  present (cursorWhen cond offset) <-> cond = true.
Proof.
  unfold present, cursorWhen. destruct cond; split; intros H; congruence.
Qed.

(** The strict rule: a next cursor iff more items lie beyond the window. *)
Lemma strict_cursor {T : Type} (xs : list T) (o : Z) :
  present (cursorWhen (ltb (add (Int o) (Int pageSize)) (lengthOf xs)) (Int o))
  <-> moreBeyond (List.length xs) o.
Proof.
  rewrite cursorWhen_present. unfold moreBeyond, lengthOf. cbn [add ltb].
  apply Z.ltb_lt.
Qed.

Lemma strict_page {T : Type} (xs : list T) (cursor : option string) (o : Z) :
  cursorOffset cursor = Int o -> 0 <= o ->
  let p := mkPage (window xs (cursorOffset cursor))
                  (cursorWhen (ltb (add (cursorOffset cursor) (Int pageSize)) (lengthOf xs))
                              (cursorOffset cursor)) in
  items p = windowOf xs o /\
  (present (nextCursor p) <-> moreBeyond (List.length xs) o) /\
  encodes (nextCursor p) o.
Proof.
  intros -> Ho. cbn [items nextCursor]. split; [now apply window_Int|].
  split; [apply strict_cursor | now apply cursorWhen_encodes].
Qed.

(** The rule of the full page: a next cursor iff the page holds [pageSize]
    items. *)
Lemma full_page_cursor {T : Type} (xs : list T) (o : Z) :
  0 <= o ->
  (present (Indexer.fullPageCursor xs (Int o)) <-> List.length xs = Z.to_nat pageSize) /\
  encodes (Indexer.fullPageCursor xs (Int o)) o.
Proof.
  intros Ho. unfold Indexer.fullPageCursor. split; [|now apply cursorWhen_encodes].
  rewrite cursorWhen_present, Z.eqb_eq. unfold pageSize. lia.
Qed.

(** *** The pages of the RPC scanner *)

Lemma pageHeights_spec (tip o : Z) (fuel : nat) :
  forall i,
    Rpc.pageHeights fuel i tip (Int o)
    = map (fun k => Int (tip - o - i - Z.of_nat k))
          (seq 0 (Z.to_nat (Z.min (Z.of_nat fuel) (Z.max 0 (tip - o - i + 1))))).
Proof.
  induction fuel as [|fuel IH]; intros i.
  - rewrite Z.min_l by lia. reflexivity.
  - cbn [Rpc.pageHeights Rpc.sub ltb].
    destruct (tip - o - i <? 0) eqn:Hneg.
    + apply Z.ltb_lt in Hneg.
      rewrite (Z.max_l 0) by lia. rewrite Z.min_r by lia. reflexivity.
    + apply Z.ltb_ge in Hneg. rewrite IH.
      replace (Z.to_nat (Z.min (Z.of_nat (S fuel)) (Z.max 0 (tip - o - i + 1))))
        with (S (Z.to_nat (Z.min (Z.of_nat fuel) (Z.max 0 (tip - o - (i + 1) + 1)))))
        by lia.
      cbn [seq map]. f_equal; [f_equal; lia|].
      rewrite <- seq_shift, map_map. apply map_ext. intros k. f_equal. lia.
Qed.

Section RpcPages.

Variable now : Z.
Variable getApi : exc unit.
Variable getFinalizedHead : exc string.
Variable getHeader : string -> exc Z.
Variable getBlockHash : num -> exc string.
Variable getBlock : string -> exc Rpc.SignedBlock.
Variable eventsAt : string -> exc (list Rpc.EventRecord).

#[local] Abbreviation getTipInfo := (Rpc.getTipInfo getApi getFinalizedHead getHeader).
#[local] Abbreviation getBlockByHeight :=
  (Rpc.getBlockByHeight now getApi getBlockHash getBlock).
#[local] Abbreviation allBlocks := (Rpc.allBlocks now getApi getBlockHash getBlock).
#[local] Abbreviation rpcBlocksPage :=
  (Rpc.getBlocksPage now getApi getFinalizedHead getHeader getBlockHash getBlock).
#[local] Abbreviation rpcTransactionsPage :=
  (Rpc.getTransactionsPage getApi getFinalizedHead getHeader getBlockHash getBlock eventsAt).
#[local] Abbreviation rpcBlockTransactions :=
  (Rpc.getBlockTransactions getApi getBlockHash getBlock eventsAt).
#[local] Abbreviation resolve := (Rpc.resolve getBlockHash getBlock).
#[local] Abbreviation mapExtrinsicsForBlock :=
  (Rpc.mapExtrinsicsForBlock getApi getBlock eventsAt).

Lemma getBlockByHeight_height (h : num) (b : AnyBlock) :
  getBlockByHeight h = Return b -> any_height b = JNum h.
Proof.
  unfold Rpc.getBlockByHeight.
  destruct getApi; cbn [bind]; [|discriminate].
  destruct (getBlockHash h); cbn [bind]; [|discriminate].
  destruct (getBlock _); cbn [bind]; [|discriminate].
  destruct (toISOString _); cbn [bind]; [|discriminate].
  now intros [= <-].
Qed.

Lemma allBlocks_heights (heights : list num) :
  forall blocks, allBlocks heights = Return blocks ->
                 map any_height blocks = map JNum heights.
Proof.
  induction heights as [|h heights IH]; intros blocks; cbn [Rpc.allBlocks].
  - now intros [= <-].
  - destruct (getBlockByHeight h) as [b|e] eqn:Hb; cbn [bind]; [|discriminate].
    destruct (allBlocks heights) as [bs|e]; cbn [bind]; [|discriminate].
    intros [= <-]. cbn [map]. now rewrite (getBlockByHeight_height _ _ Hb), (IH bs).
Qed.

(** The blocks page of the scanner: the heights [tip - offset - k], and a next
    cursor iff the page is full. *)
Lemma rpcBlocksPage_spec (cursor : option string) (o : Z) (p : Page AnyBlock) :
  cursorOffset cursor = Int o -> 0 <= o ->
  rpcBlocksPage cursor = Return p ->
  exists tip,
    getTipInfo = Return tip /\
    map any_height (items p)
    = map (fun k => JNum (Int (tip - o - Z.of_nat k))) (seq 0 (List.length (items p))) /\
    List.length (items p) = Z.to_nat (Z.min pageSize (Z.max 0 (tip - o + 1))) /\
    (present (nextCursor p) <-> List.length (items p) = Z.to_nat pageSize) /\
    encodes (nextCursor p) o.
Proof.
  intros Hoff Ho. unfold Rpc.getBlocksPage. rewrite Hoff.
  destruct getTipInfo as [tip|e]; cbn [bind]; [|discriminate].
  rewrite pageHeights_spec.
  set (n := Z.to_nat (Z.min (Z.of_nat (Z.to_nat pageSize)) (Z.max 0 (tip - o - 0 + 1)))).
  destruct (allBlocks _) as [blocks|e] eqn:Hblocks; cbn [bind]; [|discriminate].
  intros [= <-]. cbn [items nextCursor]. exists tip. split; [reflexivity|].
  apply allBlocks_heights in Hblocks. rewrite map_map in Hblocks.
  assert (List.length blocks = n) as Hlen.
  { rewrite <- (length_map any_height), Hblocks, length_map, length_seq. reflexivity. }
  rewrite length_map, length_seq. fold n. rewrite Hlen.
  split.
  { rewrite Hblocks. apply map_ext. intros k. do 2 f_equal. lia. }
  split; [unfold n, pageSize; lia|].
  split; [|now apply cursorWhen_encodes].
  rewrite cursorWhen_present, Z.eqb_eq. unfold pageSize. lia.
Qed.

(** The transactions of a block, paged by the strict rule. *)
Lemma rpcBlockTransactions_spec (id : string) (cursor : option string) (o : Z)
  (p : Page Transaction) :
  cursorOffset cursor = Int o -> 0 <= o ->
  rpcBlockTransactions id cursor = Return p ->
  exists h hashHex all,
    resolve id = Return (h, hashHex) /\
    mapExtrinsicsForBlock h hashHex = Return all /\
    items p = windowOf all o /\
    (present (nextCursor p) <-> moreBeyond (List.length all) o) /\
    encodes (nextCursor p) o.
Proof.
  intros Hoff Ho. unfold Rpc.getBlockTransactions.
  destruct getApi as [[]|e] eqn:Hapi; cbn [bind]; [|discriminate].
  destruct (resolve id) as [[h hashHex]|e]; cbn [bind]; [|discriminate].
  destruct (Rpc.mapExtrinsicsForBlock _ _ _ h hashHex) as [all|e] eqn:Hall;
    cbn [bind]; [|discriminate].
  intros [= <-]. exists h, hashHex, all. split; [reflexivity|].
  split; [exact Hall|]. unfold gtb.
  exact (strict_page all cursor o Hoff Ho).
Qed.

Lemma rpcTransactionsPage_encodes (cursor : option string) (o : Z) (p : Page Transaction) :
  cursorOffset cursor = Int o -> 0 <= o ->
  rpcTransactionsPage cursor = Return p -> encodes (nextCursor p) o.
Proof.
  intros Hoff Ho. unfold Rpc.getTransactionsPage. rewrite Hoff.
  destruct getTipInfo; cbn [bind]; [|discriminate].
  destruct getApi; cbn [bind]; [|discriminate].
  destruct (Rpc.collectFrom _ _ _ _ _ _ _ _); cbn [bind]; [|discriminate].
  intros [= <-]. cbn [nextCursor]. now apply cursorWhen_encodes.
Qed.

End RpcPages.

(** *** The pages of the indexer client, when it does not fall back *)

Section IndexerPages.

Variable INDEXER_URL : string.
Variable tz : Zone.
Variable now : Z.
Variable estimateOther : jsval -> exc string.
Variable post : string -> string -> list (string * jsval) -> Indexer.response.
Variable this : Indexer.HttpProvider.

#[local] Abbreviation tryQueries := (Indexer.tryQueries INDEXER_URL post).
#[local] Abbreviation blocksOf := (Indexer.blocksOf tz now estimateOther).
#[local] Abbreviation indexerBlocksPage :=
  (Indexer.getBlocksPage INDEXER_URL tz now estimateOther post this).
#[local] Abbreviation indexerTransactionsPage :=
  (Indexer.getTransactionsPage INDEXER_URL post this).
#[local] Abbreviation indexerBlockTransactions :=
  (Indexer.getBlockTransactions INDEXER_URL tz now estimateOther post this).

Lemma indexerBlocksPage_kept (cursor : option string) (items : list AnyBlock) :
  Any.truthy (tryQueries (Indexer.blocksPageQueries cursor)) = true ->
  blocksOf (tryQueries (Indexer.blocksPageQueries cursor)) = Return items ->
  items <> [] ->
  indexerBlocksPage cursor
  = mkPage items (Indexer.fullPageCursor items (cursorOffset cursor)).
Proof.
  intros Ht Hm Hne. unfold Indexer.getBlocksPage. cbv zeta.
  rewrite Ht, Hm. cbn [negb bind]. destruct items; [contradiction | reflexivity].
Qed.

Lemma indexerTransactionsPage_kept (cursor : option string) (items : list AnyTransaction) :
  Any.truthy (tryQueries (Indexer.transactionsPageQueries cursor)) = true ->
  Indexer.transactionsOf (tryQueries (Indexer.transactionsPageQueries cursor))
  = Return items ->
  items <> [] ->
  indexerTransactionsPage cursor
  = mkPage items (Indexer.fullPageCursor items (cursorOffset cursor)).
Proof.
  intros Ht Hm Hne. unfold Indexer.getTransactionsPage. cbv zeta.
  rewrite Ht, Hm. cbn [negb bind]. destruct items; [contradiction | reflexivity].
Qed.

Lemma indexerBlockTransactions_kept (id : string) (cursor : option string)
  (items : list AnyTransaction) :
  Any.truthy (tryQueries (Indexer.blockTransactionsQueries id cursor)) = true ->
  Indexer.blockTransactionsOf (tryQueries (Indexer.blockTransactionsQueries id cursor))
  = Return items ->
  items <> [] ->
  indexerBlockTransactions id cursor
  = mkPage items (Indexer.fullPageCursor items (cursorOffset cursor)).
Proof.
  intros Ht Hm Hne. unfold Indexer.getBlockTransactions. cbv zeta.
  rewrite Ht, Hm. cbn [negb bind]. destruct items; [contradiction | reflexivity].
Qed.

End IndexerPages.

(** *** The contract *)

Lemma mock_getBlockTransactions_page (mp : Mock.MockProvider) (id : string)
  (cursor : option string) (o : Z) :
  cursorOffset cursor = Int o -> 0 <= o ->
  Mock.getBlockTransactions mp id cursor
  = mkPage (window (Mock.transactionsOfBlock mp id) (cursorOffset cursor))
           (cursorWhen (ltb (add (cursorOffset cursor) (Int pageSize))
                            (lengthOf (Mock.transactionsOfBlock mp id)))
                       (cursorOffset cursor)).
Proof.
  intros Hoff Ho. unfold Mock.getBlockTransactions, Mock.transactionsOfBlock.
  destruct (Mock.resolveHeight mp id); [reflexivity|].
  rewrite Hoff, MockFacts.window_nil. f_equal.
  unfold cursorWhen, lengthOf, pageSize. cbn [add ltb List.length Z.of_nat].
  destruct (o + 20 <? 0) eqn:Hlt; [apply Z.ltb_lt in Hlt; lia | reflexivity].
Qed.

Section Contract.

Variable mp : Mock.MockProvider.

Variable now : Z.
Variable getApi : exc unit.
Variable getFinalizedHead : exc string.
Variable getHeader : string -> exc Z.
Variable getBlockHash : num -> exc string.
Variable getBlock : string -> exc Rpc.SignedBlock.
Variable eventsAt : string -> exc (list Rpc.EventRecord).

Variable INDEXER_URL : string.
Variable tz : Zone.
Variable estimateOther : jsval -> exc string.
Variable post : string -> string -> list (string * jsval) -> Indexer.response.
Variable this : Indexer.HttpProvider.

#[local] Abbreviation getTipInfo := (Rpc.getTipInfo getApi getFinalizedHead getHeader).
#[local] Abbreviation rpcBlocksPage :=
  (Rpc.getBlocksPage now getApi getFinalizedHead getHeader getBlockHash getBlock).
#[local] Abbreviation rpcTransactionsPage :=
  (Rpc.getTransactionsPage getApi getFinalizedHead getHeader getBlockHash getBlock eventsAt).
#[local] Abbreviation rpcBlockTransactions :=
  (Rpc.getBlockTransactions getApi getBlockHash getBlock eventsAt).
#[local] Abbreviation tryQueries := (Indexer.tryQueries INDEXER_URL post).
#[local] Abbreviation blocksOf := (Indexer.blocksOf tz now estimateOther).
#[local] Abbreviation indexerBlocksPage :=
  (Indexer.getBlocksPage INDEXER_URL tz now estimateOther post this).
#[local] Abbreviation indexerTransactionsPage :=
  (Indexer.getTransactionsPage INDEXER_URL post this).
#[local] Abbreviation indexerBlockTransactions :=
  (Indexer.getBlockTransactions INDEXER_URL tz now estimateOther post this).

(** C1, as the code has it, for a cursor that is absent or reads as an offset
    that is not negative and, with the page size added, a safe integer.
    MockProvider's three paged operations and the
    scanner's [getBlockTransactions] return the window at the offset and a
    next cursor iff strictly more items lie beyond it.  The scanner's
    [getBlocksPage] and, when they do not fall back, the three paged
    operations of the indexer client set the next cursor iff the page holds 20
    items.  In all of them, and in the scanner's [getTransactionsPage], a next
    cursor is the decimal string of the offset plus 20 and reads back as that
    offset. *)
Theorem next_cursor_contract (cursor : option string) (offset : Z) :
  cursorOffset cursor = Int offset -> 0 <= offset ->
  offset + pageSize <= MAX_SAFE_INTEGER ->
  (let p := Mock.getBlocksPage mp cursor in
   items p = windowOf (Mock.mockBlocks mp) offset /\
   (present (nextCursor p) <-> moreBeyond (List.length (Mock.mockBlocks mp)) offset) /\
   encodes (nextCursor p) offset) /\
  (let p := Mock.getTransactionsPage mp cursor in
   items p = windowOf (Mock.mockTransactions mp) offset /\
   (present (nextCursor p)
    <-> moreBeyond (List.length (Mock.mockTransactions mp)) offset) /\
   encodes (nextCursor p) offset) /\
  (forall id,
      let p := Mock.getBlockTransactions mp id cursor in
      items p = windowOf (Mock.transactionsOfBlock mp id) offset /\
      (present (nextCursor p)
       <-> moreBeyond (List.length (Mock.transactionsOfBlock mp id)) offset) /\
      encodes (nextCursor p) offset) /\
  (forall id p,
      rpcBlockTransactions id cursor = Return p ->
      exists h hashHex all,
        Rpc.resolve getBlockHash getBlock id = Return (h, hashHex) /\
        Rpc.mapExtrinsicsForBlock getApi getBlock eventsAt h hashHex = Return all /\
        items p = windowOf all offset /\
        (present (nextCursor p) <-> moreBeyond (List.length all) offset) /\
        encodes (nextCursor p) offset) /\
  (forall p,
      rpcBlocksPage cursor = Return p ->
      exists tip,
        getTipInfo = Return tip /\
        map any_height (items p)
        = map (fun k => JNum (Int (tip - offset - Z.of_nat k)))
              (seq 0 (List.length (items p))) /\
        List.length (items p) = Z.to_nat (Z.min pageSize (Z.max 0 (tip - offset + 1))) /\
        (present (nextCursor p) <-> List.length (items p) = Z.to_nat pageSize) /\
        encodes (nextCursor p) offset) /\
  (forall p, rpcTransactionsPage cursor = Return p -> encodes (nextCursor p) offset) /\
  (forall items,
      Any.truthy (tryQueries (Indexer.blocksPageQueries cursor)) = true ->
      blocksOf (tryQueries (Indexer.blocksPageQueries cursor)) = Return items ->
      items <> [] ->
      indexerBlocksPage cursor = mkPage items (Indexer.fullPageCursor items (Int offset)) /\
      (present (Indexer.fullPageCursor items (Int offset))
       <-> List.length items = Z.to_nat pageSize) /\
      encodes (Indexer.fullPageCursor items (Int offset)) offset) /\
  (forall items,
      Any.truthy (tryQueries (Indexer.transactionsPageQueries cursor)) = true ->
      Indexer.transactionsOf (tryQueries (Indexer.transactionsPageQueries cursor))
      = Return items ->
      items <> [] ->
      indexerTransactionsPage cursor
      = mkPage items (Indexer.fullPageCursor items (Int offset)) /\
      (present (Indexer.fullPageCursor items (Int offset))
       <-> List.length items = Z.to_nat pageSize) /\
      encodes (Indexer.fullPageCursor items (Int offset)) offset) /\
  (forall id items,
      Any.truthy (tryQueries (Indexer.blockTransactionsQueries id cursor)) = true ->
      Indexer.blockTransactionsOf (tryQueries (Indexer.blockTransactionsQueries id cursor))
      = Return items ->
      items <> [] ->
      indexerBlockTransactions id cursor
      = mkPage items (Indexer.fullPageCursor items (Int offset)) /\
      (present (Indexer.fullPageCursor items (Int offset))
       <-> List.length items = Z.to_nat pageSize) /\
      encodes (Indexer.fullPageCursor items (Int offset)) offset).
Proof.
  intros Hoff Ho _.
  split; [exact (strict_page (Mock.mockBlocks mp) cursor offset Hoff Ho)|].
  split; [exact (strict_page (Mock.mockTransactions mp) cursor offset Hoff Ho)|].
  split.
  { intros id. cbv zeta. rewrite (mock_getBlockTransactions_page mp id cursor offset Hoff Ho).
    exact (strict_page (Mock.transactionsOfBlock mp id) cursor offset Hoff Ho). }
  split.
  { intros id p Hp.
    exact (rpcBlockTransactions_spec getApi getBlockHash getBlock eventsAt id cursor offset p
             Hoff Ho Hp). }
  split.
  { intros p Hp.
    exact (rpcBlocksPage_spec now getApi getFinalizedHead getHeader getBlockHash getBlock
             cursor offset p Hoff Ho Hp). }
  split.
  { intros p Hp.
    exact (rpcTransactionsPage_encodes getApi getFinalizedHead getHeader getBlockHash getBlock
             eventsAt cursor offset p Hoff Ho Hp). }
  split; [|split].
  - intros items Ht Hm Hne.
    rewrite (indexerBlocksPage_kept _ _ _ _ _ _ cursor items Ht Hm Hne), Hoff.
    split; [reflexivity | now apply full_page_cursor].
  - intros items Ht Hm Hne.
    rewrite (indexerTransactionsPage_kept _ _ _ cursor items Ht Hm Hne), Hoff.
    split; [reflexivity | now apply full_page_cursor].
  - intros id items Ht Hm Hne.
    rewrite (indexerBlockTransactions_kept _ _ _ _ _ _ id cursor items Ht Hm Hne), Hoff.
    split; [reflexivity | now apply full_page_cursor].
Qed.

End Contract.

Lemma safe_first_page : 0 + pageSize <= MAX_SAFE_INTEGER.
Proof. unfold pageSize, MAX_SAFE_INTEGER. lia. Qed.

Lemma next_cursor_contract_witness :
  cursorOffset None = Int 0 /\
  0 <= 0 /\
  0 + pageSize <= MAX_SAFE_INTEGER /\
  items (Mock.getBlocksPage Mock.smallCorpus None)
  = windowOf (Mock.mockBlocks Mock.smallCorpus) 0 /\
  (present (nextCursor (Mock.getBlocksPage Mock.smallCorpus None)) <-> moreBeyond 25 0).
Proof.
  destruct (next_cursor_contract Mock.smallCorpus Mock.newYearNoon (Return tt)
              (Return "0xhead"%string) (fun _ => Return 19) Rpc.sampleHash
              (Rpc.sampleBlock []) (Rpc.sampleEvents []) EmptyString utc Indexer.noEstimate
              Indexer.unreachable (Indexer.mkHttpProvider Mock.smallCorpus) None 0
              eq_refl (Z.le_refl 0) safe_first_page)
    as [[Hitems [Hcursor _]] _].
  split; [reflexivity|]. split; [apply Z.le_refl|]. split; [exact safe_first_page|].
  split; [exact Hitems | exact Hcursor].
Defined.

(** C1, as stated, fails for the scanner's [getBlocksPage]: on a chain whose
    tip is 19, that is 20 blocks, the page without a cursor holds all 20 blocks
    and still has the next cursor 20, though no block lies beyond it: the page
    at 20 is empty. *)
Lemma blocks_page_cursor_without_more_blocks :
  exists p,
    Rpc.getBlocksPage Mock.newYearNoon (Return tt) (Return "0xhead"%string)
      (fun _ => Return 19) Rpc.sampleHash (Rpc.sampleBlock []) None
    = Return p /\
    map any_height (items p) = [JNum (Int 19); JNum (Int 18); JNum (Int 17); JNum (Int 16); JNum (Int 15); JNum (Int 14); JNum (Int 13); JNum (Int 12); JNum (Int 11); JNum (Int 10); JNum (Int 9); JNum (Int 8); JNum (Int 7); JNum (Int 6); JNum (Int 5); JNum (Int 4); JNum (Int 3); JNum (Int 2); JNum (Int 1); JNum (Int 0)] /\
    nextCursor p = Some "20"%string /\
    present (nextCursor p) /\
    ~ moreBeyond 20 0 /\
    Rpc.getBlocksPage Mock.newYearNoon (Return tt) (Return "0xhead"%string)
      (fun _ => Return 19) Rpc.sampleHash (Rpc.sampleBlock []) (Some "20"%string)
    = Return (mkPage [] None).
Proof.
  eexists. split; [vm_compute; reflexivity|].
  split; [reflexivity|]. split; [reflexivity|]. split; [discriminate|].
  split; [unfold moreBeyond, pageSize; simpl; lia|].
  vm_compute. reflexivity.
Qed.

End PagingFacts.

(** ** The query layer and the mapping of the Indexer Client *)

Module ProbingFacts.
Import Js Any Indexer.
Local Open Scope string_scope.

Section Queries.

Variable INDEXER_URL : string.
Variable post : string -> string -> list (string * jsval) -> response.

#[local] Abbreviation graphQL := (Indexer.graphQL INDEXER_URL post).
#[local] Abbreviation tryQueries := (Indexer.tryQueries INDEXER_URL post).
#[local] Abbreviation allFail := (Indexer.allFail INDEXER_URL post).

(** What a query that does not fail has met: an endpoint, a response that is
    ok, and a body whose [errors] are falsy; its result is the [data] of the
    body. *)
Lemma graphQL_success (query : string) (variables : list (string * jsval)) :
  graphQL query variables <> JNull ->
  INDEXER_URL <> EmptyString /\
  exists result errors,
    post INDEXER_URL query variables = Json result /\
    get result "errors" = Return errors /\ truthy errors = false /\
    get result "data" = Return (graphQL query variables).
Proof.
  unfold Indexer.graphQL.
  destruct (String.eqb_spec INDEXER_URL EmptyString) as [->|Hurl]; [congruence|].
  destruct (post INDEXER_URL query variables) as [| |result]; try congruence.
  destruct (get result "errors") as [errors|e] eqn:Herrors; cbn [bind try_catch];
    [|congruence].
  destruct (truthy errors) eqn:Htruthy; cbn [try_catch]; [congruence|].
  destruct (get result "data") as [data|e] eqn:Hdata; cbn [try_catch]; [|congruence].
  intros _. split; [exact Hurl|]. now exists result, errors.
Qed.

Lemma tryQueries_cons (query : string) (variables : list (string * jsval))
  (queries : list (string * list (string * jsval))) :
  tryQueries ((query, variables) :: queries)
  = if match graphQL query variables with JNull => true | _ => false end
    then tryQueries queries
    else graphQL query variables.
Proof. cbn [Indexer.tryQueries]. now destruct (graphQL query variables). Qed.

Lemma allFail_cons (query : string) (variables : list (string * jsval))
  (queries : list (string * list (string * jsval))) :
  allFail ((query, variables) :: queries) <->
  graphQL query variables = JNull /\ allFail queries.
Proof.
  unfold Indexer.allFail. split.
  - intros H. split; [apply H; now left|]. intros q v Hin. apply H. now right.
  - intros [H0 H] q v [[= <- <-]|Hin]; [exact H0 | now apply H].
Qed.

(** X1: [tryQueries] yields null exactly when every candidate fails;
    otherwise it yields the result of the first candidate that does not fail:
    all candidates before it failed, and its result is the [data] of an ok
    response whose [errors] are falsy. *)
Theorem tryQueries_returns_first_success
  (queries : list (string * list (string * jsval))) :
  (tryQueries queries = JNull <-> allFail queries) /\
  (tryQueries queries <> JNull ->
   exists before query variables after,
     queries = (before ++ (query, variables) :: after)%list /\
     allFail before /\
     graphQL query variables = tryQueries queries /\
     INDEXER_URL <> EmptyString /\
     exists result errors,
       post INDEXER_URL query variables = Json result /\
       get result "errors" = Return errors /\ truthy errors = false /\
       get result "data" = Return (tryQueries queries)).
Proof.
  induction queries as [|[query variables] queries [IHnull IHfirst]].
  - split; [split; [intros _ q v [] | reflexivity]|]. intros H. now elim H.
  - rewrite tryQueries_cons, allFail_cons.
    destruct (graphQL query variables) eqn:Hq;
      try (split;
           [ split; [discriminate | intros [H _]; discriminate H]
           | intros Hne; exists [], query, variables, queries;
             split; [reflexivity|]; split; [intros q v []|]; split; [exact Hq|];
             rewrite <- Hq; apply graphQL_success; rewrite Hq; discriminate ]).
    split.
    + rewrite IHnull. tauto.
    + intros Hne. destruct (IHfirst Hne) as [before [q [v [after [-> [Hb [Hg Hrest]]]]]]].
      exists ((query, variables) :: before), q, v, after.
      split; [reflexivity|]. split; [|split; [exact Hg | exact Hrest]].
      apply allFail_cons. now split.
Qed.

End Queries.

Lemma tryQueries_returns_first_success_witness :
  Indexer.tryQueries "https://indexer.example" Samples.secondShape
    (latestBlocksQueries (Int 10))
  = JObj [("blocks", JArr [countedRecord])] /\
  exists before query variables after,
    latestBlocksQueries (Int 10) = (before ++ (query, variables) :: after)%list /\
    Indexer.allFail "https://indexer.example" Samples.secondShape before /\
    Indexer.graphQL "https://indexer.example" Samples.secondShape query variables
    = JObj [("blocks", JArr [countedRecord])].
Proof.
  assert (Indexer.tryQueries "https://indexer.example" Samples.secondShape
            (latestBlocksQueries (Int 10))
          = JObj [("blocks", JArr [countedRecord])]) as Hresult
    by (vm_compute; reflexivity).
  split; [exact Hresult|].
  destruct (proj2 (tryQueries_returns_first_success "https://indexer.example"
                     Samples.secondShape (latestBlocksQueries (Int 10))))
    as [before [query [variables [after [Hsplit [Hfail [Hfirst _]]]]]]].
  - rewrite Hresult. discriminate.
  - exists before, query, variables, after. rewrite <- Hresult. auto.
Defined.


(** *** What the mapping keeps *)

Lemma orElse_inv (a b : exc jsval) (x : jsval) :
  (a |?| b) = Return x ->
  (a = Return x /\ truthy x = true) \/
  (exists y, a = Return y /\ truthy y = false /\ b = Return x).
Proof.
  unfold orElse. destruct a as [y|e]; cbn [bind]; [|discriminate].
  destruct (truthy y) eqn:Hy.
  - intros [= <-]. now left.
  - intros Hb. right. now exists y.
Qed.

Lemma toISOString_not_empty (date : num) (iso : string) :
  toISOString date = Return iso -> iso <> EmptyString.
Proof.
  destruct date as [|t]; cbn [toISOString]; [discriminate|].
  intros [= <-]. unfold str. destruct (isoDate t); discriminate.
Qed.

Lemma truthy_JStr (s : string) : s <> EmptyString -> truthy (JStr s) = true.
Proof.
  intros H. cbn [truthy]. destruct (String.eqb_spec s EmptyString); [contradiction | reflexivity].
Qed.

Ltac bind_step :=
  match goal with
  | |- context [try_catch (bind ?c _) _] =>
      destruct c eqn:?; cbn [bind try_catch]; [|discriminate]
  end.

Ltac status_cases :=
  cbn [orb]; repeat split; intros; first [reflexivity | exfalso; intuition congruence].

(** X2: a transaction that [mapTransaction] keeps has a truthy hash, the first
    truthy one of [hash], [txHash] and [id]; its status is success when
    [status] is [true] or [success] is [true] or [status] is the string
    success, whatever else the record says; failed when none of these holds
    and [status] is [false] or [success] is [false] or [status] is the string
    failed; and pending otherwise. *)
Theorem mapTransaction_hash_and_status (tx : jsval) (t : AnyTransaction) :
  mapTransaction tx = Some t ->
  exists txData st ok,
    (get tx "transaction" |?| get tx "extrinsic" |?| Return tx) = Return txData /\
    (get txData "hash" |?| get txData "txHash" |?| get txData "id")
    = Return (any_tx_hash t) /\
    truthy (any_tx_hash t) = true /\
    get txData "status" = Return st /\ get txData "success" = Return ok /\
    (st = JBool true \/ ok = JBool true \/ st = JStr "success" ->
     any_status t = success) /\
    (st <> JBool true -> ok <> JBool true -> st <> JStr "success" ->
     st = JBool false \/ ok = JBool false \/ st = JStr "failed" ->
     any_status t = failed) /\
    (st <> JBool true -> ok <> JBool true -> st <> JStr "success" ->
     st <> JBool false -> ok <> JBool false -> st <> JStr "failed" ->
     any_status t = pending).
Proof.
  unfold mapTransaction.
  destruct (get tx "transaction" |?| get tx "extrinsic" |?| Return tx) as [txData|e]
    eqn:HtxData; cbn [bind try_catch]; [|discriminate].
  destruct (get txData "hash" |?| get txData "txHash" |?| get txData "id") as [hash|e]
    eqn:Hchain; cbn [bind try_catch]; [|discriminate].
  destruct (truthy hash) eqn:Hhash; cbn [negb try_catch]; [|discriminate].
  destruct (get txData "status") as [st|e] eqn:Hstatus; cbn [bind try_catch];
    [|discriminate].
  destruct (get txData "success") as [ok|e] eqn:Hsuccess; cbn [bind try_catch];
    [|discriminate].
  do 5 bind_step.
  intros [= <-]. cbn [any_tx_hash any_status].
  exists txData, st, ok.
  do 5 (split; [first [reflexivity | eassumption]|]).
  assert (isTrue st = true <-> st = JBool true) as Hst
    by (destruct st as [| |[|]| | | |]; cbn; split; congruence).
  assert (isTrue ok = true <-> ok = JBool true) as Hok
    by (destruct ok as [| |[|]| | | |]; cbn; split; congruence).
  assert (isFalse st = true <-> st = JBool false) as Hsf
    by (destruct st as [| |[|]| | | |]; cbn; split; congruence).
  assert (isFalse ok = true <-> ok = JBool false) as Hof
    by (destruct ok as [| |[|]| | | |]; cbn; split; congruence).
  assert (forall s, isString st s = true <-> st = JStr s) as Hss.
  { intros s. destruct st as [| | | |s'| |]; cbn; try (split; congruence).
    destruct (String.eqb_spec s' s); split; congruence. }
  pose proof (Hss "success") as Hs1. pose proof (Hss "failed") as Hs2.
  destruct (isTrue st) eqn:E1; [status_cases|].
  destruct (isTrue ok) eqn:E2; [status_cases|].
  destruct (isString st "success") eqn:E3; [status_cases|].
  destruct (isFalse st) eqn:F1; [status_cases|].
  destruct (isFalse ok) eqn:F2; [status_cases|].
  destruct (isString st "failed") eqn:F3; status_cases.
Qed.

Lemma mapTransaction_hash_and_status_witness :
  exists t,
    mapTransaction Samples.conflictingRecord = Some t /\
    any_tx_hash t = JStr "0xabc" /\ any_status t = success.
Proof.
  eexists. split; [reflexivity|]. split; [reflexivity|].
  destruct (mapTransaction_hash_and_status Samples.conflictingRecord _ eq_refl)
    as [txData [st [ok [HtxData [_ [_ [Hst [Hok [Hsuccess _]]]]]]]]].
  apply Hsuccess. right. left.
  injection HtxData as <-. now injection Hok as <-.
Defined.

Section Blocks.

Variable tz : Zone.
Variable now : Z.
Variable estimateOther : jsval -> exc string.

#[local] Abbreviation estimateTimestamp := (Indexer.estimateTimestamp tz now estimateOther).
#[local] Abbreviation timestampOf := (Indexer.timestampOf tz now estimateOther).
#[local] Abbreviation mapBlock := (Indexer.mapBlock tz now estimateOther).

Lemma estimateTimestamp_not_empty (height : jsval) (iso : string) :
  (forall h s, estimateOther h = Return s -> s <> EmptyString) ->
  estimateTimestamp height = Return iso -> iso <> EmptyString.
Proof.
  intros Hother. unfold Indexer.estimateTimestamp.
  destruct (toNumber height) as [[|h]|].
  - apply toISOString_not_empty.
  - apply toISOString_not_empty.
  - apply Hother.
Qed.

Lemma timestampOf_truthy (blockData height ts : jsval) :
  (forall h s, estimateOther h = Return s -> s <> EmptyString) ->
  timestampOf blockData height = Return ts -> truthy ts = true.
Proof.
  intros Hother. unfold Indexer.timestampOf.
  destruct (_ |?| _) as [timestamp0|e]; cbn [bind]; [|discriminate].
  destruct (get blockData "header") as [header|e]; cbn [bind]; [|discriminate].
  destruct (getOpt header "timestamp") as [headerTimestamp|e]; cbn [bind]; [|discriminate].
  assert (forall timestamp1,
             (if negb (truthy timestamp1)
              then (iso <- estimateTimestamp height ;; Return (JStr iso))
              else Return timestamp1) = Return ts -> truthy ts = true) as Hlast.
  { intros timestamp1. destruct (truthy timestamp1) eqn:H1; cbn [negb].
    - now intros [= <-].
    - destruct (estimateTimestamp height) as [iso|e] eqn:Hiso; cbn [bind]; [|discriminate].
      intros [= <-]. apply truthy_JStr.
      exact (estimateTimestamp_not_empty _ _ Hother Hiso). }
  destruct (negb (truthy timestamp0) && truthy headerTimestamp).
  - destruct (toISOString _) as [iso|e] eqn:Hiso; cbn [bind]; [|discriminate].
    rewrite (truthy_JStr iso (toISOString_not_empty _ _ Hiso)). cbn [negb].
    intros [= <-]. exact (truthy_JStr iso (toISOString_not_empty _ _ Hiso)).
  - cbn [bind]. apply Hlast.
Qed.

Lemma txCountOf_present (blockData count : jsval) :
  txCountOf blockData = Return count -> count <> JUndefined /\ count <> JNull.
Proof.
  unfold txCountOf. intros H.
  assert (forall v, truthy v = true -> v <> JUndefined /\ v <> JNull) as Htruthy
    by (intros v Hv; split; intros ->; discriminate).
  destruct (orElse_inv _ _ _ H) as [[_ Hv]|[_ [_ [_ H1]]]]; [now apply Htruthy|].
  destruct (orElse_inv _ _ _ H1) as [[_ Hv]|[_ [_ [_ H2]]]]; [now apply Htruthy|].
  destruct (orElse_inv _ _ _ H2) as [[_ Hv]|[_ [_ [_ H3]]]]; [now apply Htruthy|].
  unfold nullish in H3.
  destruct (extrinsics <- get blockData "extrinsics" ;; getOpt extrinsics "length")
    as [len|e]; cbn [bind] in H3; [|discriminate].
  destruct len; injection H3 as <-; split; discriminate.
Qed.

(** X3: a block that [mapBlock] keeps has a height that is not undefined, a
    truthy hash, a truthy timestamp (that of the record, or the estimate from
    the height) and a count of transactions that is neither undefined nor
    null, provided the estimate that the host makes for a height that is no
    number is no empty string. *)
Theorem mapBlock_keeps_complete_blocks (block : jsval) (b : AnyBlock) :
  (forall h s, estimateOther h = Return s -> s <> EmptyString) ->
  mapBlock block = Some b ->
  isUndefined (any_height b) = false /\
  truthy (any_hash b) = true /\
  truthy (any_timestamp b) = true /\
  any_txCount b <> JUndefined /\ any_txCount b <> JNull.
Proof.
  intros Hother. unfold Indexer.mapBlock.
  destruct (get block "block") as [inner|e]; cbn [bind try_catch]; [|discriminate].
  set (blockData := if truthy inner then inner else block).
  destruct (heightOf blockData) as [height|e]; cbn [bind try_catch]; [|discriminate].
  destruct (isUndefined height) eqn:Hheight; cbn [try_catch]; [discriminate|].
  destruct (hashOf blockData) as [hash|e]; cbn [bind try_catch]; [|discriminate].
  destruct (truthy hash) eqn:Hhash; cbn [negb try_catch]; [|discriminate].
  destruct (Indexer.timestampOf tz now estimateOther blockData height) as [timestamp|e]
    eqn:Htimestamp; cbn [bind try_catch]; [|discriminate].
  destruct (txCountOf blockData) as [count|e] eqn:Hcount; cbn [bind try_catch];
    [|discriminate].
  intros [= <-]. cbn [any_height any_hash any_timestamp any_txCount].
  split; [exact Hheight|]. split; [exact Hhash|].
  split; [exact (timestampOf_truthy _ _ _ Hother Htimestamp)|].
  exact (txCountOf_present _ _ Hcount).
Qed.

End Blocks.

Lemma mapBlock_keeps_complete_blocks_witness :
  exists b,
    Indexer.mapBlock utc Mock.newYearNoon noEstimate Samples.bareRecord = Some b /\
    any_timestamp b = JStr "2023-12-30T12:00:00.123Z" /\
    any_txCount b = JNum (Int 0) /\
    truthy (any_timestamp b) = true.
Proof.
  eexists. split; [vm_compute; reflexivity|]. split; [reflexivity|]. split; [reflexivity|].
  refine (proj1 (proj2 (proj2
    (mapBlock_keeps_complete_blocks utc Mock.newYearNoon noEstimate Samples.bareRecord _ _ _)))).
  - intros h s H. discriminate H.
  - vm_compute. reflexivity.
Defined.

(** *** The latest blocks and transactions are never an empty list *)

Lemma slice_from_start_not_empty {A : Type} (xs : list A) (l : Z) :
  1 <= l -> xs <> [] -> slice xs (Int 0) (Int l) <> [].
Proof.
  intros Hl Hxs. unfold slice. cbn [relIndex].
  destruct xs as [|x xs]; [contradiction|].
  replace (0 <? 0)%Z with false by reflexivity.
  replace (l <? 0)%Z with false by (symmetry; apply Z.ltb_ge; lia).
  rewrite (Z.min_l 0) by lia. change (Z.to_nat 0) with O. cbn [skipn].
  destruct (Z.to_nat (Z.min l (Z.of_nat (List.length (x :: xs))) - 0)) eqn:Hn.
  - cbn [List.length] in Hn. lia.
  - discriminate.
Qed.

Section Latest.

Variable INDEXER_URL : string.
Variable tz : Zone.
Variable now : Z.
Variable estimateOther : jsval -> exc string.
Variable post : string -> string -> list (string * jsval) -> response.
Variable this : HttpProvider.

#[local] Abbreviation getLatestBlocks :=
  (Indexer.getLatestBlocks INDEXER_URL tz now estimateOther post this).
#[local] Abbreviation getLatestTransactions :=
  (Indexer.getLatestTransactions INDEXER_URL post this).

(** X4: with the corpus of a constructed MockProvider behind it, the indexer
    client never answers a request for the latest [limit] blocks or
    transactions, [limit] at least 1, with an empty list: whatever the
    indexer does, it returns the blocks it mapped or the mock ones. *)
Theorem latest_lists_are_never_empty (tz0 : Zone) (clock : nat -> Z) (limit : Z) :
  Mock.construct tz0 clock = Return (mockProvider this) ->
  1 <= limit ->
  getLatestBlocks (Int limit) <> [] /\ getLatestTransactions (Int limit) <> [].
Proof.
  intros Hmock Hlimit.
  destruct (MockFacts.construct_lengths _ _ _ Hmock) as [Hblocks Htxs].
  assert (map ofBlock (Mock.getLatestBlocks (mockProvider this) (Int limit)) <> []) as Hb.
  { unfold Mock.getLatestBlocks. intros H. apply map_eq_nil in H. revert H.
    apply slice_from_start_not_empty; [exact Hlimit|].
    intros H. now rewrite H in Hblocks. }
  assert (map ofTransaction (Mock.getLatestTransactions (mockProvider this) (Int limit))
          <> []) as Ht.
  { unfold Mock.getLatestTransactions. intros H. apply map_eq_nil in H. revert H.
    apply slice_from_start_not_empty; [exact Hlimit|].
    intros H. now rewrite H in Htxs. }
  split.
  - unfold Indexer.getLatestBlocks, Indexer.mock.
    destruct (negb (truthy _)); cbn [try_catch]; [exact Hb|].
    destruct (blocksOf _ _ _ _) as [[|b blocks]|e]; cbn [bind try_catch isEmpty];
      [exact Hb | discriminate | exact Hb].
  - unfold Indexer.getLatestTransactions, Indexer.mock.
    destruct (negb (truthy _)); cbn [try_catch]; [exact Ht|].
    destruct (transactionsOf _) as [[|t txs]|e]; cbn [bind try_catch isEmpty];
      [exact Ht | discriminate | exact Ht].
Qed.

End Latest.

Lemma latest_lists_are_never_empty_witness :
  exists mp,
    Mock.construct utc (fun _ => Mock.newYearNoon) = Return mp /\
    1 <= 10 /\
    Indexer.getLatestBlocks EmptyString utc Mock.newYearNoon noEstimate unreachable
      (mkHttpProvider mp) (Int 10) <> [] /\
    Indexer.getLatestTransactions EmptyString unreachable (mkHttpProvider mp) (Int 10) <> [].
Proof.
  assert (Mock.saneClock (fun _ => Mock.newYearNoon)) as Hsane
    by (intros n; unfold maxTime, Mock.newYearNoon; simpl; lia).
  destruct (MockFacts.construct_total utc _ (MockFacts.steady_fixedZone 0) Hsane) as [mp Hmp].
  exists mp. split; [exact Hmp|]. split; [lia|].
  apply (latest_lists_are_never_empty EmptyString utc Mock.newYearNoon noEstimate unreachable
           (mkHttpProvider mp) utc (fun _ => Mock.newYearNoon) 10 Hmp). lia.
Defined.

(** *** The summary of an address *)

Section Address.

Variable INDEXER_URL : string.
Variable post : string -> string -> list (string * jsval) -> response.

#[local] Abbreviation getAddressSummary := (Indexer.getAddressSummary INDEXER_URL post).

Lemma summaryOf_address (addr : string) (addressData : jsval)
  (summary : AnyAddressSummary) :
  summaryOf addr addressData = Return summary ->
  addr <> EmptyString -> truthy (any_address summary) = true.
Proof.
  unfold summaryOf. intros H Haddr.
  destruct (get addressData "address" |?| get addressData "id" |?| Return (JStr addr))
    as [address|e] eqn:Haddress; cbn [bind] in H; [|discriminate].
  assert (truthy address = true) as Htruthy.
  { destruct (orElse_inv _ _ _ Haddress) as [[_ Hv]|[_ [_ [_ H1]]]]; [exact Hv|].
    destruct (orElse_inv _ _ _ H1) as [[_ Hv]|[_ [_ [_ H2]]]]; [exact Hv|].
    injection H2 as <-. now apply truthy_JStr. }
  repeat match type of H with
         | bind ?c _ = _ => destruct c; cbn [bind] in H; [|discriminate]
         end.
  injection H as <-. exact Htruthy.
Qed.

(** X5: the indexer client has a summary for every address: what it maps
    from the response of the indexer, or else the summary of MockProvider,
    never null; and the address of the summary is truthy when the address
    asked for is not empty. *)
Theorem indexer_address_summary_is_never_null (addr : string) :
  exists summary,
    getAddressSummary addr = Some summary /\
    (addr <> EmptyString -> truthy (any_address summary) = true).
Proof.
  unfold Indexer.getAddressSummary, Mock.getAddressSummary. cbn [option_map].
  set (fallback := ofAddressSummary _).
  assert (addr <> EmptyString -> truthy (any_address fallback) = true) as Hfallback
    by (intros Haddr; now apply truthy_JStr).
  destruct (negb (truthy _)); cbn [try_catch]; [now exists fallback|].
  destruct (_ |?| _) as [addressData|e]; cbn [bind try_catch]; [|now exists fallback].
  destruct (negb (truthy addressData)); cbn [try_catch]; [now exists fallback|].
  destruct (summaryOf addr addressData) as [summary|e] eqn:Hsummary; cbn [bind try_catch];
    [|now exists fallback].
  exists summary. split; [reflexivity|]. exact (summaryOf_address _ _ _ Hsummary).
Qed.

End Address.

End ProbingFacts.

(** ** The corpus of the Mock Generator and its look-ups *)

Module CorpusFacts.
Import Js Mock.

Lemma NoDup_map_injective {A B : Type} (f : A -> B) (xs : list A) :
  (forall x y, f x = f y -> x = y) -> NoDup xs -> NoDup (map f xs).
Proof.
  intros Hinj Hnd. induction Hnd as [|x xs Hnotin _ IH]; cbn [map]; constructor.
  - intros Hin. apply in_map_iff in Hin as [y [Heq Hy]].
    apply Hinj in Heq. now subst.
  - exact IH.
Qed.

Lemma blockHeights_NoDup : NoDup blockHeights.
Proof.
  unfold blockHeights. apply NoDup_map_injective; [|apply seq_NoDup].
  intros i j H. lia.
Qed.

Lemma blockHeights_range (h : Z) : In h blockHeights -> 12246 <= h <= 12345.
Proof.
  unfold blockHeights, latestHeight. intros H.
  apply in_map_iff in H as [i [<- Hi]]. apply in_seq in Hi. lia.
Qed.

Lemma find_by_unique_key {A : Type} (key : A -> Z) (xs : list A) (x : A) :
  NoDup (map key xs) -> In x xs -> find (fun y => key y =? key x) xs = Some x.
Proof.
  induction xs as [|y xs IH]; intros Hnd Hin; [contradiction|].
  cbn [map] in Hnd. inversion Hnd as [|k ks Hnotin Hnd']; subst.
  cbn [find]. destruct (Z.eqb_spec (key y) (key x)) as [Heq|Hne].
  - destruct Hin as [->|Hin]; [reflexivity|].
    exfalso. apply Hnotin. rewrite Heq. now apply in_map.
  - destruct Hin as [->|Hin]; [contradiction|]. now apply IH.
Qed.

(** X6: every block of a constructed corpus is found by the decimal string of
    its height, which is what the links of the lists of blocks pass as the
    id; and the look-up of a transaction by the hash of a transaction of the
    corpus finds a transaction of that very hash. *)
Theorem mock_lookups_find_the_corpus (tz : Zone) (clock : nat -> Z) (mp : MockProvider) :
  construct tz clock = Return mp ->
  (forall b, In b (mockBlocks mp) ->
             getBlockByHashOrHeight mp (Number_toString (height b)) = Some b) /\
  (forall t, In t (mockTransactions mp) ->
             exists t', getTransactionByHash mp (tx_hash t) = Some t' /\
                        tx_hash t' = tx_hash t).
Proof.
  intros Hmp. destruct (MockFacts.construct_heights _ _ _ Hmp) as [Hheights _]. split.
  - intros b Hb. unfold getBlockByHashOrHeight.
    assert (0 <= height b) as Hpos.
    { assert (In (height b) blockHeights) as Hin
        by (rewrite <- Hheights; now apply in_map).
      apply blockHeights_range in Hin. lia. }
    rewrite (PagingFacts.parseInt10_Number_toString _ Hpos).
    apply find_by_unique_key; [|exact Hb].
    rewrite Hheights. apply blockHeights_NoDup.
  - intros t Ht. unfold getTransactionByHash.
    destruct (find _ (mockTransactions mp)) as [t'|] eqn:Hfind.
    + exists t'. split; [reflexivity|].
      apply find_some in Hfind as [_ Heq]. now apply String.eqb_eq in Heq.
    + exfalso. pose proof (find_none _ _ Hfind t Ht) as Hne. cbv beta in Hne.
      now rewrite String.eqb_refl in Hne.
Qed.

Lemma mock_lookups_find_the_corpus_witness :
  exists mp,
    construct utc (fun _ => newYearNoon) = Return mp /\
    (forall b, In b (mockBlocks mp) ->
               getBlockByHashOrHeight mp (Number_toString (height b)) = Some b) /\
    (forall t, In t (mockTransactions mp) ->
               exists t', getTransactionByHash mp (tx_hash t) = Some t' /\
                          tx_hash t' = tx_hash t).
Proof.
  assert (saneClock (fun _ => newYearNoon)) as Hsane
    by (intros n; unfold maxTime, newYearNoon; simpl; lia).
  destruct (MockFacts.construct_total utc _ (MockFacts.steady_fixedZone 0) Hsane) as [mp Hmp].
  exists mp. split; [exact Hmp|].
  exact (mock_lookups_find_the_corpus utc (fun _ => newYearNoon) mp Hmp).
Defined.

(** *** The limit of the latest blocks and transactions *)

Lemma slice_from_start {A : Type} (xs : list A) (l : Z) :
  slice xs (Int 0) (Int l)
  = firstn (Z.to_nat (if l <? 0 then Z.of_nat (List.length xs) + l else l)) xs.
Proof.
  unfold slice. cbn [relIndex]. replace (0 <? 0) with false by reflexivity.
  rewrite (Z.min_l 0) by lia. change (Z.to_nat 0) with O. cbn [skipn].
  rewrite Z.sub_0_r. destruct (Z.ltb_spec l 0) as [Hneg|Hpos].
  - f_equal. lia.
  - destruct (Z.le_ge_cases l (Z.of_nat (List.length xs))) as [Hle|Hge].
    + now rewrite Z.min_l by lia.
    + rewrite Z.min_r by lia. rewrite Nat2Z.id.
      rewrite firstn_all. symmetry. apply firstn_all2. lia.
Qed.

(** X7: [getLatestBlocks(limit)] and [getLatestTransactions(limit)] of
    MockProvider return the first [limit] items of the corpus, all of them
    when there are fewer; a negative limit does not give the empty list but
    all items except the last [-limit]; a limit that is no number gives the
    empty list. *)
Theorem mock_latest_follows_slice (mp : MockProvider) :
  (forall l,
      getLatestBlocks mp (Int l)
      = firstn (Z.to_nat (if l <? 0 then Z.of_nat (List.length (mockBlocks mp)) + l else l))
               (mockBlocks mp)) /\
  (forall l,
      getLatestTransactions mp (Int l)
      = firstn (Z.to_nat (if l <? 0 then Z.of_nat (List.length (mockTransactions mp)) + l
                          else l))
               (mockTransactions mp)) /\
  getLatestBlocks mp NaN = [] /\
  getLatestTransactions mp NaN = [].
Proof.
  split; [intros l; apply slice_from_start|].
  split; [intros l; apply slice_from_start|].
  unfold getLatestBlocks, getLatestTransactions, slice. cbn [relIndex].
  replace (0 <? 0) with false by reflexivity.
  rewrite !(Z.min_l 0) by lia. now split.
Qed.

(** *** The transactions of each block *)

Lemma filter_heightIs (mp : MockProvider) (h : Z) :
  map blockHeight (filter (heightIs h) (mockTransactions mp))
  = filter (MockTerms.atHeight h) (map blockHeight (mockTransactions mp)).
Proof. exact (filter_map_comm blockHeight (MockTerms.atHeight h) (mockTransactions mp)). Qed.

Lemma filter_none {A : Type} (p : A -> bool) (xs : list A) :
  (forall x, In x xs -> p x = false) -> filter p xs = [].
Proof.
  induction xs as [|x xs IH]; intros H; [reflexivity|].
  cbn [filter]. rewrite (H x) by now left. apply IH. intros y Hy. apply H. now right.
Qed.

Lemma txHeights_count (h : Z) :
  List.length (filter (MockTerms.atHeight h) txHeights)
  = if (12306 <=? h) && (h <=? 12345) then 4%nat else 0%nat.
Proof.
  destruct ((12306 <=? h) && (h <=? 12345)) eqn:Hrange.
  - apply andb_true_iff in Hrange as [Hlo Hhi].
    apply Z.leb_le in Hlo. apply Z.leb_le in Hhi.
    assert (forallb (fun k => (List.length (filter (MockTerms.atHeight (12345 - Z.of_nat k)) txHeights)
                               =? 4)%nat) (seq 0 40) = true) as Hall
      by (vm_compute; reflexivity).
    rewrite forallb_forall in Hall.
    specialize (Hall (Z.to_nat (12345 - h))).
    rewrite Z2Nat.id in Hall by lia. replace (12345 - (12345 - h)) with h in Hall by lia.
    apply Nat.eqb_eq, Hall, in_seq. lia.
  - rewrite filter_none; [reflexivity|]. intros o Ho.
    assert (forallb (fun o => match o with
                              | Some z => (12306 <=? z) && (z <=? 12345)
                              | None => true
                              end) txHeights = true) as Hall
      by (vm_compute; reflexivity).
    rewrite forallb_forall in Hall. specialize (Hall o Ho).
    destruct o as [z|]; [|reflexivity]. cbn [MockTerms.atHeight].
    destruct (Z.eqb_spec z h) as [->|]; [congruence | reflexivity].
Qed.

(** X8: in a constructed corpus each of the forty blocks from height 12306 to
    12345 has four transactions and no other height has any; the page of the
    transactions of the block at height [h], asked for by the decimal string
    of [h] without a cursor, holds them all, each with the block height [h],
    and has no next cursor. *)
Theorem mock_block_has_four_transactions (tz : Zone) (clock : nat -> Z) (mp : MockProvider)
  (h : Z) :
  construct tz clock = Return mp -> 0 <= h ->
  let p := getBlockTransactions mp (Number_toString h) None in
  items p = filter (heightIs h) (mockTransactions mp) /\
  nextCursor p = None /\
  List.length (items p) = (if (12306 <=? h) && (h <=? 12345) then 4%nat else 0%nat) /\
  forall t, In t (items p) -> blockHeight t = Some h.
Proof.
  intros Hmp Hh p.
  destruct (MockFacts.construct_heights _ _ _ Hmp) as [_ Htxs].
  assert (List.length (filter (heightIs h) (mockTransactions mp))
          = if (12306 <=? h) && (h <=? 12345) then 4%nat else 0%nat) as Hcount.
  { rewrite <- txHeights_count, <- Htxs, <- filter_heightIs. now rewrite length_map. }
  assert (p = mkPage (filter (heightIs h) (mockTransactions mp)) None) as ->.
  { unfold p, getBlockTransactions, resolveHeight.
    rewrite (PagingFacts.parseInt10_Number_toString _ Hh).
    cbn [cursorOffset]. rewrite PagingFacts.window_Int by lia.
    unfold windowOf. change (Z.to_nat 0) with O. cbn [skipn].
    rewrite firstn_all2
      by (rewrite Hcount; unfold pageSize; destruct (_ && _); simpl; lia).
    f_equal. unfold cursorWhen, lengthOf, add, ltb. rewrite Hcount.
    destruct (_ && _); reflexivity. }
  cbn [items nextCursor]. split; [reflexivity|]. split; [reflexivity|].
  split; [exact Hcount|].
  intros t Ht. apply filter_In in Ht as [_ Ht]. unfold heightIs in Ht.
  destruct (blockHeight t) as [z|]; [|discriminate].
  apply Z.eqb_eq in Ht. now subst.
Qed.

Lemma mock_block_has_four_transactions_witness :
  exists mp,
    construct utc (fun _ => newYearNoon) = Return mp /\
    0 <= 12340 /\
    List.length (items (getBlockTransactions mp "12340" None)) = 4%nat /\
    nextCursor (getBlockTransactions mp "12340" None) = None.
Proof.
  assert (saneClock (fun _ => newYearNoon)) as Hsane
    by (intros n; unfold maxTime, newYearNoon; simpl; lia).
  destruct (MockFacts.construct_total utc _ (MockFacts.steady_fixedZone 0) Hsane) as [mp Hmp].
  exists mp. split; [exact Hmp|]. split; [lia|].
  destruct (mock_block_has_four_transactions utc (fun _ => newYearNoon) mp 12340 Hmp)
    as [_ [Hnext [Hlen _]]]; [lia|].
  split; [exact Hlen | exact Hnext].
Defined.

(** *** The timestamps of the blocks *)

Lemma steady_summerTime : steady Samples.summerTime.
Proof.
  intros t l. unfold Samples.summerTime. cbn [offsetAt offsetOf].
  destruct (t <? _); destruct (l <? _); lia.
Qed.

(** X9: the timestamp of the mock block at height [h] is the ISO form of the
    local time of the clock reading of its generation, moved back by two
    minutes for each unit of [h] and taken back to UTC with the offset that
    holds there: the reading moved back by two minutes for each unit of [h]
    when that offset is the one in force at the reading. *)
Theorem mock_block_timestamp (tz : Zone) (clock : nat -> Z) (mp : MockProvider)
  (i : nat) (b : Block) :
  construct tz clock = Return mp ->
  nth_error (mockBlocks mp) i = Some b ->
  let local := LocalTime tz (clock i) - height b * 120000 in
  height b = latestHeight - Z.of_nat i /\
  toISOString (Int (UTC tz local)) = Return (timestamp b) /\
  (sameOffset tz (clock i) local ->
   toISOString (Int (clock i - height b * 120000)) = Return (timestamp b)).
Proof.
  intros Hmp Hb local.
  assert (i < 100)%nat as Hi.
  { destruct (MockFacts.construct_lengths _ _ _ Hmp) as [Hlen _].
    rewrite <- Hlen. apply nth_error_Some. congruence. }
  destruct (MockFacts.mock_block_at _ _ _ i Hmp Hi) as [b' [Hb' Hgen]].
  rewrite Hb in Hb'. injection Hb' as <-.
  pose proof (MockFacts.generateMockBlock_height _ _ _ _ Hgen) as Hheight.
  split; [exact Hheight|].
  assert (toISOString (Int (UTC tz local)) = Return (timestamp b)) as Hts.
  { subst local. rewrite Hheight.
    revert Hgen. unfold generateMockBlock. rewrite MockFacts.block_date.
    destruct (toISOString (TimeClip _)) as [iso|e] eqn:Hiso; cbn [bind]; [|discriminate].
    intros [= <-]. cbn [timestamp].
    revert Hiso. unfold TimeClip. destruct (_ <=? _); [|discriminate].
    intros Hiso. exact Hiso. }
  split; [exact Hts|].
  intros Hsame. rewrite <- Hts. do 2 f_equal.
  unfold sameOffset in Hsame. unfold UTC. rewrite Hsame.
  subst local. unfold LocalTime. lia.
Qed.

Lemma mock_block_timestamp_witness :
  (exists mp b,
      construct utc (fun _ => newYearNoon) = Return mp /\
      nth_error (mockBlocks mp) 0 = Some b /\
      height b = 12345 /\
      timestamp b = "2023-12-15T08:30:00.123Z"%string) /\
  (exists mp b,
      construct Samples.summerTime (fun _ => newYearNoon) = Return mp /\
      nth_error (mockBlocks mp) 0 = Some b /\
      height b = 12345 /\
      timestamp b = "2023-12-15T09:30:00.123Z"%string).
Proof.
  assert (saneClock (fun _ => newYearNoon)) as Hsane
    by (intros n; unfold maxTime, newYearNoon; simpl; lia).
  split.
  - destruct (MockFacts.construct_total utc _ (MockFacts.steady_fixedZone 0) Hsane)
      as [mp Hmp].
    destruct (MockFacts.mock_block_at _ _ _ 0%nat Hmp) as [b [Hb _]]; [lia|].
    exists mp, b. split; [exact Hmp|]. split; [exact Hb|].
    destruct (mock_block_timestamp utc (fun _ => newYearNoon) mp 0 b Hmp Hb)
      as [Hh [_ Hts]].
    split; [exact Hh|]. specialize (Hts eq_refl). rewrite Hh in Hts. cbv beta in Hts.
    change (latestHeight - Z.of_nat 0) with 12345 in Hts.
    assert (toISOString (Int (newYearNoon - 12345 * 120000))
            = Return "2023-12-15T08:30:00.123Z"%string) as Hiso by (vm_compute; reflexivity).
    congruence.
  - destruct (MockFacts.construct_total Samples.summerTime _ steady_summerTime Hsane)
      as [mp Hmp].
    destruct (MockFacts.mock_block_at _ _ _ 0%nat Hmp) as [b [Hb _]]; [lia|].
    exists mp, b. split; [exact Hmp|]. split; [exact Hb|].
    destruct (mock_block_timestamp Samples.summerTime (fun _ => newYearNoon) mp 0 b Hmp Hb)
      as [Hh [Hts _]].
    split; [exact Hh|]. rewrite Hh in Hts. cbv beta in Hts.
    change (latestHeight - Z.of_nat 0) with 12345 in Hts.
    assert (toISOString
              (Int (UTC Samples.summerTime
                      (LocalTime Samples.summerTime newYearNoon - 12345 * 120000)))
            = Return "2023-12-15T09:30:00.123Z"%string) as Hiso by (vm_compute; reflexivity).
    congruence.
Defined.

End CorpusFacts.

(** ** Following the next cursors *)

Module WalkFacts.
Import Js Pages.

Lemma Number_toString_not_empty (n : Z) : 0 <= n -> Number_toString n <> EmptyString.
Proof.
  intros Hn. unfold Number_toString, toStringRadix.
  replace (n <? 0) with false by (symmetry; apply Z.ltb_ge; lia).
  destruct (PagingFacts.digitsAcc_head (Z.to_nat (Z.log2 n)) n EmptyString)
    as [d [rest [_ ->]]].
  discriminate.
Qed.

Lemma nextLink_of_offset (path : string) (n : Z) :
  0 <= n ->
  nextLink path (Some (Number_toString n))
  = Some (mkHref path (Some (Number_toString n))).
Proof.
  intros Hn. unfold nextLink.
  pose proof (Number_toString_not_empty n Hn) as Hne.
  destruct (Number_toString n); [contradiction | reflexivity].
Qed.

Lemma option_map_id {A : Type} (o : option (list A)) :
  option_map (map (fun x => x)) o = o.
Proof. destruct o as [xs|]; [|reflexivity]. cbn [option_map]. now rewrite map_id. Qed.

(** A walk over pages under the strict rule, as the operations of
    MockProvider compute them.  The request [n] is served from the list
    [xs n]; the lists agree on what [f] reads from their items. *)
Lemma follow_strict_pages {T U : Type} (f : T -> U) (ys : list U) (xs : nat -> list T)
  (page : nat -> option string -> Page T) (path : string) :
  (forall n, map f (xs n) = ys) ->
  (forall n cursor o,
      cursorOffset cursor = Int o -> 0 <= o ->
      page n cursor
      = mkPage (window (xs n) (cursorOffset cursor))
               (cursorWhen (ltb (add (cursorOffset cursor) (Int pageSize))
                                (lengthOf (xs n)))
                           (cursorOffset cursor))) ->
  forall (fuel n : nat) (cursor : option string) (o : Z),
    cursorOffset cursor = Int o -> 0 <= o -> (1 <= fuel)%nat ->
    option_map (map f) (follow page path fuel n cursor)
    = if Z.of_nat (List.length ys) - o <=? 20 * Z.of_nat fuel
      then Some (skipn (Z.to_nat o) ys) else None.
Proof.
  intros Hys Hpage. induction fuel as [|fuel IH]; intros n cursor o Hcursor Ho Hfuel; [lia|].
  cbn [follow]. rewrite (Hpage n cursor o Hcursor Ho), Hcursor. cbn [items nextCursor].
  rewrite PagingFacts.window_Int by exact Ho.
  assert (List.length (xs n) = List.length ys) as Hlen
    by (rewrite <- (Hys n); now rewrite length_map).
  unfold cursorWhen, add, ltb, lengthOf, windowOf, pageSize. rewrite Hlen.
  destruct (Z.ltb_spec (o + 20) (Z.of_nat (List.length ys))) as [Hmore|Hlast].
  - cbn [num_toString]. rewrite nextLink_of_offset by lia. cbn [cursor_param].
    destruct fuel as [|fuel'].
    + cbn [follow option_map].
      destruct (Z.leb_spec (Z.of_nat (List.length ys) - o) (20 * Z.of_nat 1));
        [lia | reflexivity].
    + specialize (IH (S n) (Some (Number_toString (o + 20))) (o + 20)).
      rewrite PagingFacts.cursorOffset_Number_toString in IH by lia.
      specialize (IH eq_refl ltac:(lia) ltac:(lia)).
      destruct (follow page path (S fuel') (S n) _) as [rest|]; cbn [option_map] in IH |- *.
      * destruct (Z.leb_spec (Z.of_nat (List.length ys) - (o + 20)) (20 * Z.of_nat (S fuel')))
          as [Hin|Hout]; [|discriminate].
        destruct (Z.leb_spec (Z.of_nat (List.length ys) - o) (20 * Z.of_nat (S (S fuel'))));
          [|lia].
        injection IH as IH. f_equal.
        rewrite map_app, IH, <- firstn_map, <- skipn_map, Hys.
        replace (Z.to_nat (o + 20)) with (Z.to_nat 20 + Z.to_nat o)%nat by lia.
        rewrite <- skipn_skipn. apply firstn_skipn.
      * destruct (Z.leb_spec (Z.of_nat (List.length ys) - (o + 20)) (20 * Z.of_nat (S fuel')))
          as [Hin|Hout]; [discriminate|].
        destruct (Z.leb_spec (Z.of_nat (List.length ys) - o) (20 * Z.of_nat (S (S fuel'))));
          [lia | reflexivity].
  - cbn [nextLink option_map].
    destruct (Z.leb_spec (Z.of_nat (List.length ys) - o) (20 * Z.of_nat (S fuel))); [|lia].
    f_equal. rewrite <- firstn_map, <- skipn_map, Hys.
    apply firstn_all2. rewrite length_skipn. lia.
Qed.

Lemma followExc_strict_pages {T : Type} (xs : list T)
  (page : option string -> exc (Page T)) (path : string) :
  (forall cursor o,
      cursorOffset cursor = Int o -> 0 <= o ->
      page cursor
      = Return (mkPage (window xs (cursorOffset cursor))
                  (cursorWhen (ltb (add (cursorOffset cursor) (Int pageSize)) (lengthOf xs))
                              (cursorOffset cursor)))) ->
  forall (fuel : nat) (cursor : option string) (o : Z),
    cursorOffset cursor = Int o -> 0 <= o -> (1 <= fuel)%nat ->
    followExc page path fuel cursor
    = Return (if Z.of_nat (List.length xs) - o <=? 20 * Z.of_nat fuel
              then Some (skipn (Z.to_nat o) xs) else None).
Proof.
  intros Hpage. induction fuel as [|fuel IH]; intros cursor o Hcursor Ho Hfuel; [lia|].
  cbn [followExc]. rewrite (Hpage cursor o Hcursor Ho), Hcursor. cbn [bind items nextCursor].
  rewrite PagingFacts.window_Int by exact Ho.
  unfold cursorWhen, add, ltb, lengthOf, windowOf, pageSize.
  destruct (Z.ltb_spec (o + 20) (Z.of_nat (List.length xs))) as [Hmore|Hlast].
  - cbn [num_toString]. rewrite nextLink_of_offset by lia. cbn [cursor_param].
    destruct fuel as [|fuel'].
    + cbn [followExc bind option_map].
      destruct (Z.leb_spec (Z.of_nat (List.length xs) - o) (20 * Z.of_nat 1));
        [lia | reflexivity].
    + rewrite (IH (Some (Number_toString (o + 20))) (o + 20));
        [|apply PagingFacts.cursorOffset_Number_toString; lia | lia | lia].
      cbn [bind]. f_equal.
      destruct (Z.leb_spec (Z.of_nat (List.length xs) - (o + 20)) (20 * Z.of_nat (S fuel')));
        destruct (Z.leb_spec (Z.of_nat (List.length xs) - o) (20 * Z.of_nat (S (S fuel'))));
        try lia; cbn [option_map]; [|reflexivity].
      f_equal.
      replace (Z.to_nat (o + 20)) with (Z.to_nat 20 + Z.to_nat o)%nat by lia.
      rewrite <- skipn_skipn. apply firstn_skipn.
  - cbn [nextLink].
    destruct (Z.leb_spec (Z.of_nat (List.length xs) - o) (20 * Z.of_nat (S fuel))); [|lia].
    do 2 f_equal. apply firstn_all2. rewrite length_skipn. lia.
Qed.

(** X10: a reader who opens a list of MockProvider without a cursor and
    follows the next cursor of each page reaches a page without a next
    cursor exactly when they load a page for every twenty items, one at
    least, and has then seen every item of the list once and in order: the
    blocks, the transactions, and the transactions of a block.  When every
    request is served by a provider of its own construction, as the pages of
    the explorer do it, the reader still sees the heights 12345 down to
    12246 of the hundred blocks, in five pages, and the block heights of the
    two hundred transactions, in ten. *)
Theorem mock_pages_cover_the_list (mp : Mock.MockProvider)
  (fresh : nat -> Mock.MockProvider) (path : string) (fuel : nat) :
  (1 <= fuel)%nat ->
  (forall n, exists tz clock, Mock.construct tz clock = Return (fresh n)) ->
  follow (fun _ => Mock.getBlocksPage mp) path fuel 0 None
  = (if (List.length (Mock.mockBlocks mp) <=? 20 * fuel)%nat
     then Some (Mock.mockBlocks mp) else None) /\
  follow (fun _ => Mock.getTransactionsPage mp) path fuel 0 None
  = (if (List.length (Mock.mockTransactions mp) <=? 20 * fuel)%nat
     then Some (Mock.mockTransactions mp) else None) /\
  (forall id,
      follow (fun _ => Mock.getBlockTransactions mp id) path fuel 0 None
      = if (List.length (Mock.transactionsOfBlock mp id) <=? 20 * fuel)%nat
        then Some (Mock.transactionsOfBlock mp id) else None) /\
  option_map (map height) (follow (fun n => Mock.getBlocksPage (fresh n)) path fuel 0 None)
  = (if (5 <=? fuel)%nat then Some Mock.blockHeights else None) /\
  option_map (map blockHeight)
    (follow (fun n => Mock.getTransactionsPage (fresh n)) path fuel 0 None)
  = (if (10 <=? fuel)%nat then Some Mock.txHeights else None).
Proof.
  intros Hfuel Hfresh.
  assert (forall (T : Type) (xs : list T) (page : option string -> Page T),
             (forall cursor o,
                 cursorOffset cursor = Int o -> 0 <= o ->
                 page cursor
                 = mkPage (window xs (cursorOffset cursor))
                          (cursorWhen (ltb (add (cursorOffset cursor) (Int pageSize))
                                           (lengthOf xs))
                                      (cursorOffset cursor))) ->
             follow (fun _ => page) path fuel 0 None
             = if (List.length xs <=? 20 * fuel)%nat then Some xs else None) as Hone.
  { intros T xs page Hpage.
    pose proof (follow_strict_pages (fun x => x) xs (fun _ => xs) (fun _ => page) path
                  (fun _ => map_id xs) (fun _ => Hpage) fuel 0%nat None 0
                  eq_refl (Z.le_refl 0) Hfuel) as H.
    rewrite option_map_id in H. rewrite H. change (Z.to_nat 0) with 0%nat. cbn [skipn].
    destruct (Z.leb_spec (Z.of_nat (List.length xs) - 0) (20 * Z.of_nat fuel));
      destruct (Nat.leb_spec (List.length xs) (20 * fuel)); try lia; reflexivity. }
  split; [exact (Hone _ (Mock.mockBlocks mp) (Mock.getBlocksPage mp)
                   (fun _ _ _ _ => eq_refl))|].
  split; [exact (Hone _ (Mock.mockTransactions mp) (Mock.getTransactionsPage mp)
                   (fun _ _ _ _ => eq_refl))|].
  split.
  { intros id. apply Hone. intros cursor o Hcursor Ho.
    exact (PagingFacts.mock_getBlockTransactions_page mp id cursor o Hcursor Ho). }
  split.
  - rewrite (follow_strict_pages height Mock.blockHeights
               (fun n => Mock.mockBlocks (fresh n))
               (fun n => Mock.getBlocksPage (fresh n)) path) with (o := 0);
      [| | intros n cursor o _ _; reflexivity | reflexivity | lia | exact Hfuel].
    + change (Z.to_nat 0) with 0%nat. cbn [skipn].
      change (List.length Mock.blockHeights) with 100%nat.
      destruct (Z.leb_spec (Z.of_nat 100 - 0) (20 * Z.of_nat fuel));
        destruct (Nat.leb_spec 5 fuel); try lia; reflexivity.
    + intros n. destruct (Hfresh n) as [tz [clock Hn]].
      exact (proj1 (MockFacts.construct_heights _ _ _ Hn)).
  - rewrite (follow_strict_pages blockHeight Mock.txHeights
               (fun n => Mock.mockTransactions (fresh n))
               (fun n => Mock.getTransactionsPage (fresh n)) path) with (o := 0);
      [| | intros n cursor o _ _; reflexivity | reflexivity | lia | exact Hfuel].
    + change (Z.to_nat 0) with 0%nat. cbn [skipn].
      change (List.length Mock.txHeights) with 200%nat.
      destruct (Z.leb_spec (Z.of_nat 200 - 0) (20 * Z.of_nat fuel));
        destruct (Nat.leb_spec 10 fuel); try lia; reflexivity.
    + intros n. destruct (Hfresh n) as [tz [clock Hn]].
      exact (proj2 (MockFacts.construct_heights _ _ _ Hn)).
Qed.

Lemma mock_pages_cover_the_list_witness :
  (1 <= 5)%nat /\
  exists mp,
    Mock.construct utc (fun _ => Mock.newYearNoon) = Return mp /\
    follow (fun _ => Mock.getBlocksPage mp) "/blocks"%string 5 0 None
    = Some (Mock.mockBlocks mp) /\
    option_map (map height)
      (follow (fun _ => Mock.getBlocksPage mp) "/blocks"%string 5 0 None)
    = Some Mock.blockHeights.
Proof.
  split; [lia|].
  assert (Mock.saneClock (fun _ => Mock.newYearNoon)) as Hsane
    by (intros n; unfold maxTime, Mock.newYearNoon; simpl; lia).
  destruct (MockFacts.construct_total utc _ (MockFacts.steady_fixedZone 0) Hsane) as [mp Hmp].
  exists mp. split; [exact Hmp|].
  destruct (mock_pages_cover_the_list mp (fun _ => mp) "/blocks"%string 5)
    as [Hone [_ [_ [Hfresh _]]]].
  - lia.
  - intros _. exists utc, (fun _ => Mock.newYearNoon). exact Hmp.
  - split; [|exact Hfresh].
    rewrite Hone. rewrite (proj1 (MockFacts.construct_lengths _ _ _ Hmp)). reflexivity.
Defined.

End WalkFacts.

(** ** The lists of the RPC Scanner *)

Module ScannerFacts.
Import Js Rpc RpcTerms.

Lemma heightsDown_spec (fuel : nat) :
  forall h bound,
    heightsDown fuel h (Int bound)
    = map (fun k => Int (h - Z.of_nat k))
          (seq 0 (Z.to_nat (Z.min (Z.of_nat fuel) (Z.min (h - bound) (h + 1))))).
Proof.
  induction fuel as [|fuel IH]; intros h bound.
  - replace (Z.to_nat _) with O by lia. reflexivity.
  - cbn [heightsDown gtb ltb].
    destruct (Z.ltb_spec bound h) as [Hgt|Hle]; cbn [andb].
    + destruct (Z.leb_spec 0 h) as [Hpos|Hneg].
      * rewrite IH.
        replace (Z.to_nat (Z.min (Z.of_nat (S fuel)) (Z.min (h - bound) (h + 1))))
          with (S (Z.to_nat (Z.min (Z.of_nat fuel) (Z.min (h - 1 - bound) (h - 1 + 1)))))
          by lia.
        cbn [seq map]. f_equal; [f_equal; lia|].
        rewrite <- seq_shift, map_map. apply map_ext. intros k. f_equal. lia.
      * replace (Z.to_nat _) with O by lia. reflexivity.
    + replace (Z.to_nat _) with O by lia. reflexivity.
Qed.

(** *** The timestamp of a block *)

Lemma find_split {A : Type} (p : A -> bool) (xs : list A) (x : A) :
  find p xs = Some x ->
  exists before after,
    xs = (before ++ x :: after)%list /\
    (forall y, In y before -> p y = false) /\ p x = true.
Proof.
  induction xs as [|y xs IH]; cbn [find]; [discriminate|].
  destruct (p y) eqn:Hy.
  - intros [= <-]. exists [], xs. repeat split; [intros z []|exact Hy].
  - intros H. destruct (IH H) as [before [after [-> [Hbefore Hx]]]].
    exists (y :: before), after. split; [reflexivity|]. split; [|exact Hx].
    intros z [<-|Hz]; [exact Hy | now apply Hbefore].
Qed.

(** X11: the timestamp of a block is set by the first extrinsic of the
    section [timestamp], and by no later one: its first argument, read as a
    number of milliseconds within the range of dates, in ISO form.  A block
    without such an extrinsic has no timestamp, and neither has a block
    whose first such extrinsic has an argument that cannot be read or is no
    valid time. *)
Theorem block_time_comes_from_first_timestamp_extrinsic (exts : list Extrinsic) :
  (forall iso,
      blockTime exts = Some iso ->
      exists before ts after ms,
        exts = (before ++ ts :: after)%list /\
        (forall ext, In ext before -> method_section ext <> "timestamp"%string) /\
        method_section ts = "timestamp"%string /\
        firstArg ts = Return (Int ms) /\ Z.abs ms <= maxTime /\
        toISOString (Int ms) = Return iso) /\
  ((forall ext, In ext exts -> method_section ext <> "timestamp"%string) ->
   blockTime exts = None) /\
  (forall before ts after,
      exts = (before ++ ts :: after)%list ->
      (forall ext, In ext before -> method_section ext <> "timestamp"%string) ->
      method_section ts = "timestamp"%string ->
      (forall ms, firstArg ts = Return (Int ms) -> maxTime < Z.abs ms) ->
      blockTime exts = None).
Proof.
  unfold blockTime. split; [|split].
  - intros iso.
    destruct (find _ exts) as [ts|] eqn:Hfind; [|discriminate].
    destruct (find_split _ _ _ Hfind) as [before [after [-> [Hbefore Hts]]]].
    destruct (firstArg ts) as [[|ms]|e] eqn:Harg; cbn [bind try_catch TimeClip toISOString];
      try discriminate.
    destruct (Z.leb_spec (Z.abs ms) maxTime) as [Hin|Hout];
      cbn [bind try_catch toISOString]; [|discriminate].
    intros [= <-]. exists before, ts, after, ms.
    split; [reflexivity|]. split.
    { intros ext Hext Heq. apply Hbefore in Hext. rewrite Heq in Hext. discriminate. }
    split; [now apply String.eqb_eq|]. now repeat split.
  - intros Hnone. destruct (find _ exts) as [ts|] eqn:Hfind; [|reflexivity].
    apply find_some in Hfind as [Hin Hts]. apply String.eqb_eq in Hts.
    now elim (Hnone ts Hin).
  - intros before ts after -> Hbefore Hts Harg.
    assert (find (fun ext => String.eqb (method_section ext) "timestamp")
                 (before ++ ts :: after) = Some ts) as ->.
    { clear Harg. induction before as [|x before IH]; cbn [app find].
      - now rewrite Hts.
      - destruct (String.eqb_spec (method_section x) "timestamp") as [Heq|_].
        + elim (Hbefore x); [now left | exact Heq].
        + apply IH. intros ext Hext. apply Hbefore. now right. }
    destruct (firstArg ts) as [[|ms]|e]; cbn [bind try_catch TimeClip toISOString];
      try reflexivity.
    specialize (Harg ms eq_refl).
    destruct (Z.leb_spec (Z.abs ms) maxTime) as [Hin|Hout]; [lia | reflexivity].
Qed.

Section Lists.

Variable now : Z.
Variable getApi : exc unit.
Variable getFinalizedHead : exc string.
Variable getHeader : string -> exc Z.
Variable getBlockHash : num -> exc string.
Variable getBlock : string -> exc SignedBlock.
Variable eventsAt : string -> exc (list EventRecord).

#[local] Abbreviation getTipInfo := (Rpc.getTipInfo getApi getFinalizedHead getHeader).
#[local] Abbreviation getBlockByHeight :=
  (Rpc.getBlockByHeight now getApi getBlockHash getBlock).
#[local] Abbreviation allBlocks := (Rpc.allBlocks now getApi getBlockHash getBlock).
#[local] Abbreviation getLatestBlocks :=
  (Rpc.getLatestBlocks now getApi getFinalizedHead getHeader getBlockHash getBlock).
#[local] Abbreviation describes := (RpcTerms.describes getBlockHash getBlock).

Lemma getBlockByHeight_describes (h : num) (b : AnyBlock) :
  getBlockByHeight h = Return b -> describes b.
Proof.
  unfold Rpc.getBlockByHeight.
  destruct getApi; cbn [bind]; [|discriminate].
  destruct (getBlockHash h) as [hash|e] eqn:Hhash; cbn [bind]; [|discriminate].
  destruct (getBlock hash) as [sb|e] eqn:Hsb; cbn [bind]; [|discriminate].
  destruct (toISOString _); cbn [bind]; [|discriminate].
  intros [= <-]. exists h, hash, sb. cbn [any_height any_hash any_txCount].
  repeat split; assumption.
Qed.

Lemma allBlocks_describes (heights : list num) :
  forall blocks, allBlocks heights = Return blocks -> Forall describes blocks.
Proof.
  induction heights as [|h heights IH]; intros blocks; cbn [Rpc.allBlocks].
  - intros [= <-]. constructor.
  - destruct (getBlockByHeight h) as [b|e] eqn:Hb; cbn [bind]; [|discriminate].
    destruct (allBlocks heights) as [bs|e]; cbn [bind]; [|discriminate].
    intros [= <-]. constructor; [exact (getBlockByHeight_describes _ _ Hb) | now apply IH].
Qed.

Lemma allBlocks_total (heights : list num) :
  (forall h, In h heights -> exists b, getBlockByHeight h = Return b) ->
  exists blocks, allBlocks heights = Return blocks.
Proof.
  induction heights as [|h heights IH]; intros Hall; cbn [Rpc.allBlocks]; [eauto|].
  destruct (Hall h) as [b ->]; [now left|]. cbn [bind].
  destruct IH as [bs ->]; [intros k Hk; apply Hall; now right|]. cbn [bind]. eauto.
Qed.

(** X12: with the tip at height [tip], the scanner's [getLatestBlocks(limit)]
    asks for the blocks at the heights [tip], [tip - 1], ... , the smaller of
    [limit] and [tip + 1] of them (none for a limit of zero or less), and
    returns them in that order, each with the hash the node gives for its
    height and the number of extrinsics of its body; it returns whenever the
    node answers for these heights. *)
Theorem rpc_latest_blocks_count_down (tip limit : Z) :
  getTipInfo = Return tip ->
  let heights := map (fun k => Int (tip - Z.of_nat k))
                     (seq 0 (Z.to_nat (Z.min limit (tip + 1)))) in
  ((forall h, In h heights -> exists b, getBlockByHeight h = Return b) ->
   exists blocks, getLatestBlocks (Int limit) = Return blocks) /\
  (forall blocks,
      getLatestBlocks (Int limit) = Return blocks ->
      map any_height blocks = map JNum heights /\ Forall describes blocks).
Proof.
  intros Htip heights. unfold Rpc.getLatestBlocks. rewrite Htip. cbn [bind sub].
  rewrite heightsDown_spec.
  replace (Z.to_nat (Z.min (Z.of_nat (Z.to_nat (tip + 1)))
                           (Z.min (tip - (tip - limit)) (tip + 1))))
    with (Z.to_nat (Z.min limit (tip + 1))) by lia.
  fold heights. split.
  - apply allBlocks_total.
  - intros blocks Hblocks. split.
    + exact (PagingFacts.allBlocks_heights now getApi getBlockHash getBlock _ _ Hblocks).
    + exact (allBlocks_describes _ _ Hblocks).
Qed.

#[local] Abbreviation getBlockByHashOrHeight :=
  (Rpc.getBlockByHashOrHeight now getApi getBlockHash getBlock).

(** X13: the block that the scanner returns for an id is the block it builds
    for a height: the number of the id when the id is decimal, else the
    number in the header of the block fetched by the id.  Its hash is the
    hash the node gives for that height, whatever the id was.  The scanner
    answers with no block only for the empty id, or for a decimal id for
    whose height the node gives the empty hash. *)
Theorem rpc_block_lookup_goes_by_height (id : string) :
  (forall b,
      getBlockByHashOrHeight id = Return (Some b) ->
      describes b /\
      if isDecimal id then any_height b = JNum (Int (decimalValue id))
      else exists signedBlock,
             getBlock id = Return signedBlock /\
             any_height b = JNum (Int (header_number signedBlock))) /\
  (getBlockByHashOrHeight id = Return None ->
   if isDecimal id then getBlockHash (Int (decimalValue id)) = Return EmptyString
   else id = EmptyString).
Proof.
  unfold Rpc.getBlockByHashOrHeight, Rpc.resolve.
  destruct getApi as [[]|e] eqn:Hapi; cbn [bind]; [|split; [intros b|]; discriminate].
  destruct (isDecimal id).
  - destruct (getBlockHash (Int (decimalValue id))) as [hash|e] eqn:Hhash; cbn [bind];
      [|split; [intros b|]; discriminate].
    destruct (String.eqb_spec hash EmptyString) as [->|Hne].
    + split; [intros b; discriminate | reflexivity].
    + destruct (Rpc.getBlockByHeight _ _ _ _ _) as [block|e] eqn:Hblock; cbn [bind];
        [|split; [intros b|]; discriminate].
      split; [|discriminate]. intros b [= <-].
      rewrite <- Hapi in Hblock.
      split; [exact (getBlockByHeight_describes _ _ Hblock)|].
      exact (PagingFacts.getBlockByHeight_height _ _ _ _ _ _ Hblock).
  - destruct (getBlock id) as [sb|e] eqn:Hsb; cbn [bind];
      [|split; [intros b|]; discriminate].
    destruct (String.eqb_spec id EmptyString) as [->|Hne].
    + split; [intros b; discriminate | reflexivity].
    + destruct (Rpc.getBlockByHeight _ _ _ _ _) as [block|e] eqn:Hblock; cbn [bind];
        [|split; [intros b|]; discriminate].
      split; [|discriminate]. intros b [= <-].
      rewrite <- Hapi in Hblock.
      split; [exact (getBlockByHeight_describes _ _ Hblock)|].
      exists sb. split; [reflexivity|].
      exact (PagingFacts.getBlockByHeight_height _ _ _ _ _ _ Hblock).
Qed.

(** *** The pages of blocks, followed to the end *)

#[local] Abbreviation getBlocksPage :=
  (Rpc.getBlocksPage now getApi getFinalizedHead getHeader getBlockHash getBlock).

Lemma seq_offset (a m : nat) : seq a m = map (Nat.add a) (seq 0 m).
Proof.
  induction a as [|a IH]; [now rewrite map_id|].
  rewrite <- seq_shift, IH, map_map. reflexivity.
Qed.

Lemma getBlocksPage_at (tip o : Z) (cursor : option string) :
  getTipInfo = Return tip ->
  (forall h, 0 <= h <= tip -> exists b, getBlockByHeight (Int h) = Return b) ->
  cursorOffset cursor = Int o -> 0 <= o ->
  exists blocks,
    getBlocksPage cursor
    = Return (mkPage blocks (if 20 <=? tip + 1 - o
                             then Some (Number_toString (o + 20)) else None)) /\
    map any_height blocks
    = map (fun k => JNum (Int (tip - o - Z.of_nat k)))
          (seq 0 (Z.to_nat (Z.min 20 (tip + 1 - o)))).
Proof.
  intros Htip Hnode Hoff Ho. unfold Rpc.getBlocksPage. rewrite Hoff, Htip. cbn [bind].
  rewrite PagingFacts.pageHeights_spec.
  set (n := Z.to_nat (Z.min (Z.of_nat (Z.to_nat pageSize)) (Z.max 0 (tip - o - 0 + 1)))).
  assert (n = Z.to_nat (Z.min 20 (tip + 1 - o))) as Hn by (unfold n, pageSize; lia).
  destruct (allBlocks_total (map (fun k => Int (tip - o - 0 - Z.of_nat k)) (seq 0 n)))
    as [blocks Hblocks].
  { intros h Hh. apply in_map_iff in Hh as [k [<- Hk]]. apply in_seq in Hk.
    apply Hnode. lia. }
  rewrite Hblocks. cbn [bind]. exists blocks. split.
  - f_equal. f_equal. rewrite length_map, length_seq. unfold cursorWhen, pageSize.
    cbn [add num_toString].
    destruct (Z.leb_spec 20 (tip + 1 - o)) as [Hfull|Hshort].
    + replace (Z.of_nat n =? 20) with true by (symmetry; apply Z.eqb_eq; lia). reflexivity.
    + replace (Z.of_nat n =? 20) with false by (symmetry; apply Z.eqb_neq; lia). reflexivity.
  - rewrite (PagingFacts.allBlocks_heights now getApi getBlockHash getBlock _ _ Hblocks).
    rewrite map_map, <- Hn. apply map_ext. intros k. do 2 f_equal. lia.
Qed.

Lemma followExc_blocks (tip : Z) (path : string) :
  getTipInfo = Return tip ->
  (forall h, 0 <= h <= tip -> exists b, getBlockByHeight (Int h) = Return b) ->
  forall (fuel : nat) (cursor : option string) (o : Z),
    cursorOffset cursor = Int o -> 0 <= o <= tip + 1 ->
    tip + 1 - o < 20 * Z.of_nat fuel ->
    exists blocks,
      Pages.followExc getBlocksPage path fuel cursor = Return (Some blocks) /\
      map any_height blocks
      = map (fun k => JNum (Int (tip - o - Z.of_nat k))) (seq 0 (Z.to_nat (tip + 1 - o))).
Proof.
  intros Htip Hnode. induction fuel as [|fuel IH]; intros cursor o Hoff Ho Hfuel; [lia|].
  cbn [Pages.followExc].
  destruct (getBlocksPage_at tip o cursor Htip Hnode Hoff (proj1 Ho))
    as [blocks [-> Hheights]].
  cbn [bind nextCursor items].
  destruct (Z.leb_spec 20 (tip + 1 - o)) as [Hfull|Hshort].
  - rewrite WalkFacts.nextLink_of_offset by lia. cbn [Pages.cursor_param].
    destruct (IH (Some (Number_toString (o + 20))) (o + 20)) as [rest [-> Hrest]].
    + apply PagingFacts.cursorOffset_Number_toString. lia.
    + lia.
    + lia.
    + cbn [bind option_map]. eexists. split; [reflexivity|].
      rewrite map_app, Hheights, Hrest.
      replace (Z.to_nat (tip + 1 - o))
        with (Z.to_nat (Z.min 20 (tip + 1 - o)) + Z.to_nat (tip + 1 - (o + 20)))%nat by lia.
      rewrite seq_app, map_app. f_equal.
      rewrite Nat.add_0_l.
      replace (Z.to_nat (Z.min 20 (tip + 1 - o))) with 20%nat by lia.
      rewrite (seq_offset 20).
      rewrite !map_map. apply map_ext. intros k. do 2 f_equal. lia.
  - cbn [Pages.nextLink]. exists blocks. split; [reflexivity|].
    rewrite Hheights. now replace (Z.min 20 (tip + 1 - o)) with (tip + 1 - o) by lia.
Qed.

(** A reader who loads too few pages does not reach the last one. *)
Lemma followExc_blocks_cut (tip : Z) (path : string) :
  getTipInfo = Return tip ->
  (forall h, 0 <= h <= tip -> exists b, getBlockByHeight (Int h) = Return b) ->
  forall (fuel : nat) (cursor : option string) (o : Z),
    cursorOffset cursor = Int o -> 0 <= o <= tip + 1 ->
    20 * Z.of_nat fuel <= tip + 1 - o ->
    Pages.followExc getBlocksPage path fuel cursor = Return None.
Proof.
  intros Htip Hnode. induction fuel as [|fuel IH]; intros cursor o Hoff Ho Hfuel;
    [reflexivity|].
  cbn [Pages.followExc].
  destruct (getBlocksPage_at tip o cursor Htip Hnode Hoff (proj1 Ho))
    as [blocks [-> Hheights]].
  cbn [bind nextCursor items].
  destruct (Z.leb_spec 20 (tip + 1 - o)) as [Hfull|Hshort]; [|lia].
  rewrite WalkFacts.nextLink_of_offset by lia. cbn [Pages.cursor_param].
  rewrite (IH (Some (Number_toString (o + 20))) (o + 20));
    [reflexivity | apply PagingFacts.cursorOffset_Number_toString; lia | lia | lia].
Qed.

(** X14: while the tip stays at [tip], a safe integer with the page size
    added, and the node answers for the heights up to it, a reader who opens
    the scanner's pages of blocks without a cursor and follows the next
    cursors reaches a page without a next cursor exactly when they load more
    than [(tip + 1) / 20] pages, the last of which is empty when the number
    of blocks is a multiple of twenty, and has then seen the blocks at the
    heights [tip], [tip - 1], ... , 0, each once. *)
Theorem rpc_block_pages_cover_the_chain (tip : Z) (path : string) (fuel : nat) :
  getTipInfo = Return tip -> 0 <= tip -> tip + pageSize <= MAX_SAFE_INTEGER ->
  (forall h, 0 <= h <= tip -> exists b, getBlockByHeight (Int h) = Return b) ->
  (tip + 1 < 20 * Z.of_nat fuel ->
   exists blocks,
     Pages.followExc getBlocksPage path fuel None = Return (Some blocks) /\
     map any_height blocks
     = map (fun k => JNum (Int (tip - Z.of_nat k))) (seq 0 (Z.to_nat (tip + 1)))) /\
  (20 * Z.of_nat fuel <= tip + 1 ->
   Pages.followExc getBlocksPage path fuel None = Return None).
Proof.
  intros Htip Hpos _ Hnode. split.
  - intros Hfuel.
    destruct (followExc_blocks tip path Htip Hnode fuel None 0) as [blocks [Hwalk Hheights]];
      [reflexivity | lia | lia |].
    exists blocks. split; [exact Hwalk|]. rewrite Hheights, !Z.sub_0_r. reflexivity.
  - intros Hfuel.
    apply (followExc_blocks_cut tip path Htip Hnode fuel None 0); [reflexivity | lia | lia].
Qed.

End Lists.

Lemma rpc_latest_blocks_count_down_witness :
  Rpc.getTipInfo (Return tt) (Return "0xhead"%string) (fun _ => Return 3) = Return 3 /\
  exists blocks,
    Rpc.getLatestBlocks Mock.newYearNoon (Return tt) (Return "0xhead"%string)
      (fun _ => Return 3) sampleHash (sampleBlock fourExtrinsics) (Int 10)
    = Return blocks /\
    map any_height blocks = [JNum (Int 3); JNum (Int 2); JNum (Int 1); JNum (Int 0)].
Proof.
  split; [reflexivity|].
  destruct (rpc_latest_blocks_count_down Mock.newYearNoon (Return tt) (Return "0xhead"%string)
              (fun _ => Return 3) sampleHash (sampleBlock fourExtrinsics) 3 10 eq_refl)
    as [Htotal Hshape].
  destruct Htotal as [blocks Hblocks].
  - intros h _. vm_compute. destruct h; eauto.
  - exists blocks. split; [exact Hblocks|]. exact (proj1 (Hshape blocks Hblocks)).
Defined.

(** *** The transactions, newest first *)

Lemma newestFirst_app (hs hs' : list Z) :
  newestFirst hs -> newestFirst hs' ->
  (forall x y, In x hs -> In y hs' -> y <= x) ->
  newestFirst (hs ++ hs').
Proof.
  induction hs as [|h hs IH]; intros Hs Hs' Hcross; [exact Hs'|].
  destruct Hs as [Hhead Htail]. cbn [app newestFirst]. split.
  - intros k Hk. apply in_app_or in Hk as [Hk|Hk]; [now apply Hhead|].
    apply Hcross; [now left | exact Hk].
  - apply IH; [exact Htail | exact Hs'|].
    intros x y Hx Hy. apply Hcross; [now right | exact Hy].
Qed.

Lemma newestFirst_constant (h : Z) (hs : list Z) :
  (forall k, In k hs -> k = h) -> newestFirst hs.
Proof.
  induction hs as [|x hs IH]; intros Hall; [exact I|]. split.
  - intros k Hk. rewrite (Hall k) by now right. rewrite (Hall x) by now left. lia.
  - apply IH. intros k Hk. apply Hall. now right.
Qed.

Lemma firstn_In {A : Type} (n : nat) (xs : list A) (x : A) :
  In x (firstn n xs) -> In x xs.
Proof.
  revert n. induction xs as [|y xs IH]; intros [|n]; cbn [firstn]; try contradiction.
  intros [->|H]; [now left | right; exact (IH n H)].
Qed.

Lemma skipn_In {A : Type} (n : nat) (xs : list A) (x : A) :
  In x (skipn n xs) -> In x xs.
Proof.
  revert n. induction xs as [|y xs IH]; intros [|n]; cbn [skipn]; try contradiction.
  - easy.
  - intros H. right. exact (IH n H).
Qed.

Lemma newestFirst_firstn (n : nat) (hs : list Z) :
  newestFirst hs -> newestFirst (firstn n hs).
Proof.
  revert n. induction hs as [|h hs IH]; intros [|n] Hs; try exact I.
  destruct Hs as [Hhead Htail]. cbn [firstn newestFirst]. split.
  - intros k Hk. apply Hhead. revert Hk. apply firstn_In.
  - now apply IH.
Qed.

Lemma newestFirst_skipn (n : nat) (hs : list Z) :
  newestFirst hs -> newestFirst (skipn n hs).
Proof.
  revert n. induction hs as [|h hs IH]; intros [|n] Hs; try exact Hs.
  apply IH. exact (proj2 Hs).
Qed.

Lemma forEachFrom_heights (exts : list Extrinsic) (events : list EventRecord) (h : Z)
  (ts : option string) :
  forall k, Forall (fun t => blockHeight t = Some h) (forEachFrom k exts events h ts).
Proof.
  induction exts as [|ext exts IH]; intros k; cbn [forEachFrom]; constructor;
    [reflexivity | apply IH].
Qed.

Lemma heights_constant (h : Z) (txs : list Transaction) :
  Forall (fun t => blockHeight t = Some h) txs ->
  map blockHeight txs = map Some (map (fun _ => h) txs).
Proof.
  induction 1 as [|t txs Ht _ IH]; [reflexivity|]. cbn [map]. now rewrite Ht, IH.
Qed.

Section Transactions.

Variable getApi : exc unit.
Variable getFinalizedHead : exc string.
Variable getHeader : string -> exc Z.
Variable getBlockHash : num -> exc string.
Variable getBlock : string -> exc SignedBlock.
Variable eventsAt : string -> exc (list EventRecord).

#[local] Abbreviation getTipInfo := (Rpc.getTipInfo getApi getFinalizedHead getHeader).
#[local] Abbreviation mapExtrinsicsForBlock :=
  (Rpc.mapExtrinsicsForBlock getApi getBlock eventsAt).
#[local] Abbreviation transactionsAt :=
  (Rpc.transactionsAt getApi getBlockHash getBlock eventsAt).
#[local] Abbreviation collectFrom := (Rpc.collectFrom getApi getBlockHash getBlock eventsAt).
#[local] Abbreviation getLatestTransactions :=
  (Rpc.getLatestTransactions getApi getFinalizedHead getHeader getBlockHash getBlock eventsAt).
#[local] Abbreviation getTransactionsPage :=
  (Rpc.getTransactionsPage getApi getFinalizedHead getHeader getBlockHash getBlock eventsAt).

Lemma mapExtrinsicsForBlock_heights (h : Z) (hashHex : string) (txs : list Transaction) :
  mapExtrinsicsForBlock h hashHex = Return txs ->
  Forall (fun t => blockHeight t = Some h) txs.
Proof.
  intros H. destruct (RpcFacts.mapExtrinsicsForBlock_inv _ _ _ _ _ _ H) as [sb [_ ->]].
  apply forEachFrom_heights.
Qed.

Lemma collectFrom_S (fuel : nat) (h : Z) (wanted : num) (collected : list Transaction) :
  collectFrom (S fuel) h wanted collected
  = if ltb (lengthOf collected) wanted && (0 <=? h)
    then (items <- transactionsAt h ;;
          collectFrom fuel (h - 1) wanted (collected ++ rev items))
    else Return collected.
Proof.
  cbn [Rpc.collectFrom]. unfold Rpc.transactionsAt.
  destruct (_ && _); [|reflexivity].
  destruct (getBlockHash (Int h)); reflexivity.
Qed.

Lemma collectFrom_heights (fuel : nat) :
  forall h wanted collected out hs,
    collectFrom fuel h wanted collected = Return out ->
    map blockHeight collected = map Some hs ->
    newestFirst hs -> (forall k, In k hs -> h < k) ->
    exists hs',
      map blockHeight out = map Some (hs ++ hs') /\
      newestFirst (hs ++ hs') /\
      forall k, In k hs' -> 0 <= k <= h /\ h - Z.of_nat fuel < k.
Proof.
  induction fuel as [|fuel IH]; intros h wanted collected out hs Hout Hhs Hsorted Habove.
  - injection Hout as <-. exists []. rewrite app_nil_r. now repeat split.
  - rewrite collectFrom_S in Hout.
    destruct (ltb (lengthOf collected) wanted && (0 <=? h)) eqn:Hcond.
    2:{ injection Hout as <-. exists []. rewrite app_nil_r. now repeat split. }
    apply andb_true_iff in Hcond as [_ Hpos]. apply Z.leb_le in Hpos.
    destruct (transactionsAt h) as [items|e] eqn:Hitems; cbn [bind] in Hout; [|discriminate].
    assert (Forall (fun t => blockHeight t = Some h) (rev items)) as Hrev.
    { apply Forall_rev. unfold Rpc.transactionsAt in Hitems.
      destruct (getBlockHash (Int h)) as [bHash|e]; cbn [bind] in Hitems; [|discriminate].
      exact (mapExtrinsicsForBlock_heights _ _ _ Hitems). }
    set (here := map (fun _ : Transaction => h) (rev items)).
    assert (forall k, In k here -> k = h) as Hhere.
    { intros k Hk. apply in_map_iff in Hk as [t [Hk _]]. now symmetry. }
    destruct (IH (h - 1) wanted (collected ++ rev items)%list out (hs ++ here)%list Hout)
      as [hs' [Hheights [Hsorted' Hbelow]]].
    + rewrite !map_app, Hhs. f_equal. exact (heights_constant h _ Hrev).
    + apply newestFirst_app; [exact Hsorted | exact (newestFirst_constant h _ Hhere)|].
      intros x y Hx Hy. rewrite (Hhere y Hy). specialize (Habove x Hx). lia.
    + intros k Hk. apply in_app_or in Hk as [Hk|Hk].
      * specialize (Habove k Hk). lia.
      * rewrite (Hhere k Hk). lia.
    + exists (here ++ hs')%list. rewrite app_assoc. split; [exact Hheights|].
      split; [exact Hsorted'|].
      intros k Hk. apply in_app_or in Hk as [Hk|Hk].
      * rewrite (Hhere k Hk). lia.
      * specialize (Hbelow k Hk). lia.
Qed.

Lemma collectFrom_total (fuel : nat) :
  forall h wanted collected,
    (forall x, scanned fuel h x -> exists items, transactionsAt x = Return items) ->
    exists out, collectFrom fuel h wanted collected = Return out.
Proof.
  induction fuel as [|fuel IH]; intros h wanted collected Hall; [cbn; eauto|].
  rewrite collectFrom_S.
  destruct (ltb (lengthOf collected) wanted && (0 <=? h)) eqn:Hcond; [|eauto].
  apply andb_true_iff in Hcond as [_ Hpos]. apply Z.leb_le in Hpos.
  destruct (Hall h) as [items ->]; [unfold scanned; lia|]. cbn [bind].
  apply IH. intros x Hx. apply Hall. unfold scanned in *. lia.
Qed.

Lemma getTipInfo_getApi (tip : Z) : getTipInfo = Return tip -> getApi = Return tt.
Proof.
  unfold Rpc.getTipInfo. destruct getApi as [[]|e]; [reflexivity | discriminate].
Qed.

Lemma bind_getApi {B : Type} (tip : Z) (k : unit -> exc B) :
  getTipInfo = Return tip -> bind getApi k = k tt.
Proof. intros Htip. now rewrite (getTipInfo_getApi _ Htip). Qed.

Lemma collected_from_tip (tip : Z) (wanted : num) (out : list Transaction) :
  collectFrom 200 tip wanted [] = Return out ->
  exists hs, map blockHeight out = map Some hs /\ newestFirst hs /\
             Forall (scanned 200 tip) hs.
Proof.
  intros Hout.
  destruct (collectFrom_heights 200 tip wanted [] out [] Hout eq_refl I)
    as [hs [Hheights [Hsorted Hrange]]]; [intros k []|].
  exists hs. split; [exact Hheights|]. split; [exact Hsorted|].
  apply Forall_forall. intros k Hk. specialize (Hrange k Hk). unfold scanned.
  change (Z.of_nat 200) with 200 in *. lia.
Qed.

(** X15: the scanner's [getLatestTransactions(limit)], for a limit that is
    not negative, returns at most [limit] transactions, newest first: each
    has the height of a block among the 200 below the tip, and the heights
    never grow along the list.  It returns whenever the node answers for the
    blocks of that range. *)
Theorem rpc_latest_transactions_newest_first (tip limit : Z) :
  getTipInfo = Return tip -> 0 <= limit ->
  ((forall h, scanned 200 tip h -> exists items, transactionsAt h = Return items) ->
   exists txs, getLatestTransactions (Int limit) = Return txs) /\
  (forall txs,
      getLatestTransactions (Int limit) = Return txs ->
      (List.length txs <= Z.to_nat limit)%nat /\
      exists hs, map blockHeight txs = map Some hs /\ newestFirst hs /\
                 Forall (scanned 200 tip) hs).
Proof.
  intros Htip Hlimit. unfold Rpc.getLatestTransactions.
  rewrite Htip. cbn [bind]. rewrite (bind_getApi tip _ Htip). split.
  - intros Hall. destruct (collectFrom_total 200 tip (Int limit) [] Hall) as [out ->].
    cbn [bind]. eauto.
  - intros txs. destruct (collectFrom 200 tip (Int limit) []) as [out|e] eqn:Hout;
      cbn [bind]; [|discriminate].
    intros [= <-]. rewrite CorpusFacts.slice_from_start.
    replace (limit <? 0) with false by (symmetry; apply Z.ltb_ge; lia).
    split; [rewrite length_firstn; lia|].
    destruct (collected_from_tip _ _ _ Hout) as [hs [Hheights [Hsorted Hrange]]].
    exists (firstn (Z.to_nat limit) hs).
    split; [now rewrite <- !firstn_map, Hheights|].
    split; [now apply newestFirst_firstn|].
    apply Forall_forall. intros k Hk. rewrite Forall_forall in Hrange.
    apply Hrange. revert Hk. apply firstn_In.
Qed.

Lemma collectFrom_sparse (fuel : nat) :
  (forall h items, transactionsAt h = Return items -> (List.length items <= 1)%nat) ->
  forall h wanted collected out,
    collectFrom fuel h (Int wanted) collected = Return out ->
    Z.of_nat (List.length out) <= Z.max (Z.of_nat (List.length collected)) wanted.
Proof.
  intros Hsparse. induction fuel as [|fuel IH]; intros h wanted collected out Hout.
  - injection Hout as <-. lia.
  - rewrite collectFrom_S in Hout.
    destruct (ltb (lengthOf collected) (Int wanted) && (0 <=? h)) eqn:Hcond.
    2:{ injection Hout as <-. lia. }
    apply andb_true_iff in Hcond as [Hless _]. cbn [ltb lengthOf] in Hless.
    apply Z.ltb_lt in Hless.
    destruct (transactionsAt h) as [items|e] eqn:Hitems; cbn [bind] in Hout; [|discriminate].
    specialize (Hsparse h items Hitems).
    specialize (IH _ _ _ _ Hout). rewrite length_app, length_rev in IH. lia.
Qed.

(** X16: a page of the scanner's [getTransactionsPage] holds at most twenty
    transactions, newest first, of blocks among the 200 below the tip; when
    it has a next cursor it holds exactly twenty.  On a chain whose blocks
    hold at most one extrinsic each no page has a next cursor: the scan stops
    as soon as it has collected the page, and the cursor is only set when it
    has collected more. *)
Theorem rpc_transactions_page_shape (cursor : option string) (o : Z)
  (p : Page Transaction) :
  cursorOffset cursor = Int o -> 0 <= o ->
  getTransactionsPage cursor = Return p ->
  (List.length (items p) <= 20)%nat /\
  (present (nextCursor p) -> List.length (items p) = 20%nat) /\
  (exists tip hs, getTipInfo = Return tip /\
                  map blockHeight (items p) = map Some hs /\ newestFirst hs /\
                  Forall (scanned 200 tip) hs) /\
  ((forall h items, transactionsAt h = Return items -> (List.length items <= 1)%nat) ->
   nextCursor p = None).
Proof.
  intros Hoff Ho. unfold Rpc.getTransactionsPage. rewrite Hoff.
  destruct getTipInfo as [tip|e] eqn:Htip; cbn [bind]; [|discriminate].
  rewrite (bind_getApi tip _ Htip). cbn [add].
  destruct (collectFrom 200 tip (Int (o + pageSize)) []) as [collected|e] eqn:Hout;
    cbn [bind]; [|discriminate].
  intros [= <-]. cbn [items nextCursor].
  rewrite PagingFacts.window_Int by exact Ho. unfold windowOf, pageSize in *.
  split; [rewrite length_firstn; lia|]. split; [|split].
  - rewrite PagingFacts.cursorWhen_present. cbn [gtb ltb lengthOf]. intros Hmore.
    apply Z.ltb_lt in Hmore. rewrite length_firstn, length_skipn. lia.
  - destruct (collected_from_tip _ _ _ Hout) as [hs [Hheights [Hsorted Hrange]]].
    exists tip, (firstn (Z.to_nat 20) (skipn (Z.to_nat o) hs)).
    split; [reflexivity|].
    split; [now rewrite <- !firstn_map, <- !skipn_map, Hheights|].
    split; [now apply newestFirst_firstn, newestFirst_skipn|].
    apply Forall_forall. intros k Hk. rewrite Forall_forall in Hrange.
    apply Hrange. apply firstn_In, skipn_In in Hk. exact Hk.
  - intros Hsparse. pose proof (collectFrom_sparse 200 Hsparse _ _ _ _ Hout) as Hlen.
    cbn [List.length] in Hlen. unfold cursorWhen. cbn [gtb ltb lengthOf].
    replace (o + 20 <? Z.of_nat (List.length collected)) with false; [reflexivity|].
    symmetry. apply Z.ltb_ge. lia.
Qed.

(** *** The transactions of one block *)

Lemma forEachFrom_fields (exts : list Extrinsic) (events : list EventRecord) (h : Z)
  (ts : option string) :
  forall k,
    map tx_hash (forEachFrom k exts events h ts) = map ext_hash exts /\
    map size (forEachFrom k exts events h ts) = map encodedLength exts /\
    (forall t, In t (forEachFrom k exts events h ts) ->
               blockHeight t = Some h /\ tx_timestamp t = ts) /\
    (events = [] -> forall t, In t (forEachFrom k exts events h ts) -> status t = pending).
Proof.
  induction exts as [|ext exts IH]; intros k; cbn [forEachFrom map].
  - repeat split; intros; contradiction.
  - destruct (IH (k + 1)) as [Hhash [Hsize [Hshared Hpending]]].
    rewrite Hhash, Hsize. split; [reflexivity|]. split; [reflexivity|]. split.
    + intros t [<-|Ht]; [now split | now apply Hshared].
    + intros -> t [<-|Ht]; [reflexivity | now apply Hpending].
Qed.

(** X17: the transactions that the scanner makes of a block are its
    extrinsics in order, each with the hash and the encoded length of its
    extrinsic; all carry the height the caller passed and the one timestamp
    of the block.  An event log that cannot be read does not fail the
    operation: every transaction is then pending. *)
Theorem rpc_block_transactions_share_the_block (h : Z) (hashHex : string) :
  (getApi = Return tt ->
   forall signedBlock, getBlock hashHex = Return signedBlock ->
                       exists txs, mapExtrinsicsForBlock h hashHex = Return txs) /\
  (forall txs,
      mapExtrinsicsForBlock h hashHex = Return txs ->
      exists signedBlock,
        getBlock hashHex = Return signedBlock /\
        map tx_hash txs = map ext_hash (extrinsics signedBlock) /\
        map size txs = map encodedLength (extrinsics signedBlock) /\
        (forall t, In t txs ->
                   blockHeight t = Some h /\
                   tx_timestamp t = blockTime (extrinsics signedBlock)) /\
        (forall e, eventsAt hashHex = Throw e ->
                   forall t, In t txs -> status t = pending)).
Proof.
  split.
  - intros Hapi sb Hsb. unfold Rpc.mapExtrinsicsForBlock. rewrite Hapi, Hsb. cbn [bind]. eauto.
  - intros txs H.
    destruct (RpcFacts.mapExtrinsicsForBlock_inv _ _ _ _ _ _ H) as [sb [Hsb ->]].
    exists sb. split; [exact Hsb|].
    destruct (forEachFrom_fields (extrinsics sb) (Rpc.eventLog eventsAt hashHex) h
                (blockTime (extrinsics sb)) 0) as [Hhash [Hsize [Hshared Hpending]]].
    split; [exact Hhash|]. split; [exact Hsize|]. split; [exact Hshared|].
    intros e He. apply Hpending. unfold Rpc.eventLog. now rewrite He.
Qed.

#[local] Abbreviation getBlockTransactions :=
  (Rpc.getBlockTransactions getApi getBlockHash getBlock eventsAt).
#[local] Abbreviation resolve := (Rpc.resolve getBlockHash getBlock).

(** X18: while the node answers the same for a block, a reader who opens
    the scanner's pages of the transactions of the block without a cursor
    and follows the next cursors reaches a page without a next cursor
    exactly when they load a page for every twenty transactions, one at
    least, and has then seen every transaction of the block once and in
    order. *)
Theorem rpc_block_transaction_pages_cover_the_block (id path : string) (fuel : nat)
  (h : Z) (hashHex : string) (all : list Transaction) :
  getApi = Return tt ->
  resolve id = Return (h, hashHex) ->
  mapExtrinsicsForBlock h hashHex = Return all ->
  (1 <= fuel)%nat ->
  Pages.followExc (getBlockTransactions id) path fuel None
  = Return (if (List.length all <=? 20 * fuel)%nat then Some all else None).
Proof.
  intros Hapi Hid Hall Hfuel.
  rewrite (WalkFacts.followExc_strict_pages all (getBlockTransactions id) path)
    with (o := 0); [| |reflexivity | lia | exact Hfuel].
  - change (Z.to_nat 0) with 0%nat. cbn [skipn].
    destruct (Z.leb_spec (Z.of_nat (List.length all) - 0) (20 * Z.of_nat fuel));
      destruct (Nat.leb_spec (List.length all) (20 * fuel)); try lia; reflexivity.
  - intros cursor o _ _. unfold Rpc.getBlockTransactions. rewrite Hapi. cbn [bind].
    rewrite Hid. cbn [bind]. rewrite <- Hapi at 1. rewrite Hall. reflexivity.
Qed.

End Transactions.

Lemma rpc_latest_transactions_newest_first_witness :
  Rpc.getTipInfo (Return tt) (Return "0xhead"%string) (fun _ => Return 3) = Return 3 /\
  0 <= 6 /\
  exists txs,
    Rpc.getLatestTransactions (Return tt) (Return "0xhead"%string) (fun _ => Return 3)
      sampleHash (sampleBlock fourExtrinsics) (sampleEvents fourEvents) (Int 6)
    = Return txs /\
    map blockHeight txs = [Some 3; Some 3; Some 3; Some 3; Some 2; Some 2] /\
    (List.length txs <= Z.to_nat 6)%nat.
Proof.
  split; [reflexivity|]. split; [lia|].
  eexists. split; [vm_compute; reflexivity|]. split; [reflexivity|].
  refine (proj1 (proj2 (rpc_latest_transactions_newest_first (Return tt)
            (Return "0xhead"%string) (fun _ => Return 3) sampleHash
            (sampleBlock fourExtrinsics) (sampleEvents fourEvents) 3 6 eq_refl _) _ _)).
  - lia.
  - vm_compute. reflexivity.
Defined.

Lemma rpc_transactions_page_shape_witness :
  cursorOffset None = Int 0 /\
  0 <= 0 /\
  exists p,
    Rpc.getTransactionsPage (Return tt) (Return "0xhead"%string) (fun _ => Return 30)
      sampleHash (sampleBlock Samples.oneExtrinsic) (sampleEvents []) None
    = Return p /\
    List.length (items p) = 20%nat /\
    map blockHeight (firstn 3 (items p)) = [Some 30; Some 29; Some 28] /\
    nextCursor p = None.
Proof.
  split; [reflexivity|]. split; [lia|].
  eexists. split; [vm_compute; reflexivity|]. split; [reflexivity|]. split; [reflexivity|].
  refine (proj2 (proj2 (proj2 (rpc_transactions_page_shape (Return tt)
            (Return "0xhead"%string) (fun _ => Return 30) sampleHash
            (sampleBlock Samples.oneExtrinsic) (sampleEvents []) None 0 _ eq_refl _ _))) _).
  - lia.
  - vm_compute. reflexivity.
  - intros h items. unfold Rpc.transactionsAt, sampleHash. cbn [bind].
    intros H. apply RpcFacts.mapExtrinsicsForBlock_inv in H as [sb [Hsb ->]].
    rewrite RpcFacts.forEachFrom_length. injection Hsb as <-. cbn. lia.
Defined.

Lemma rpc_block_transactions_share_the_block_witness :
  exists txs,
    Rpc.mapExtrinsicsForBlock (Return tt) (sampleBlock fourExtrinsics) Samples.noEvents
      7 "0x7"
    = Return txs /\
    map tx_hash txs = ["0xAA"; "0xBB"; "0xCC"; "0xDD"]%string /\
    forall t, In t txs -> status t = pending.
Proof.
  eexists. split; [vm_compute; reflexivity|]. split; [reflexivity|].
  destruct (rpc_block_transactions_share_the_block (Return tt) (sampleBlock fourExtrinsics)
              Samples.noEvents 7 "0x7") as [_ Hshape].
  destruct (Hshape _ eq_refl) as [sb [_ [_ [_ [_ Hpending]]]]].
  exact (Hpending "no events"%string eq_refl).
Defined.

Lemma rpc_block_lookup_goes_by_height_witness :
  exists b,
    Rpc.getBlockByHashOrHeight Mock.newYearNoon (Return tt) sampleHash
      (sampleBlock fourExtrinsics) "0xabc"
    = Return (Some b) /\
    any_hash b = JStr "0x0" /\
    any_height b = JNum (Int 0).
Proof.
  eexists. split; [vm_compute; reflexivity|]. split; [reflexivity|].
  destruct (rpc_block_lookup_goes_by_height Mock.newYearNoon (Return tt) sampleHash
              (sampleBlock fourExtrinsics) "0xabc") as [Hsome _].
  destruct (Hsome _ eq_refl) as [_ Hheight].
  destruct Hheight as [sb [Hsb Hheight]].
  injection Hsb as <-. exact Hheight.
Defined.

Lemma block_time_comes_from_first_timestamp_extrinsic_witness :
  blockTime fourExtrinsics = Some "2024-01-01T12:00:00.000Z"%string /\
  blockTime (Samples.unreadableTimestamp :: fourExtrinsics) = None.
Proof.
  split; [vm_compute; reflexivity|].
  destruct (block_time_comes_from_first_timestamp_extrinsic
              (Samples.unreadableTimestamp :: fourExtrinsics)) as [_ [_ Hfirst]].
  apply (Hfirst [] Samples.unreadableTimestamp fourExtrinsics).
  - reflexivity.
  - intros ext [].
  - reflexivity.
  - intros ms H. discriminate H.
Defined.

Lemma rpc_block_pages_cover_the_chain_witness :
  Rpc.getTipInfo (Return tt) (Return "0xhead"%string) (fun _ => Return 39) = Return 39 /\
  0 <= 39 /\
  39 + pageSize <= MAX_SAFE_INTEGER /\
  39 + 1 < 20 * Z.of_nat 3 /\
  20 * Z.of_nat 2 <= 39 + 1 /\
  (exists blocks,
      Pages.followExc
        (Rpc.getBlocksPage Mock.newYearNoon (Return tt) (Return "0xhead"%string)
           (fun _ => Return 39) sampleHash (sampleBlock []))
        "/blocks" 3 None
      = Return (Some blocks) /\
      List.length blocks = 40%nat) /\
  Pages.followExc
    (Rpc.getBlocksPage Mock.newYearNoon (Return tt) (Return "0xhead"%string)
       (fun _ => Return 39) sampleHash (sampleBlock []))
    "/blocks" 2 None
  = Return None.
Proof.
  assert (39 + pageSize <= MAX_SAFE_INTEGER) as Hsafe
    by (unfold pageSize, MAX_SAFE_INTEGER; lia).
  assert (forall h, 0 <= h <= 39 ->
                    exists b, Rpc.getBlockByHeight Mock.newYearNoon (Return tt) sampleHash
                                (sampleBlock []) (Int h) = Return b) as Hnode
    by (intros h _; vm_compute; eauto).
  split; [reflexivity|]. split; [lia|]. split; [exact Hsafe|].
  split; [lia|]. split; [lia|]. split.
  - destruct (rpc_block_pages_cover_the_chain Mock.newYearNoon (Return tt)
                (Return "0xhead"%string) (fun _ => Return 39) sampleHash (sampleBlock [])
                39 "/blocks" 3 eq_refl ltac:(lia) Hsafe Hnode) as [Hends _].
    destruct Hends as [blocks [Hwalk Hheights]]; [lia|].
    exists blocks. split; [exact Hwalk|].
    rewrite <- (length_map any_height), Hheights, length_map, length_seq. reflexivity.
  - destruct (rpc_block_pages_cover_the_chain Mock.newYearNoon (Return tt)
                (Return "0xhead"%string) (fun _ => Return 39) sampleHash (sampleBlock [])
                39 "/blocks" 2 eq_refl ltac:(lia) Hsafe Hnode) as [_ Hcut].
    apply Hcut. lia.
Defined.

Lemma rpc_block_transaction_pages_cover_the_block_witness :
  (List.length (Samples.manyExtrinsics) = 45)%nat /\
  exists all,
    Rpc.mapExtrinsicsForBlock (Return tt) (sampleBlock Samples.manyExtrinsics)
      (sampleEvents fourEvents) 7 "0x7" = Return all /\
    List.length all = 45%nat /\
    Pages.followExc
      (Rpc.getBlockTransactions (Return tt) sampleHash (sampleBlock Samples.manyExtrinsics)
         (sampleEvents fourEvents) "7")
      "/blocks/7/txs" 3 None
    = Return (Some all) /\
    Pages.followExc
      (Rpc.getBlockTransactions (Return tt) sampleHash (sampleBlock Samples.manyExtrinsics)
         (sampleEvents fourEvents) "7")
      "/blocks/7/txs" 2 None
    = Return None.
Proof.
  split; [reflexivity|].
  assert (exists all,
             Rpc.mapExtrinsicsForBlock (Return tt) (sampleBlock Samples.manyExtrinsics)
               (sampleEvents fourEvents) 7 "0x7" = Return all /\
             List.length all = 45%nat) as [all [Hall Hlen]]
    by (eexists; split; [vm_compute; reflexivity | reflexivity]).
  exists all. split; [exact Hall|]. split; [exact Hlen|]. split.
  - rewrite (rpc_block_transaction_pages_cover_the_block (Return tt) sampleHash
               (sampleBlock Samples.manyExtrinsics) (sampleEvents fourEvents)
               "7" "/blocks/7/txs" 3 7 "0x7" all eq_refl eq_refl Hall) by lia.
    rewrite Hlen. reflexivity.
  - rewrite (rpc_block_transaction_pages_cover_the_block (Return tt) sampleHash
               (sampleBlock Samples.manyExtrinsics) (sampleEvents fourEvents)
               "7" "/blocks/7/txs" 2 7 "0x7" all eq_refl eq_refl Hall) by lia.
    rewrite Hlen. reflexivity.
Defined.

End ScannerFacts.

(** ** Relative times *)

Module UtilsFacts.
Import Js Utils.

Lemma div_ltb (a k m : Z) : 0 < k -> (a / k <? m) = (a <? k * m).
Proof.
  intros Hk. destruct (Z.ltb_spec a (k * m)) as [Hlt|Hge].
  - apply Z.ltb_lt. now apply Z.div_lt_upper_bound.
  - apply Z.ltb_ge. now apply Z.div_le_lower_bound.
Qed.

Ltac literal_products :=
  repeat match goal with
         | |- context [Z.mul (Z.pos ?a) (Z.pos ?b)] =>
             let v := eval vm_compute in (Z.mul (Z.pos a) (Z.pos b)) in
             change (Z.mul (Z.pos a) (Z.pos b)) with v
         end.

(** X19: the label of [formatDistanceToNow] depends on the milliseconds [d]
    from the date to now alone: just now below ten seconds (and for every
    date in the future), then whole seconds below a minute, minutes below an
    hour, hours below a day, days below a week, weeks of seven days below
    thirty days, months of thirty days below 360 days, and years of 360 days
    from there on, each rounded down.  For an invalid date the label is
    NaNy. *)
Theorem relative_time_labels (now date : Z) :
  Z.abs (now - date) < 2 ^ 53 ->
  let d := now - date in
  formatDistanceToNow now (Int date)
  = (if d <? 10 * second then "just now"%string
     else if d <? minute then label (d / second) "s"%string
     else if d <? hour then label (d / minute) "m"%string
     else if d <? day then label (d / hour) "h"%string
     else if d <? 7 * day then label (d / day) "d"%string
     else if d <? 30 * day then label (d / (7 * day)) "w"%string
     else if d <? 360 * day then label (d / (30 * day)) "mo"%string
     else label (d / (360 * day)) "y"%string) /\
  formatDistanceToNow now NaN = "NaNy"%string.
Proof.
  intros _ d. split; [|reflexivity].
  unfold formatDistanceToNow. cbn [minus floorDiv ltb num_toString]. fold d.
  unfold label, day, hour, minute, second.
  rewrite !Z.div_div by lia. rewrite !div_ltb by lia.
  literal_products.
  destruct (Z.ltb_spec d 60000) as [H1|H1].
  { destruct (Z.ltb_spec d 10000); reflexivity. }
  replace (d <? 10000) with false by (symmetry; apply Z.ltb_ge; lia).
  destruct (Z.ltb_spec d 3600000) as [H2|H2]; [reflexivity|].
  destruct (Z.ltb_spec d 86400000) as [H3|H3]; [reflexivity|].
  destruct (Z.ltb_spec d 604800000) as [H4|H4]; [reflexivity|].
  destruct (Z.ltb_spec d 2592000000) as [H5|H5]; [reflexivity|].
  destruct (Z.ltb_spec d 31104000000) as [H6|H6]; reflexivity.
Qed.

Lemma relative_time_labels_witness :
  Z.abs (Mock.newYearNoon - (Mock.newYearNoon - 359 * day)) < 2 ^ 53 /\
  formatDistanceToNow Mock.newYearNoon (Int (Mock.newYearNoon - 359 * day)) = "11mo"%string /\
  formatDistanceToNow Mock.newYearNoon (Int (Mock.newYearNoon - 360 * day)) = "1y"%string /\
  formatDistanceToNow Mock.newYearNoon (Int (Mock.newYearNoon + hour)) = "just now"%string.
Proof.
  split; [vm_compute; reflexivity|].
  split; [|split].
  - rewrite (proj1 (relative_time_labels Mock.newYearNoon (Mock.newYearNoon - 359 * day)
                      ltac:(vm_compute; reflexivity))).
    vm_compute. reflexivity.
  - vm_compute. reflexivity.
  - vm_compute. reflexivity.
Defined.

End UtilsFacts.

(** ** The address of the node *)

Module PolkadotFacts.
Import Js Polkadot.
Local Open Scope string_scope.

Lemma prefix_split (p s : string) :
  String.prefix p s = true -> exists rest, s = p +++ rest.
Proof.
  revert s. induction p as [|c p IH]; intros [|c' s]; cbn [String.prefix].
  - intros _. now exists EmptyString.
  - intros _. now exists (String c' s).
  - discriminate.
  - destruct (ascii_dec c c') as [<-|_]; [|discriminate].
    intros H. destruct (IH s H) as [rest ->]. now exists rest.
Qed.

Lemma httpToWs_secure (rest : string) : httpToWs ("https://" +++ rest) = "wss://" +++ rest.
Proof. destruct rest; reflexivity. Qed.

Lemma httpToWs_plain (rest : string) : httpToWs ("http://" +++ rest) = "ws://" +++ rest.
Proof. destruct rest; reflexivity. Qed.

Lemma httpToWs_cases (url : string) :
  (exists rest, url = "https://" +++ rest /\ httpToWs url = "wss://" +++ rest) \/
  (exists rest, url = "http://" +++ rest /\ httpToWs url = "ws://" +++ rest) \/
  (startsWith url "https://" = false /\ startsWith url "http://" = false /\
   httpToWs url = url).
Proof.
  destruct (startsWith url "https://") eqn:Hs.
  - left. destruct (prefix_split _ _ Hs) as [rest ->]. exists rest.
    split; [reflexivity | apply httpToWs_secure].
  - destruct (startsWith url "http://") eqn:Hp.
    + right. left. destruct (prefix_split _ _ Hp) as [rest ->]. exists rest.
      split; [reflexivity | apply httpToWs_plain].
    + right. right. unfold httpToWs. now rewrite Hs, Hp.
Qed.

(** X20: [httpToWs] turns the scheme [https://] at the start of an address
    into [wss://] and [http://] into [ws://], leaves the rest of the address
    as it is, and leaves every other address alone; its result never starts
    with [http://] or [https://], and converting twice is converting once.
    [getWsUrl] is the conversion of the configured address, and the address
    of the test network when none is configured. *)
Theorem httpToWs_changes_only_the_scheme :
  (forall rest, httpToWs ("https://" +++ rest) = "wss://" +++ rest) /\
  (forall rest, httpToWs ("http://" +++ rest) = "ws://" +++ rest) /\
  (forall url, startsWith url "https://" = false -> startsWith url "http://" = false ->
               httpToWs url = url) /\
  (forall url, startsWith (httpToWs url) "http://" = false /\
               startsWith (httpToWs url) "https://" = false) /\
  (forall url, httpToWs (httpToWs url) = httpToWs url) /\
  getWsUrl EmptyString = "wss://rpc.testnet-02.midnight.network" /\
  (forall RPC_URL, RPC_URL <> EmptyString -> getWsUrl RPC_URL = httpToWs RPC_URL).
Proof.
  split; [exact httpToWs_secure|]. split; [exact httpToWs_plain|].
  split; [intros url Hs Hp; unfold httpToWs; now rewrite Hs, Hp|].
  split; [|split; [|split]].
  - intros url.
    destruct (httpToWs_cases url)
      as [[rest [-> ->]] | [[rest [-> ->]] | [Hs [Hp ->]]]]; auto.
  - intros url.
    destruct (httpToWs_cases url)
      as [[rest [-> ->]] | [[rest [-> ->]] | [Hs [Hp ->]]]]; try reflexivity.
    unfold httpToWs. now rewrite Hs, Hp.
  - reflexivity.
  - intros RPC_URL Hset. unfold getWsUrl.
    destruct (String.eqb_spec RPC_URL EmptyString); [contradiction | reflexivity].
Qed.

End PolkadotFacts.

(** ** The connection to the node *)

Module ConnectionFacts.
Import Js Connection.

Lemma sameListener_spec (p q : nat * nat) : sameListener p q = true <-> p = q.
Proof.
  destruct p as [i h], q as [j k]. unfold sameListener. cbn [fst snd].
  rewrite andb_true_iff, !Nat.eqb_eq. split; [intros [-> ->]; reflexivity|].
  now intros [= -> ->].
Qed.

Lemma In_without (ls : list (nat * nat)) (p q : nat * nat) :
  In p (filter (fun x => negb (sameListener x q)) ls) <-> In p ls /\ p <> q.
Proof.
  rewrite filter_In. split; intros [Hin Hne]; (split; [exact Hin|]).
  - intros ->. rewrite (proj2 (sameListener_spec q q) eq_refl) in Hne. discriminate.
  - destruct (sameListener p q) eqn:Hsame; [|reflexivity].
    apply sameListener_spec in Hsame. contradiction.
Qed.

Lemma listensTo_In (ls : list (nat * nat)) (i h : nat) :
  In (i, h) ls -> listensTo ls i = true.
Proof.
  intros Hin. unfold listensTo. apply existsb_exists. exists (i, h).
  split; [exact Hin | apply Nat.eqb_refl].
Qed.

(** The world after a call of [getApi], case by case. *)
Lemma step_GetApi (RPC_URL : string) (w : World) (a : Answers) :
  step RPC_URL w (GetApi a)
  = match apiInstance (state w), isConnected a, create a with
    | Some _, true, _ => mkWorld (state w) (listeners w) (creations w + 0)
    | Some i, false, Return _ =>
        mkWorld (mkState (Some (creations w)) (Some (creations w)))
                ((creations w, creations w)
                 :: match disconnectHandler (state w) with
                    | Some h => filter (fun p => negb (sameListener p (i, h))) (listeners w)
                    | None => listeners w
                    end)
                (creations w + 1)
    | Some i, false, Throw _ =>
        mkWorld (mkState None (disconnectHandler (state w)))
                match disconnectHandler (state w) with
                | Some h => filter (fun p => negb (sameListener p (i, h))) (listeners w)
                | None => listeners w
                end
                (creations w + 1)
    | None, _, Return _ =>
        mkWorld (mkState (Some (creations w)) (Some (creations w)))
                ((creations w, creations w) :: listeners w) (creations w + 1)
    | None, _, Throw _ => mkWorld (state w) (listeners w) (creations w + 1)
    end.
Proof.
  unfold step, getApi, connect.
  destruct (apiInstance (state w)) as [i|].
  - destruct (isConnected a); [reflexivity|].
    destruct (create a), (disconnectHandler (state w)); reflexivity.
  - destruct (isConnected a), (create a); reflexivity.
Qed.

Lemma wellKept_step (RPC_URL : string) (w : World) (st : Step) :
  wellKept w -> wellKept (step RPC_URL w st).
Proof.
  intros [Hnamed [Hnodup Hcached]].
  assert (forall j h extra, In (j, h) (listeners w) ->
                            h = j /\ (j < creations w + extra)%nat) as Hlater.
  { intros j h extra Hj. destruct (Hnamed j h Hj). split; [assumption | lia]. }
  assert (forall ls, (forall p, In p ls -> In p (listeners w)) -> NoDup ls ->
                     NoDup ((creations w, creations w) :: ls)) as Hfresh.
  { intros ls Hsub Hls. constructor; [|exact Hls].
    intros Hin. apply Hsub in Hin. destruct (Hnamed _ _ Hin). lia. }
  destruct st as [a|i].
  - rewrite step_GetApi.
    destruct (apiInstance (state w)) as [i|] eqn:Hi.
    + destruct (Hcached i eq_refl) as [Hhandler Hin]. rewrite Hhandler.
      destruct (isConnected a).
      * split; [|split]; cbn [listeners creations state].
        -- intros j h Hj. now apply Hlater.
        -- exact Hnodup.
        -- intros j Hj. rewrite Hi in Hj. injection Hj as <-. now split.
      * destruct (create a) as [[]|e];
          (split; [|split]; cbn [listeners creations state apiInstance disconnectHandler]).
        -- intros j h [[= <- <-]|Hj]; [split; [reflexivity | lia]|].
           apply In_without in Hj as [Hj _]. now apply Hlater.
        -- apply Hfresh; [|now apply NoDup_filter].
           intros p Hp. now apply In_without in Hp as [Hp _].
        -- intros j [= <-]. split; [reflexivity | now left].
        -- intros j h Hj. apply In_without in Hj as [Hj _]. now apply Hlater.
        -- now apply NoDup_filter.
        -- discriminate.
    + destruct (create a) as [[]|e];
        (split; [|split]; cbn [listeners creations state apiInstance disconnectHandler]);
        first [ exact Hnodup
              | now apply Hfresh
              | intros j h [[= <- <-]|Hj]; [split; [reflexivity | lia] | now apply Hlater]
              | intros j h Hj; now apply Hlater
              | intros j [= <-]; split; [reflexivity | now left]
              | intros j Hj; rewrite Hi in Hj; discriminate ].
  - cbn [step]. destruct (listensTo (listeners w) i).
    + split; [exact Hnamed|]. split; [exact Hnodup|]. discriminate.
    + split; [exact Hnamed|]. split; [exact Hnodup | exact Hcached].
Qed.

Lemma wellKept_run (RPC_URL : string) (steps : list Step) : wellKept (run RPC_URL steps).
Proof.
  unfold run.
  assert (wellKept initial) as Hinit.
  { split; [intros i h []|]. split; [constructor | discriminate]. }
  revert Hinit. generalize initial. induction steps as [|st steps IH]; intros w Hw; [exact Hw|].
  cbn [fold_left]. apply IH. now apply wellKept_step.
Qed.

(** X21: after every history of calls of [getApi] and of [disconnected]
    events, a cached instance carries exactly the handler held in
    [disconnectHandler].  While it is connected [getApi] returns it without
    a call to the library.  When the instance emits [disconnected] the cache
    is cleared, and the next [getApi] asks for a new connection to
    [getWsUrl()] and registers one handler on it, or fails and leaves the
    cache empty.  When [getApi] finds the cached instance not connected it
    takes the handler off it and no longer caches it. *)
Theorem connection_is_cached_until_it_disconnects (RPC_URL : string) (steps : list Step) :
  let w := run RPC_URL steps in
  wellKept w /\
  forall i,
    apiInstance (state w) = Some i ->
    (forall fresh a, isConnected a = true ->
                     getApi RPC_URL fresh a (state w) = (state w, [], Return i)) /\
    (let w' := step RPC_URL w (Emit i) in
     apiInstance (state w') = None /\
     forall a,
       match getApi RPC_URL (creations w') a (state w') with
       | (s, calls, Return j) =>
           j <> i /\ apiInstance s = Some j /\
           calls = [Create (Polkadot.getWsUrl RPC_URL); On j j]
       | (s, calls, Throw _) =>
           apiInstance s = None /\ calls = [Create (Polkadot.getWsUrl RPC_URL)]
       end) /\
    (forall a, isConnected a = false ->
               let w' := step RPC_URL w (GetApi a) in
               (forall h, ~ In (i, h) (listeners w')) /\
               apiInstance (state w') <> Some i).
Proof.
  intros w. pose proof (wellKept_run RPC_URL steps) as Hkept. fold w in Hkept.
  split; [exact Hkept|]. destruct Hkept as [Hnamed [Hnodup Hcached]].
  intros i Hi. destruct (Hcached i Hi) as [Hhandler Hin].
  destruct (Hnamed i i Hin) as [_ Hold].
  split; [|split].
  - intros fresh a Ha. unfold getApi. now rewrite Hi, Ha.
  - cbn [step]. rewrite (listensTo_In _ _ _ Hin).
    cbn [state onDisconnected apiInstance creations]. split; [reflexivity|].
    intros a. unfold getApi, connect. cbn [apiInstance app].
    destruct (create a) as [[]|e]; cbn [apiInstance]; repeat split. lia.
  - intros a Ha w'. unfold w'. rewrite step_GetApi, Hi, Ha, Hhandler.
    assert (forall h, ~ In (i, h) (filter (fun p => negb (sameListener p (i, i)))
                                          (listeners w))) as Hgone.
    { intros h Hh. apply In_without in Hh as [Hh Hne].
      destruct (Hnamed i h Hh) as [-> _]. now apply Hne. }
    destruct (create a) as [[]|e]; cbn [listeners state apiInstance]; split.
    + intros h [[= Heq _]|Hh]; [lia | exact (Hgone h Hh)].
    + intros [= Heq]. lia.
    + exact Hgone.
    + discriminate.
Qed.

Lemma connection_is_cached_until_it_disconnects_witness :
  let w := run "https://rpc.example" Samples.reconnects in
  state w = mkState (Some 1%nat) (Some 1%nat) /\
  listeners w = [(1%nat, 1%nat); (0%nat, 0%nat)] /\
  wellKept w.
Proof.
  split; [reflexivity|]. split; [reflexivity|].
  exact (proj1 (connection_is_cached_until_it_disconnects "https://rpc.example"
                  Samples.reconnects)).
Defined.

End ConnectionFacts.

(** ** The links of the pages and the search bar *)

Module PageFacts.
Import Js Pages.

Lemma mock_transactions_page_by_offset (mp : Mock.MockProvider) (c1 c2 : option string) :
  cursorOffset c1 = cursorOffset c2 ->
  Mock.getTransactionsPage mp c1 = Mock.getTransactionsPage mp c2.
Proof. intros H. unfold Mock.getTransactionsPage. now rewrite H. Qed.

(** X22: on a page of transactions whose cursor reads as the offset [o], a
    safe integer with the page size added, the link to the previous page is
    shown exactly when [o] is positive; it leads to the offset [o - 20], or
    to the list without a cursor when that is not positive.  From the page
    that a next cursor of [o + 20] leads to, the link to the previous page
    leads back to the offset [o].  There a MockProvider returns the page
    that it returned before, and a MockProvider of another construction, as
    every request has its own, a page of transactions with the same block
    heights and the same next cursor. *)
Theorem previous_link_undoes_next (route : string) (cursor : option string) (o : Z) :
  cursorOffset cursor = Int o -> 0 <= o -> o + pageSize <= MAX_SAFE_INTEGER ->
  (previousLink route cursor = None <-> o = 0) /\
  (forall link,
      previousLink route cursor = Some link ->
      path link = route /\
      cursorOffset (cursor_param link) = Int (Z.max 0 (o - 20)) /\
      (cursor_param link = None <-> o <= 20)) /\
  (forall next,
      nextLink route (Some (Number_toString (o + 20))) = Some next ->
      exists back,
        previousLink route (cursor_param next) = Some back /\
        cursorOffset (cursor_param back) = Int o /\
        (forall mp, Mock.getTransactionsPage mp (cursor_param back)
                    = Mock.getTransactionsPage mp cursor) /\
        (forall mp mp' tz tz' clock clock',
            Mock.construct tz clock = Return mp ->
            Mock.construct tz' clock' = Return mp' ->
            map blockHeight (items (Mock.getTransactionsPage mp' (cursor_param back)))
            = map blockHeight (items (Mock.getTransactionsPage mp cursor)) /\
            nextCursor (Mock.getTransactionsPage mp' (cursor_param back))
            = nextCursor (Mock.getTransactionsPage mp cursor))).
Proof.
  intros Hoff Ho _.
  assert (forall c n, cursorOffset c = Int n -> 0 <= n ->
                      previousLink route c
                      = if 0 <? n
                        then Some (mkHref route (if 0 <? n - 20
                                                 then Some (Number_toString (n - 20))
                                                 else None))
                        else None) as Hprev.
  { intros c n Hc Hn. unfold previousLink, prevHref. rewrite Hc.
    cbn [gtb ltb Utils.minus num_toString].
    destruct (0 <? n); [|reflexivity]. now destruct (0 <? n - 20). }
  split; [|split].
  - rewrite (Hprev cursor o Hoff Ho).
    destruct (Z.ltb_spec 0 o); split; intros Hnone;
      first [discriminate | reflexivity | lia | exfalso; lia].
  - intros link. rewrite (Hprev cursor o Hoff Ho).
    destruct (Z.ltb_spec 0 o) as [Hpos|Hzero]; [|discriminate].
    intros [= <-]. cbn [path cursor_param]. split; [reflexivity|].
    destruct (Z.ltb_spec 0 (o - 20)) as [Hfar|Hnear].
    + rewrite PagingFacts.cursorOffset_Number_toString by lia.
      split; [f_equal; lia|]. split; [discriminate | lia].
    + split; [cbn [cursorOffset]; f_equal; lia|]. split; [lia | reflexivity].
  - intros next. rewrite WalkFacts.nextLink_of_offset by lia. intros [= <-].
    cbn [cursor_param].
    rewrite (Hprev (Some (Number_toString (o + 20))) (o + 20))
      by (try apply PagingFacts.cursorOffset_Number_toString; lia).
    replace (0 <? o + 20) with true by (symmetry; apply Z.ltb_lt; lia).
    replace (o + 20 - 20) with o by lia.
    eexists. split; [reflexivity|]. cbn [cursor_param].
    assert (cursorOffset (if 0 <? o then Some (Number_toString o) else None) = Int o) as Hback.
    { destruct (Z.ltb_spec 0 o) as [Hpos|Hzero].
      - apply PagingFacts.cursorOffset_Number_toString. lia.
      - cbn [cursorOffset]. f_equal. lia. }
    split; [exact Hback|]. split.
    + intros mp. apply mock_transactions_page_by_offset. now rewrite Hback, Hoff.
    + intros mp mp' tz tz' clock clock' Hmp Hmp'.
      unfold Mock.getTransactionsPage. cbn [items nextCursor]. rewrite Hback, Hoff.
      rewrite !window_map.
      rewrite (proj2 (MockFacts.construct_heights _ _ _ Hmp)).
      rewrite (proj2 (MockFacts.construct_heights _ _ _ Hmp')).
      unfold lengthOf.
      rewrite (proj2 (MockFacts.construct_lengths _ _ _ Hmp)).
      rewrite (proj2 (MockFacts.construct_lengths _ _ _ Hmp')).
      split; reflexivity.
Qed.

Lemma previous_link_undoes_next_witness :
  cursorOffset (Some "20"%string) = Int 20 /\
  0 <= 20 /\
  20 + pageSize <= MAX_SAFE_INTEGER /\
  previousLink "/txs" (Some "20"%string) = Some (mkHref "/txs" None) /\
  previousLink "/txs" (Some "40"%string) = Some (mkHref "/txs" (Some "20"%string)) /\
  exists back,
    previousLink "/txs" (Some "40"%string) = Some back /\
    cursorOffset (cursor_param back) = Int 20.
Proof.
  assert (20 + pageSize <= MAX_SAFE_INTEGER) as Hsafe
    by (unfold pageSize, MAX_SAFE_INTEGER; lia).
  split; [reflexivity|]. split; [lia|]. split; [exact Hsafe|].
  split; [reflexivity|]. split; [reflexivity|].
  destruct (previous_link_undoes_next "/txs" (Some "20"%string) 20 eq_refl ltac:(lia) Hsafe)
    as [_ [_ Hback]].
  destruct (Hback (mkHref "/txs" (Some "40"%string)) eq_refl) as [back [Hprev [Hoff _]]].
  exists back. split; [exact Hprev | exact Hoff].
Defined.

(** *** The search bar *)

Lemma skipWhiteSpace_empty (s : string) :
  skipWhiteSpace s = EmptyString <-> allWhiteSpace s = true.
Proof.
  induction s as [|c s IH]; cbn [skipWhiteSpace allWhiteSpace]; [tauto|].
  destruct (isWhiteSpace c); cbn [andb]; [exact IH|]. split; discriminate.
Qed.

Lemma skipWhiteSpace_head (s : string) (c : ascii) (rest : string) :
  skipWhiteSpace s = String c rest -> isWhiteSpace c = false.
Proof.
  induction s as [|x s IH]; cbn [skipWhiteSpace]; [discriminate|].
  destruct (isWhiteSpace x) eqn:Hx; [exact IH|]. now intros [= <- _].
Qed.

Lemma reverseOnto_white (s acc : string) :
  allWhiteSpace (reverseOnto s acc) = allWhiteSpace s && allWhiteSpace acc.
Proof.
  revert acc. induction s as [|c s IH]; intros acc; cbn [reverseOnto allWhiteSpace];
    [reflexivity|].
  rewrite IH. cbn [allWhiteSpace]. now destruct (isWhiteSpace c), (allWhiteSpace s).
Qed.

Lemma reverseOnto_length (s acc : string) :
  String.length (reverseOnto s acc) = (String.length s + String.length acc)%nat.
Proof.
  revert acc. induction s as [|c s IH]; intros acc; cbn [reverseOnto String.length];
    [reflexivity|].
  rewrite IH. cbn [String.length]. lia.
Qed.

Lemma reverse_empty (s : string) : reverse s = EmptyString <-> s = EmptyString.
Proof.
  split; [|now intros ->]. intros H.
  pose proof (reverseOnto_length s EmptyString) as Hlen. unfold reverse in H.
  rewrite H in Hlen. destruct s; [reflexivity | discriminate].
Qed.

Lemma allWhiteSpace_skip (s : string) :
  allWhiteSpace (skipWhiteSpace s) = allWhiteSpace s.
Proof.
  induction s as [|c s IH]; cbn [skipWhiteSpace allWhiteSpace]; [reflexivity|].
  destruct (isWhiteSpace c) eqn:Hc; [exact IH|]. cbn [allWhiteSpace]. now rewrite Hc.
Qed.

Lemma trim_empty (s : string) : trim s = EmptyString <-> allWhiteSpace s = true.
Proof.
  unfold trim. rewrite reverse_empty, skipWhiteSpace_empty.
  unfold reverse. rewrite reverseOnto_white, andb_true_r.
  now rewrite allWhiteSpace_skip.
Qed.

Lemma digit_is_plain (c : ascii) :
  isDigit c = true ->
  isWhiteSpace c = false /\ c <> "-"%char /\ c <> "+"%char /\
  exists d, 0 <= d < 10 /\ digitValue c = Some d.
Proof.
  destruct c as [[] [] [] [] [] [] [] []]; try discriminate; intros _;
    (split; [reflexivity|]; split; [discriminate|]; split; [discriminate|];
     eexists; split; [|reflexivity]; cbn; lia).
Qed.

Lemma parseDigits_allDigits (s : string) :
  forall a, 0 <= a -> allDigits s = true ->
            exists v, 0 <= v /\ parseDigits 10 s (Some a) = Some v.
Proof.
  induction s as [|c s IH]; intros a Ha; cbn [allDigits parseDigits]; [eauto|].
  intros H. apply andb_true_iff in H as [Hc Hs].
  destruct (digit_is_plain c Hc) as [_ [_ [_ [d [Hd ->]]]]].
  replace (d <? 10) with true by (symmetry; apply Z.ltb_lt; lia).
  apply IH; [lia | exact Hs].
Qed.

Lemma parseInt10_decimal (s : string) :
  isDecimal s = true -> exists n, 0 <= n /\ parseInt10 s = Int n.
Proof.
  destruct s as [|c s]; [discriminate|]. cbn [isDecimal allDigits]. intros H.
  apply andb_true_iff in H as [Hc Hs].
  destruct (digit_is_plain c Hc) as [Hwhite [Hminus [Hplus [d [Hd Hvalue]]]]].
  assert (parseDigits 10 (String c s) None = parseDigits 10 s (Some d)) as Hdigits.
  { cbn [parseDigits]. rewrite Hvalue.
    now replace (d <? 10) with true by (symmetry; apply Z.ltb_lt; lia). }
  destruct (parseDigits_allDigits s d (proj1 Hd) Hs) as [v [Hv Hparse]].
  exists v. split; [exact Hv|].
  unfold parseInt10, parseIntWith. cbn [skipWhiteSpace]. rewrite Hwhite.
  assert (parseSigned 10 false false (String c s) = Int v) as Hsigned.
  { unfold parseSigned. cbn [andb].
    assert (signed false (parseDigits 10 (String c s) None) = Int v) as ->
      by now rewrite Hdigits, Hparse.
    destruct c as [[] [] [] [] [] [] [] []]; try reflexivity. now destruct s. }
  destruct c as [[] [] [] [] [] [] [] []]; try exact Hsigned;
    try (now elim Hminus); now elim Hplus.
Qed.

(** X23: the search bar pushes nothing for a query of white space only;
    otherwise it pushes one path for the trimmed query, which is not empty:
    the page of the block when the query is all digits (the indexer client
    then reads the id as a height, a number that is not negative), else the
    page of the transaction when the query has forty characters or more
    (so also for the hash of a block), else the page of the address. *)
Theorem search_routes_by_shape (query : string) :
  (handleSearch query = None <-> allWhiteSpace query = true) /\
  (forall target,
      handleSearch query = Some target ->
      let q := trim query in
      q <> EmptyString /\
      (isDecimal q = true ->
       target = ("/blocks/" +++ q)%string /\
       exists n, 0 <= n /\ Indexer.idHeight q = JNum (Int n)) /\
      (isDecimal q = false -> (40 <= String.length q)%nat ->
       target = ("/txs/" +++ q)%string) /\
      (isDecimal q = false -> (String.length q < 40)%nat ->
       target = ("/address/" +++ q)%string)).
Proof.
  unfold handleSearch. rewrite <- trim_empty.
  destruct (String.eqb_spec (trim query) EmptyString) as [Hempty|Hquery].
  - split; [tauto|]. intros target. discriminate.
  - split.
    { split; [|contradiction].
      destruct (isDecimal _); [discriminate|]. destruct (_ <=? _)%nat; discriminate. }
    intros target Htarget. set (q := trim query) in *. split; [exact Hquery|].
    destruct (isDecimal q) eqn:Hdecimal.
    + injection Htarget as <-. split.
      * intros _. split; [reflexivity|].
        destruct (parseInt10_decimal q Hdecimal) as [n [Hn Hparse]].
        exists n. split; [exact Hn|]. unfold Indexer.idHeight. now rewrite Hdecimal, Hparse.
      * split; discriminate.
    + split; [discriminate|].
      destruct (Nat.leb_spec 40 (String.length q)) as [Hlong|Hshort];
        injection Htarget as <-; split; intros _ H; try reflexivity; lia.
Qed.

Lemma search_routes_by_shape_witness :
  handleSearch "  12345 " = Some "/blocks/12345"%string /\
  handleSearch " 0123456789abcdef0123456789abcdef01234567"
  = Some "/txs/0123456789abcdef0123456789abcdef01234567"%string /\
  handleSearch "mn_addr1" = Some "/address/mn_addr1"%string /\
  exists n, 0 <= n /\ Indexer.idHeight (trim "  12345 ") = JNum (Int n).
Proof.
  split; [reflexivity|]. split; [reflexivity|]. split; [reflexivity|].
  destruct (search_routes_by_shape "  12345 ") as [_ Hroute].
  destruct (Hroute _ eq_refl) as [_ [Hblock _]].
  exact (proj2 (Hblock eq_refl)).
Defined.

End PageFacts.
